(** * Exploding-kitten bots: risk estimation, opponent model, combo detection,
      knowledge tracking, reactions and defuse placement.

    The development embeds the four bots of [src/bots] ([my_bot.py],
    [aaron_bot.py], [mastermind_bot.py], [tft_bot.py]) as Rocq functions and
    proves properties of them.

    Conventions of the embedding.
    - Python [int] is [Z]; lengths and counters that only grow from zero are
      [nat].
    - Python [float] is modelled by the exact rationals [Q]: a decimal literal
      such as [0.33] is the rational [33/100], and [/], [*], [min] are exact.
    - A [dict] whose iteration order is observed (the grouping of a hand by
      card type) is an insertion-ordered association list; the other dicts
      are [gmap]s.
    - [view.say] only produces chat output and is left out.
    - [random.random()] and [random.randint] read an explicit random draw
      passed as an argument. *)

From Stdlib Require Import ZArith QArith Qround List String Bool Lia Lqa.
From stdpp Require Import gmap strings.
Import ListNotations.

Local Open Scope string_scope.
Local Open Scope Z_scope.

(* ===================================================================== *)
(** * Python helpers *)
(* ===================================================================== *)

Module Py.

(** [min(a, b)] on floats: the first argument unless the second is
    strictly smaller. *)
Definition fmin (a b : Q) : Q := if Qle_bool a b then a else b.

(** [max(a, b)] on floats: the first argument unless the second is
    strictly larger. *)
Definition fmax (a b : Q) : Q := if Qle_bool b a then a else b.

Definition float (n : Z) : Q := inject_Z n.

(** [x < y] and [x >= y] on floats. *)
Definition flt (x y : Q) : bool := negb (Qle_bool y x).
Definition fge (x y : Q) : bool := Qle_bool y x.

(** [int(x)] for a non-negative float. *)
Definition int (x : Q) : Z := Qfloor x.

(** Truthiness of a sequence. *)
Definition truthy {A} (l : list A) : bool :=
  match l with [] => false | _ :: _ => true end.

(** [max(l, key=key)]: the first element whose key is maximal;
    [None] stands for the [ValueError] raised on an empty sequence. *)
Fixpoint max_from {A} (key : A -> Z) (best : A) (l : list A) : A :=
  match l with
  | [] => best
  | x :: r => if key best <? key x then max_from key x r
              else max_from key best r
  end.

Definition max_by {A} (key : A -> Z) (l : list A) : option A :=
  match l with
  | [] => None
  | x :: r => Some (max_from key x r)
  end.

(** [min(l, key=key)]: the first element whose key is minimal. *)
Fixpoint min_from {A} (key : A -> Z) (best : A) (l : list A) : A :=
  match l with
  | [] => best
  | x :: r => if key x <? key best then min_from key x r
              else min_from key best r
  end.

Definition min_by {A} (key : A -> Z) (l : list A) : option A :=
  match l with
  | [] => None
  | x :: r => Some (min_from key x r)
  end.

(** [random.randint(a, b)] driven by a raw draw [u]: a value of [a..b];
    [None] stands for the [ValueError] raised when [b < a]. *)
Definition randint (u : Z) (a b : Z) : option Z :=
  if a <=? b then Some (a + u mod (b - a + 1)) else None.

(** [x or y] for an optional integer: [y] when [x] is [None] or [0]. *)
Definition int_or (x : option Z) (y : Z) : Z :=
  match x with
  | Some n => if n =? 0 then y else n
  | None => y
  end.

(** [l.index(x)]: position of the first occurrence. *)
Fixpoint index (x : string) (l : list string) : option nat :=
  match l with
  | [] => None
  | y :: r => if String.eqb y x then Some O
              else option_map S (index x r)
  end.

(** [x in l] for strings. *)
Definition mem (x : string) (l : list string) : bool :=
  existsb (String.eqb x) l.

(** [sum(counter.values())]. *)
Definition sum_values (c : gmap string nat) : nat :=
  map_fold (fun _ n acc => (n + acc)%nat) O c.

(** [counter[k]]: a missing key counts as zero. *)
Definition count_of (c : gmap string nat) (k : string) : nat :=
  default O (c !! k).

(** [d[k] = f(d.get(k))] on a dict kept in insertion order: an existing
    key keeps its place, a new key goes to the end. *)
Fixpoint dict_update {V} (k : string) (f : option V -> V)
  (d : list (string * V)) : list (string * V) :=
  match d with
  | [] => [(k, f None)]
  | (k', x) :: d' =>
      if String.eqb k' k then (k', f (Some x)) :: d'
      else (k', x) :: dict_update k f d'
  end.

(** [sub in s] for strings. *)
Definition contains (sub s : string) : bool :=
  match String.index 0 sub s with
  | Some _ => true
  | None => false
  end.

(** [l[0]]; [None] stands for the [IndexError] on an empty sequence. *)
Definition first {A} (l : list A) : option A :=
  match l with
  | x :: _ => Some x
  | [] => None
  end.

(** [a < b] on pairs (int, float), compared like Python tuples. *)
Definition pair_lt (a b : Z * Q) : bool :=
  if fst a =? fst b then flt (snd a) (snd b) else fst a <? fst b.

(** [min(l, key=key)] for a key of pairs: the first element whose key is
    minimal. *)
Fixpoint min_pair_from {A} (key : A -> Z * Q) (best : A) (l : list A) : A :=
  match l with
  | [] => best
  | x :: r => if pair_lt (key x) (key best) then min_pair_from key x r
              else min_pair_from key best r
  end.

Definition min_by_pair {A} (key : A -> Z * Q) (l : list A) : option A :=
  match l with
  | [] => None
  | x :: r => Some (min_pair_from key x r)
  end.

End Py.

(* ===================================================================== *)
(** * The engine interface the bots are written against *)
(* ===================================================================== *)

Module Engine.

(** Modelled from the spec: the engine's [Card] class ([game.cards.base])
    is not part of the bots' sources.  The spec's data model gives a card
    a kind and a combo-eligibility flag; [card_uid] stands for the identity
    of the Python object, so that two cards of one kind can be told
    apart. *)
Record Card := mkCard {
  card_type : string;
  can_combo : bool;
  card_uid : nat
}.

(** Modelled from the spec: the three actions of [game.bots.base]. *)
Inductive Action :=
| DrawCardAction
| PlayCardAction (card : Card) (target_player_id : option string)
| PlayComboAction (cards : list Card) (target_player_id : option string).

(** Modelled from the spec: the event kinds of [game.history] the bots
    test for. *)
Inductive EventType :=
| BOT_CHAT | GAME_START | CARD_PLAYED | COMBO_PLAYED | CARD_DRAWN
| CARDS_PEEKED | DECK_SHUFFLED | EXPLODING_KITTEN_INSERTED
| EXPLODING_KITTEN_DRAWN | PLAYER_ELIMINATED | DEFUSE_USED
| FAVOR_REQUESTED.

Definition EventType_eqb (a b : EventType) : bool :=
  match a, b with
  | BOT_CHAT, BOT_CHAT | GAME_START, GAME_START
  | CARD_PLAYED, CARD_PLAYED | COMBO_PLAYED, COMBO_PLAYED
  | CARD_DRAWN, CARD_DRAWN | CARDS_PEEKED, CARDS_PEEKED
  | DECK_SHUFFLED, DECK_SHUFFLED
  | EXPLODING_KITTEN_INSERTED, EXPLODING_KITTEN_INSERTED
  | EXPLODING_KITTEN_DRAWN, EXPLODING_KITTEN_DRAWN
  | PLAYER_ELIMINATED, PLAYER_ELIMINATED | DEFUSE_USED, DEFUSE_USED
  | FAVOR_REQUESTED, FAVOR_REQUESTED => true
  | _, _ => false
  end.

(** The payload dict of an event, one optional field per key the bots
    read with [data.get]. *)
Record EventData := mkData {
  d_card_type : option string;          (* "card_type" *)
  d_card_types : option (list string);  (* "card_types" *)
  d_target_player_id : option string;   (* "target_player_id" *)
  d_target : option string              (* "target" *)
}.

Record GameEvent := mkEvent {
  event_type : EventType;
  player_id : option string;
  data : EventData
}.

(** Modelled from the spec: the read-only view of [game.bots.view]. *)
Record BotView := mkView {
  my_id : string;
  my_hand : list Card;
  draw_pile_count : Z;
  discard_pile : list Card;
  turn_order : list string;
  other_players : list string;
  other_player_card_counts : gmap string Z;
  my_turns_remaining : Z
}.

Definition get_cards_of_type (v : BotView) (t : string) : list Card :=
  List.filter (fun c => String.eqb (card_type c) t) (my_hand v).

Definition count_cards_of_type (v : BotView) (t : string) : Z :=
  Z.of_nat (length (get_cards_of_type v t)).

(** [view.other_player_card_counts.get(pid, 0)] *)
Definition card_count (v : BotView) (pid : string) : Z :=
  default 0 (other_player_card_counts v !! pid).

(** [event.player_id == some_id] *)
Definition player_is (e : GameEvent) (pid : string) : bool :=
  match player_id e with
  | Some p => String.eqb p pid
  | None => false
  end.

(** [x == view.my_id] for an optional payload field. *)
Definition opt_is (x : option string) (pid : string) : bool :=
  match x with
  | Some p => String.eqb p pid
  | None => false
  end.

(** Card type names. *)
Definition STF := "SeeTheFutureCard".
Definition SKIP := "SkipCard".
Definition ATTACK := "AttackCard".
Definition SHUFFLE := "ShuffleCard".
Definition FAVOR := "FavorCard".
Definition NOPE := "NopeCard".
Definition DEFUSE := "DefuseCard".
Definition EXPLODING := "ExplodingKittenCard".

(** The three combo tags used by every bot. *)
Inductive ComboType := three_of_a_kind | two_of_a_kind | five_different.

Definition Combo : Type := ComboType * list Card.

Definition ComboType_eqb (a b : ComboType) : bool :=
  match a, b with
  | three_of_a_kind, three_of_a_kind
  | two_of_a_kind, two_of_a_kind
  | five_different, five_different => true
  | _, _ => false
  end.

(** The Pair / Triple produced for one card type from the cards of that
    type: the loop body shared by every bot's combo finder. *)
Definition set_combo (n : nat) (cards_of_type : list Card) : list Combo :=
  if (3 <=? n)%nat then [(three_of_a_kind, firstn 3 cards_of_type)]
  else if (2 <=? n)%nat then [(two_of_a_kind, firstn 2 cards_of_type)]
  else [].

(** [view.has_card_type(t)] *)
Definition has_card_type (v : BotView) (t : string) : bool :=
  Py.truthy (get_cards_of_type v t).

(** [c.card_type not in types] *)
Definition type_not_in (types : list string) (c : Card) : bool :=
  negb (Py.mem (card_type c) types).

(** The Favor response shared by the bots: a cat card first, then a card
    whose type is not in [kept], then whatever comes first. *)
Definition give_by_priority (kept : list string) (hand : list Card)
  : option Card :=
  match List.filter (fun c => Py.contains "Cat" (card_type c)) hand with
  | cat0 :: _ => Some cat0
  | [] =>
      match List.filter (type_not_in kept) hand with
      | c :: _ => Some c
      | [] => Py.first hand
      end
  end.

End Engine.

Import Engine.

(* ===================================================================== *)
(** * aaron_bot.py *)
(* ===================================================================== *)

Module Aaron.

Record OpponentProfile := mkProfile { defensive : Q; nope : Q }.

Record State := mkState {
  _turn_count : Z;
  _initial_player_count : option Z;
  _first_ek_seen_from_other : bool;
  _kittens_removed : Z;
  _known_top_cards : option (list string);
  _opponent_card_history : gmap string (list string);
  _opponent_card_counts : gmap string (gmap string nat);
  _defuses_seen : Z
}.

Definition __init__ : State :=
  {| _turn_count := 0; _initial_player_count := None;
     _first_ek_seen_from_other := false; _kittens_removed := 0;
     _known_top_cards := None; _opponent_card_history := ∅;
     _opponent_card_counts := ∅; _defuses_seen := 0 |}.

(** Truthiness of [self._known_top_cards]: neither [None] nor empty. *)
Definition known (s : State) : list string :=
  default [] (_known_top_cards s).

Definition calculate_ek_risk (s : State) (v : BotView) : Q :=
  let players := Py.int_or (_initial_player_count s)
                           (Z.of_nat (length (turn_order v))) in
  let baseline_kittens := Z.max 1 (players - 1 - _kittens_removed s) in
  let deck_size := Z.max 1 (draw_pile_count v) in
  match known s with
  | (first :: _) as visible =>
      if String.eqb first EXPLODING then 1%Q
      else if Py.mem EXPLODING visible then
        (1 / Py.float (Z.of_nat (length visible)))%Q
      else
        let unseen := Z.max 1 (deck_size - Z.of_nat (length visible)) in
        Py.fmin 1 (Py.float baseline_kittens / Py.float unseen)
  | [] =>
      let risk := Py.fmin 1 (Py.float baseline_kittens / Py.float deck_size) in
      let defuses := count_cards_of_type v DEFUSE in
      if 0 <? defuses then (risk * (6 # 10))%Q else risk
  end.

Definition simulate_opponent (s : State) (player : string) : OpponentProfile :=
  let history := default ∅ (_opponent_card_counts s !! player) in
  let total_seen := Py.sum_values history in
  if Nat.eqb total_seen 0 then {| defensive := 3 # 10; nope := 2 # 10 |}
  else
    let defensive_cards :=
      (Py.count_of history SKIP + Py.count_of history ATTACK
       + Py.count_of history SHUFFLE)%nat in
    let nope_cards := Py.count_of history NOPE in
    let denom := Py.float (Z.max 1 (Z.of_nat total_seen)) in
    {| defensive := Py.fmin (8 # 10) (Py.float (Z.of_nat defensive_cards) / denom);
       nope := Py.fmin (7 # 10) (Py.float (Z.of_nat nope_cards) / denom) |}.

(** *** Event tracking *)

Definition set_known (s : State) (k : option (list string)) : State :=
  {| _turn_count := _turn_count s;
     _initial_player_count := _initial_player_count s;
     _first_ek_seen_from_other := _first_ek_seen_from_other s;
     _kittens_removed := _kittens_removed s;
     _known_top_cards := k;
     _opponent_card_history := _opponent_card_history s;
     _opponent_card_counts := _opponent_card_counts s;
     _defuses_seen := _defuses_seen s |}.

Definition set_first_ek_seen (s : State) (b : bool) : State :=
  {| _turn_count := _turn_count s;
     _initial_player_count := _initial_player_count s;
     _first_ek_seen_from_other := b;
     _kittens_removed := _kittens_removed s;
     _known_top_cards := _known_top_cards s;
     _opponent_card_history := _opponent_card_history s;
     _opponent_card_counts := _opponent_card_counts s;
     _defuses_seen := _defuses_seen s |}.

Definition set_kittens_removed (s : State) (n : Z) : State :=
  {| _turn_count := _turn_count s;
     _initial_player_count := _initial_player_count s;
     _first_ek_seen_from_other := _first_ek_seen_from_other s;
     _kittens_removed := n;
     _known_top_cards := _known_top_cards s;
     _opponent_card_history := _opponent_card_history s;
     _opponent_card_counts := _opponent_card_counts s;
     _defuses_seen := _defuses_seen s |}.

(** [history.setdefault(pid, []).append(card)] and
    [counts[pid][card] += 1]. *)
Definition record_play (s : State) (pid card : string) : State :=
  let counter := default ∅ (_opponent_card_counts s !! pid) in
  {| _turn_count := _turn_count s;
     _initial_player_count := _initial_player_count s;
     _first_ek_seen_from_other := _first_ek_seen_from_other s;
     _kittens_removed := _kittens_removed s;
     _known_top_cards := _known_top_cards s;
     _opponent_card_history :=
       <[pid := (default [] (_opponent_card_history s !! pid) ++ [card])%list]>
         (_opponent_card_history s);
     _opponent_card_counts :=
       <[pid := <[card := S (Py.count_of counter card)]> counter]>
         (_opponent_card_counts s);
     _defuses_seen := _defuses_seen s |}.

Definition set_defuses_seen (s : State) (n : Z) : State :=
  {| _turn_count := _turn_count s;
     _initial_player_count := _initial_player_count s;
     _first_ek_seen_from_other := _first_ek_seen_from_other s;
     _kittens_removed := _kittens_removed s;
     _known_top_cards := _known_top_cards s;
     _opponent_card_history := _opponent_card_history s;
     _opponent_card_counts := _opponent_card_counts s;
     _defuses_seen := n |}.

(** [player_id and player_id != view.my_id and player_id in
    view.other_players] *)
Definition is_tracked_opponent (e : GameEvent) (v : BotView) : option string :=
  match player_id e with
  | Some pid =>
      if negb (String.eqb pid "") && negb (String.eqb pid (my_id v))
         && Py.mem pid (other_players v)
      then Some pid else None
  | None => None
  end.

Definition on_event (s : State) (event : GameEvent) (v : BotView) : State :=
  let ty := event_type event in
  if EventType_eqb ty BOT_CHAT then s
  else
    let s :=
      if EventType_eqb ty CARDS_PEEKED && player_is event (my_id v)
      then set_known s (Some (default [] (d_card_types (data event))))
      else s in
    let s :=
      if EventType_eqb ty DECK_SHUFFLED
         || EventType_eqb ty EXPLODING_KITTEN_INSERTED
      then set_known s None
      else s in
    let s :=
      if EventType_eqb ty CARD_DRAWN && Py.truthy (known s)
      then set_known s (Some (tl (known s)))
      else s in
    let s :=
      if EventType_eqb ty EXPLODING_KITTEN_DRAWN
         && negb (player_is event (my_id v))
      then set_first_ek_seen s true
      else s in
    let s :=
      if EventType_eqb ty PLAYER_ELIMINATED
      then set_kittens_removed s (Z.max 0 (_kittens_removed s + 1))
      else s in
    if EventType_eqb ty CARD_PLAYED then
      let card := default "" (d_card_type (data event)) in
      let s :=
        match is_tracked_opponent event v with
        | Some pid => record_play s pid card
        | None => s
        end in
      if String.eqb card DEFUSE then set_defuses_seen s (_defuses_seen s + 1)
      else s
    else s.

(** *** Reactions; [u] is the value of [random.random()]. *)

Definition react (v : BotView) (triggering_event : GameEvent) (u : Q)
  : option Action :=
  match get_cards_of_type v NOPE with
  | [] => None
  | (nope0 :: _) as nope_cards =>
      let event_ty := event_type triggering_event in
      let d := data triggering_event in
      let random_nope :=
        if (1 <? Z.of_nat (length nope_cards)) && Py.flt u (1 # 10)
        then Some (PlayCardAction nope0 None) else None in
      let favor_requested :=
        if EventType_eqb event_ty FAVOR_REQUESTED
           && opt_is (d_target d) (my_id v)
        then Some (PlayCardAction nope0 None) else random_nope in
      if EventType_eqb event_ty CARD_PLAYED then
        let card := default "" (d_card_type d) in
        let target_id := d_target_player_id d in
        if String.eqb card ATTACK && opt_is target_id (my_id v)
        then Some (PlayCardAction nope0 None)
        else if String.eqb card FAVOR && opt_is target_id (my_id v)
        then Some (PlayCardAction nope0 None)
        else favor_requested
      else favor_requested
  end.

(** *** Defuse placement; [u] drives [random.randint]. *)

Definition choose_defuse_position (v : BotView) (draw_pile_size : Z) (u : Z)
  : option Z :=
  if draw_pile_size <=? 1 then Some 0
  else
    let safe_top := 1 in
    let safe_bottom := Z.max 1 (draw_pile_size - 1) in
    Py.randint u safe_top safe_bottom.

(** *** Combo detection *)

(** [Counter(keys)]: a dict of counts in first-occurrence order. *)
Definition Counter (keys : list string) : list (string * nat) :=
  fold_left (fun d k => Py.dict_update k (fun n => S (default O n)) d) keys [].

(** The loop collecting one card per type, left at five cards. *)
Fixpoint unique_loop (combo_candidates : list Card) (keys : list string)
  (unique_cards : list Card) : list Card :=
  match keys with
  | [] => unique_cards
  | card_ty :: keys' =>
      if (5 <=? length unique_cards)%nat then unique_cards
      else
        unique_loop combo_candidates keys'
          (unique_cards ++
             match find (fun c => String.eqb (card_type c) card_ty)
                     combo_candidates with
             | Some card => [card]
             | None => []
             end)%list
  end.

Definition _find_possible_combos (hand : list Card) : list Combo :=
  let combo_candidates := List.filter can_combo hand in
  match combo_candidates with
  | [] => []
  | _ :: _ =>
      let by_type := Counter (map card_type combo_candidates) in
      let combos :=
        flat_map (fun '(card_ty, count) =>
                    set_combo count
                      (List.filter (fun c => String.eqb (card_type c) card_ty)
                         combo_candidates))
          by_type in
      if (5 <=? length by_type)%nat then
        let unique_cards := unique_loop combo_candidates (map fst by_type) [] in
        if (5 <=? length unique_cards)%nat
        then (combos ++ [(five_different, firstn 5 unique_cards)])%list
        else combos
      else combos
  end.

(** *** Turn logic *)

Definition STRATEGIC_BOT_PREFIX := "chatgpt".

Definition _find_strategic_bot_id (v : BotView) : option string :=
  find (fun pid => String.prefix STRATEGIC_BOT_PREFIX pid) (other_players v).

Definition _has_strategic_bot (v : BotView) : bool :=
  match _find_strategic_bot_id v with Some _ => true | None => false end.

Definition _choose_attack_target (v : BotView) (prefer_weak_defense : bool)
  : option string :=
  match other_players v with
  | [] => None
  | _ :: _ =>
      match _find_strategic_bot_id v with
      | Some strategic => Some strategic
      | None =>
          if prefer_weak_defense
          then Py.min_by (card_count v) (other_players v)
          else Py.max_by (card_count v) (other_players v)
      end
  end.

(** [if target:] for an optional player id: neither [None] nor empty. *)
Definition usable (target : option string) : bool :=
  match target with
  | Some t => negb (String.eqb t "")
  | None => false
  end.

Definition _steal_for_value (v : BotView) (bias_for_stf : bool) : option Action :=
  match other_players v with
  | [] => None
  | _ :: _ =>
      match _choose_attack_target v bias_for_stf with
      | None => None
      | Some target =>
          match _find_possible_combos (my_hand v) with
          | (_, combo_cards) :: _ =>
              (* every combo type is one of the three tested for *)
              Some (PlayComboAction combo_cards (Some target))
          | [] =>
              match get_cards_of_type v FAVOR with
              | favor0 :: _ =>
                  if negb (_has_strategic_bot v)
                  then Some (PlayCardAction favor0 (Some target))
                  else None
              | [] => None
              end
          end
      end
  end.

Definition play_defensive (v : BotView) : option Action :=
  match get_cards_of_type v SKIP with
  | skip0 :: _ => Some (PlayCardAction skip0 None)
  | [] =>
      match get_cards_of_type v ATTACK with
      | attack0 :: _ =>
          if Py.truthy (other_players v) then
            if _has_strategic_bot v then None
            else
              let target := _choose_attack_target v false in
              if usable target then Some (PlayCardAction attack0 target)
              else None
          else None
      | [] => None
      end
  end.

Definition play_aggressive (v : BotView) (ek_probability : Q) : option Action :=
  match _steal_for_value v false with
  | Some steal => Some steal
  | None =>
      match get_cards_of_type v ATTACK with
      | attack0 :: _ =>
          if Py.truthy (other_players v) then
            if _has_strategic_bot v then None
            else
              let target := _choose_attack_target v true in
              if usable target then Some (PlayCardAction attack0 target)
              else None
          else None
      | [] => None
      end
  end.

Definition premium : list string :=
  [DEFUSE; NOPE; SKIP; ATTACK; SHUFFLE; STF; FAVOR].

(** The loop of [_try_play_best_combo] choosing [best]. *)
Fixpoint best_combo_loop (premium_on_top : bool) (combos : list Combo)
  (best : option Combo) : option Combo :=
  match combos with
  | [] => best
  | (combo_ty, cards) :: rest =>
      match combo_ty with
      | five_different =>
          if premium_on_top then Some (combo_ty, cards)
          else best_combo_loop premium_on_top rest best
      | three_of_a_kind => Some (combo_ty, cards)
      | two_of_a_kind =>
          best_combo_loop premium_on_top rest
            (match best with
             | None => Some (combo_ty, cards)
             | Some _ => best
             end)
      end
  end.

Definition _try_play_best_combo (v : BotView) : option Action :=
  match other_players v with
  | [] => None
  | _ :: _ =>
      match _choose_attack_target v false with
      | None => None
      | Some target0 =>
          let with_cards :=
            List.filter (fun pid => 0 <? card_count v pid) (other_players v) in
          let target :=
            if card_count v target0 <=? 0 then
              match with_cards with
              | [] => None
              | pid :: _ => Some pid
              end
            else Some target0 in
          match target with
          | None => None
          | Some target =>
              let combos := _find_possible_combos (my_hand v) in
              let premium_on_top :=
                match last (discard_pile v) with
                | Some top => Py.mem (card_type top) premium
                | None => false
                end in
              match best_combo_loop premium_on_top combos None with
              | None => None
              | Some (five_different, cards) =>
                  Some (PlayComboAction cards None)
              | Some (_, cards) => Some (PlayComboAction cards (Some target))
              end
          end
      end
  end.

Definition _early_low_risk (v : BotView) : Action :=
  let attack :=
    if 1 <? my_turns_remaining v then
      match get_cards_of_type v ATTACK with
      | attack0 :: _ =>
          if Py.truthy (other_players v) then
            let target := _choose_attack_target v false in
            if usable target then Some (PlayCardAction attack0 target)
            else None
          else None
      | [] => None
      end
    else None in
  default DrawCardAction attack.

Definition _midgame_control (s : State) (v : BotView) : Action :=
  let shuffle :=
    match get_cards_of_type v SHUFFLE with
    | shuffle0 :: _ =>
        if Py.truthy (known s) && Py.mem EXPLODING (known s)
           && negb (_has_strategic_bot v)
        then Some (PlayCardAction shuffle0 None) else None
    | [] => None
    end in
  let defensive :=
    match known s with
    | first :: _ => if String.eqb first EXPLODING then play_defensive v else None
    | [] => None
    end in
  match shuffle with
  | Some a => a
  | None =>
      match defensive with
      | Some a => a
      | None => default DrawCardAction (_steal_for_value v true)
      end
  end.

Definition _late_high_risk (s : State) (v : BotView) (ek_probability : Q)
  : Action :=
  let shuffle :=
    match get_cards_of_type v SHUFFLE with
    | shuffle0 :: _ =>
        if negb (_has_strategic_bot v)
        then Some (PlayCardAction shuffle0 None) else None
    | [] => None
    end in
  let skip_chain :=
    match known s with
    | first :: _ =>
        if negb (String.eqb first EXPLODING) && (1 <? my_turns_remaining v) then
          match get_cards_of_type v SKIP with
          | skip0 :: _ => Some (PlayCardAction skip0 None)
          | [] => None
          end
        else None
    | [] => None
    end in
  match shuffle with
  | Some a => a
  | None =>
      match play_defensive v with
      | Some a => a
      | None =>
          match play_aggressive v ek_probability with
          | Some a => a
          | None => default DrawCardAction skip_chain
          end
      end
  end.

Definition decide_action (s : State) (v : BotView) (ek_probability : Q)
  : Action :=
  match _try_play_best_combo v with
  | Some combo_action => combo_action
  | None =>
      let peek :=
        match get_cards_of_type v STF, _known_top_cards s with
        | stf0 :: _, None =>
            if Py.fge ek_probability (33 # 100) && (0 <? draw_pile_count v)
            then Some (PlayCardAction stf0 None) else None
        | _, _ => None
        end in
      match peek with
      | Some a => a
      | None =>
          if Py.flt ek_probability (33 # 100) then _early_low_risk v
          else if Py.flt ek_probability (5 # 10) then _midgame_control s v
          else _late_high_risk s v ek_probability
      end
  end.

Definition _play_after_first_ek (s : State) (v : BotView) : option Action :=
  if negb (_first_ek_seen_from_other s) then None
  else
    match get_cards_of_type v SHUFFLE with
    | shuffle0 :: _ => Some (PlayCardAction shuffle0 None)
    | [] =>
        let stf :=
          match get_cards_of_type v STF with
          | stf0 :: _ =>
              if 0 <? draw_pile_count v
              then Some (PlayCardAction stf0 None) else None
          | [] => None
          end in
        match stf with
        | Some a => Some a
        | None =>
            match _steal_for_value v true with
            | Some steal => Some steal
            | None =>
                match play_defensive v with
                | Some defensive => Some defensive
                | None => Some DrawCardAction
                end
            end
        end
    end.

(** [_initialize_game_baseline] followed by [self._turn_count += 1]. *)
Definition begin_turn (s : State) (v : BotView) : State :=
  {| _turn_count := _turn_count s + 1;
     _initial_player_count :=
       match _initial_player_count s with
       | None => Some (Z.of_nat (length (turn_order v)))
       | Some n => Some n
       end;
     _first_ek_seen_from_other := _first_ek_seen_from_other s;
     _kittens_removed := _kittens_removed s;
     _known_top_cards := _known_top_cards s;
     _opponent_card_history := _opponent_card_history s;
     _opponent_card_counts := _opponent_card_counts s;
     _defuses_seen := _defuses_seen s |}.

Definition _is_first_turn (s : State) : bool := _turn_count s =? 1.

Definition take_turn (s : State) (v : BotView) : Action * State :=
  let s := begin_turn s v in
  let ek_risk := calculate_ek_risk s v in
  if _is_first_turn s then (DrawCardAction, s)
  else
    match _play_after_first_ek s v with
    | Some post_first => (post_first, s)
    | None => (decide_action s v ek_risk, s)
    end.

(** *** Favor response *)

Definition choose_card_to_give (v : BotView) (requester_id : string)
  : option Card :=
  give_by_priority [DEFUSE; NOPE] (my_hand v).

End Aaron.

(* ===================================================================== *)
(** * mastermind_bot.py *)
(* ===================================================================== *)

Module Mastermind.

Record State := mkState {
  _turn_count : Z;
  _initial_player_count : option Z;
  _first_ek_seen : bool;
  _kittens_removed : Z;
  _defuses_used : Z;
  _known_top_cards : option (list string);
  _deck_shuffled : bool;
  _last_shuffle_turn : Z;
  _opponent_card_history : gmap string (list string);
  _opponent_card_counts : gmap string (gmap string nat);
  _opponent_defense_prob : gmap string Q;
  _opponent_nope_prob : gmap string Q;
  _opponent_defuses_used : gmap string bool;
  _opponent_last_seen_hand_size : gmap string Z;
  _just_peeked : bool
}.

Definition known (s : State) : list string :=
  default [] (_known_top_cards s).

Definition _calculate_ek_risk (s : State) (v : BotView) : Q :=
  if draw_pile_count v =? 0 then 0%Q
  else
    let players := Py.int_or (_initial_player_count s)
                             (Z.of_nat (length (turn_order v))) in
    let baseline_kittens := Z.max 1 (players - 1 - _kittens_removed s) in
    let cushion (risk : Q) : Q :=
      let defuses := count_cards_of_type v DEFUSE in
      if 0 <? defuses
      then (risk * Py.fmax (3 # 10) (1 - Py.float defuses * (25 # 100)))%Q
      else risk in
    match known s with
    | (first :: _) as visible =>
        if String.eqb first EXPLODING then 1%Q
        else
          match Py.index EXPLODING visible with
          | Some ek_position =>
              if Nat.eqb ek_position 0 then 1%Q
              else if Nat.eqb ek_position 1 then (5 # 10)%Q
              else (33 # 100)%Q
          | None =>
              let unseen :=
                Z.max 1 (draw_pile_count v - Z.of_nat (length visible)) in
              cushion (Py.fmin 1 (Py.float baseline_kittens / Py.float unseen))
          end
    | [] =>
        cushion (Py.fmin 1 (Py.float baseline_kittens
                            / Py.float (draw_pile_count v)))
    end.

(** *** Event tracking *)

Definition set_peek (s : State) (k : option (list string)) (jp : bool) : State :=
  {| _turn_count := _turn_count s;
     _initial_player_count := _initial_player_count s;
     _first_ek_seen := _first_ek_seen s;
     _kittens_removed := _kittens_removed s;
     _defuses_used := _defuses_used s;
     _known_top_cards := k;
     _deck_shuffled := _deck_shuffled s;
     _last_shuffle_turn := _last_shuffle_turn s;
     _opponent_card_history := _opponent_card_history s;
     _opponent_card_counts := _opponent_card_counts s;
     _opponent_defense_prob := _opponent_defense_prob s;
     _opponent_nope_prob := _opponent_nope_prob s;
     _opponent_defuses_used := _opponent_defuses_used s;
     _opponent_last_seen_hand_size := _opponent_last_seen_hand_size s;
     _just_peeked := jp |}.

(** Updates of [_first_ek_seen], [_kittens_removed], [_defuses_used] and
    [_deck_shuffled]. *)
Definition set_flags (s : State) (ek : bool) (removed used : Z) (shuffled : bool)
  : State :=
  {| _turn_count := _turn_count s;
     _initial_player_count := _initial_player_count s;
     _first_ek_seen := ek;
     _kittens_removed := removed;
     _defuses_used := used;
     _known_top_cards := _known_top_cards s;
     _deck_shuffled := shuffled;
     _last_shuffle_turn := _last_shuffle_turn s;
     _opponent_card_history := _opponent_card_history s;
     _opponent_card_counts := _opponent_card_counts s;
     _opponent_defense_prob := _opponent_defense_prob s;
     _opponent_nope_prob := _opponent_nope_prob s;
     _opponent_defuses_used := _opponent_defuses_used s;
     _opponent_last_seen_hand_size := _opponent_last_seen_hand_size s;
     _just_peeked := _just_peeked s |}.

(** Updates of the per-opponent tables other than the probabilities. *)
Definition set_tables (s : State)
  (h : gmap string (list string)) (c : gmap string (gmap string nat))
  (du : gmap string bool) (hs : gmap string Z) : State :=
  {| _turn_count := _turn_count s;
     _initial_player_count := _initial_player_count s;
     _first_ek_seen := _first_ek_seen s;
     _kittens_removed := _kittens_removed s;
     _defuses_used := _defuses_used s;
     _known_top_cards := _known_top_cards s;
     _deck_shuffled := _deck_shuffled s;
     _last_shuffle_turn := _last_shuffle_turn s;
     _opponent_card_history := h;
     _opponent_card_counts := c;
     _opponent_defense_prob := _opponent_defense_prob s;
     _opponent_nope_prob := _opponent_nope_prob s;
     _opponent_defuses_used := du;
     _opponent_last_seen_hand_size := hs;
     _just_peeked := _just_peeked s |}.

(** [self._opponent_defense_prob.get(pid, 0.5)], the way [_play_defensive]
    and [_choose_best_target] read the model. *)
Definition defense_prob (s : State) (pid : string) : Q :=
  default (5 # 10)%Q (_opponent_defense_prob s !! pid).

Definition with_probs (s : State) (dp np : gmap string Q) : State :=
  {| _turn_count := _turn_count s;
     _initial_player_count := _initial_player_count s;
     _first_ek_seen := _first_ek_seen s;
     _kittens_removed := _kittens_removed s;
     _defuses_used := _defuses_used s;
     _known_top_cards := _known_top_cards s;
     _deck_shuffled := _deck_shuffled s;
     _last_shuffle_turn := _last_shuffle_turn s;
     _opponent_card_history := _opponent_card_history s;
     _opponent_card_counts := _opponent_card_counts s;
     _opponent_defense_prob := dp;
     _opponent_nope_prob := np;
     _opponent_defuses_used := _opponent_defuses_used s;
     _opponent_last_seen_hand_size := _opponent_last_seen_hand_size s;
     _just_peeked := _just_peeked s |}.

(** Reading [self._opponent_card_counts[player_id]] on a [defaultdict]:
    a missing player gets an empty counter. *)
Definition touch_counts (s : State) (player : string) : State :=
  match _opponent_card_counts s !! player with
  | Some _ => s
  | None =>
      set_tables s (_opponent_card_history s)
        (<[player := ∅]> (_opponent_card_counts s))
        (_opponent_defuses_used s) (_opponent_last_seen_hand_size s)
  end.

Definition _update_opponent_model (s : State) (player : string) : State :=
  let s := touch_counts s player in
  let history := default ∅ (_opponent_card_counts s !! player) in
  let total := Py.sum_values history in
  if Nat.eqb total 0 then s
  else
    let defensive_cards :=
      (Py.count_of history SKIP + Py.count_of history ATTACK
       + Py.count_of history SHUFFLE + Py.count_of history DEFUSE)%nat in
    let denom := Py.float (Z.max 1 (Z.of_nat total)) in
    let nope_count := Py.count_of history NOPE in
    with_probs s
      (<[player := Py.fmin (9 # 10) (Py.float (Z.of_nat defensive_cards) / denom)]>
         (_opponent_defense_prob s))
      (<[player := Py.fmin (8 # 10) (Py.float (Z.of_nat nope_count) / denom)]>
         (_opponent_nope_prob s)).

Definition record_play (s : State) (pid card : string) : State :=
  let counter := default ∅ (_opponent_card_counts s !! pid) in
  set_tables s
    (<[pid := (default [] (_opponent_card_history s !! pid) ++ [card])%list]>
       (_opponent_card_history s))
    (<[pid := <[card := S (Py.count_of counter card)]> counter]>
       (_opponent_card_counts s))
    (_opponent_defuses_used s) (_opponent_last_seen_hand_size s).

Definition truthy_id (p : option string) : option string :=
  match p with
  | Some pid => if String.eqb pid "" then None else Some pid
  | None => None
  end.

Definition on_event (s : State) (event : GameEvent) (v : BotView) : State :=
  let ty := event_type event in
  if EventType_eqb ty BOT_CHAT then s
  else
    let s :=
      if EventType_eqb ty CARDS_PEEKED && player_is event (my_id v)
      then set_peek s (Some (default [] (d_card_types (data event)))) true
      else s in
    let s :=
      if EventType_eqb ty DECK_SHUFFLED
         || EventType_eqb ty EXPLODING_KITTEN_INSERTED
      then set_flags (set_peek s None (_just_peeked s))
             (_first_ek_seen s) (_kittens_removed s) (_defuses_used s) true
      else s in
    let s :=
      if EventType_eqb ty CARD_DRAWN && Py.truthy (known s)
      then set_peek s
             (if (1 <? Z.of_nat (length (known s))) then Some (tl (known s))
              else None)
             false
      else s in
    let s :=
      if EventType_eqb ty EXPLODING_KITTEN_DRAWN && negb (_first_ek_seen s)
      then set_flags s true (_kittens_removed s) (_defuses_used s) false
      else s in
    let s :=
      if EventType_eqb ty PLAYER_ELIMINATED
      then set_flags s (_first_ek_seen s) (_kittens_removed s + 1)
             (_defuses_used s) true
      else s in
    let s :=
      if EventType_eqb ty CARD_PLAYED then
        let card := default "" (d_card_type (data event)) in
        match truthy_id (player_id event) with
        | Some pid =>
            if negb (String.eqb pid (my_id v)) && Py.mem pid (other_players v)
            then _update_opponent_model (record_play s pid card) pid
            else s
        | None => s
        end
      else s in
    let s :=
      if EventType_eqb ty DEFUSE_USED then
        match truthy_id (player_id event) with
        | Some pid =>
            let s' :=
              set_tables s (_opponent_card_history s) (_opponent_card_counts s)
                (<[pid := true]> (_opponent_defuses_used s))
                (_opponent_last_seen_hand_size s) in
            if String.eqb pid (my_id v)
            then set_flags s' (_first_ek_seen s') (_kittens_removed s')
                   (_defuses_used s' + 1) (_deck_shuffled s')
            else s'
        | None => s
        end
      else s in
    if EventType_eqb ty CARD_PLAYED || EventType_eqb ty CARD_DRAWN then
      match truthy_id (player_id event) with
      | Some pid =>
          if Py.mem pid (other_players v) && (0 <? card_count v pid)
          then set_tables s (_opponent_card_history s) (_opponent_card_counts s)
                 (_opponent_defuses_used s)
                 (<[pid := card_count v pid]> (_opponent_last_seen_hand_size s))
          else s
      | None => s
      end
    else s.

(** *** Reactions *)

Definition react (v : BotView) (triggering_event : GameEvent) : option Action :=
  match get_cards_of_type v NOPE with
  | [] => None
  | nope0 :: _ =>
      let event_ty := event_type triggering_event in
      let event_data := data triggering_event in
      let combo :=
        if EventType_eqb event_ty COMBO_PLAYED
           && opt_is (d_target_player_id event_data) (my_id v)
        then Some (PlayCardAction nope0 None) else None in
      if EventType_eqb event_ty CARD_PLAYED then
        let card := default "" (d_card_type event_data) in
        let target_id := d_target_player_id event_data in
        if String.eqb card ATTACK && opt_is target_id (my_id v)
        then Some (PlayCardAction nope0 None)
        else if String.eqb card FAVOR && opt_is target_id (my_id v)
                && ((Z.of_nat (length (my_hand v)) <? 5) || has_card_type v DEFUSE)
        then Some (PlayCardAction nope0 None)
        else combo
      else combo
  end.

(** *** Defuse placement.  [int(draw_pile_size * 0.3)] is only computed for
    sizes 2..10, where the float product and the exact one have the same
    integer part. *)
Definition choose_defuse_position (s : State) (v : BotView) (draw_pile_size : Z)
  : Z :=
  if draw_pile_size <=? 1 then 0
  else
    let weak_targets :=
      List.filter
        (fun pid => negb (default false (_opponent_defuses_used s !! pid))
                    && (card_count v pid <=? 3))
        (other_players v) in
    if Py.truthy weak_targets && (draw_pile_size <=? 10) then
      let max_pos := Z.max 1 (Py.int (Py.float draw_pile_size * (3 # 10))%Q) in
      Z.max 1 (Z.min max_pos (draw_pile_size - 1))
    else if draw_pile_size <=? 15 then Z.max 1 (Z.min 3 (draw_pile_size - 1))
    else
      let min_pos := Z.max 2 (draw_pile_size / 4) in
      let max_pos :=
        Z.min (draw_pile_size - 2)
          (Py.int (Py.float draw_pile_size * (75 # 100))%Q) in
      let max_pos := if max_pos <? min_pos then min_pos else max_pos in
      let position := (min_pos + max_pos) / 2 in
      Z.max min_pos (Z.min position max_pos).

(** *** Favor response *)

Definition choose_card_to_give (v : BotView) (requester_id : string)
  : option Card :=
  give_by_priority [DEFUSE; NOPE; SHUFFLE; STF] (my_hand v).

Definition __init__ : State :=
  {| _turn_count := 0; _initial_player_count := None;
     _first_ek_seen := false; _kittens_removed := 0; _defuses_used := 0;
     _known_top_cards := None; _deck_shuffled := true;
     _last_shuffle_turn := -1; _opponent_card_history := ∅;
     _opponent_card_counts := ∅; _opponent_defense_prob := ∅;
     _opponent_nope_prob := ∅; _opponent_defuses_used := ∅;
     _opponent_last_seen_hand_size := ∅; _just_peeked := false |}.

(** *** Turn logic.  [_game_phase] is written by [_update_game_phase] and
    read only by [take_turn] right after, so it is passed as a value;
    [_my_defuses] and [_stf_planning_turns] are never read and are left
    out. *)

Inductive Phase := early | mid | late.

Definition set_last_shuffle (s : State) (turn : Z) : State :=
  {| _turn_count := _turn_count s;
     _initial_player_count := _initial_player_count s;
     _first_ek_seen := _first_ek_seen s;
     _kittens_removed := _kittens_removed s;
     _defuses_used := _defuses_used s;
     _known_top_cards := _known_top_cards s;
     _deck_shuffled := _deck_shuffled s;
     _last_shuffle_turn := turn;
     _opponent_card_history := _opponent_card_history s;
     _opponent_card_counts := _opponent_card_counts s;
     _opponent_defense_prob := _opponent_defense_prob s;
     _opponent_nope_prob := _opponent_nope_prob s;
     _opponent_defuses_used := _opponent_defuses_used s;
     _opponent_last_seen_hand_size := _opponent_last_seen_hand_size s;
     _just_peeked := _just_peeked s |}.

(** [_update_game_state] followed by [self._turn_count += 1]. *)
Definition begin_turn (s : State) (v : BotView) : State :=
  {| _turn_count := _turn_count s + 1;
     _initial_player_count :=
       match _initial_player_count s with
       | None => Some (Z.of_nat (length (turn_order v)))
       | Some n => Some n
       end;
     _first_ek_seen := _first_ek_seen s;
     _kittens_removed := _kittens_removed s;
     _defuses_used := _defuses_used s;
     _known_top_cards := _known_top_cards s;
     _deck_shuffled := _deck_shuffled s;
     _last_shuffle_turn := _last_shuffle_turn s;
     _opponent_card_history := _opponent_card_history s;
     _opponent_card_counts := _opponent_card_counts s;
     _opponent_defense_prob := _opponent_defense_prob s;
     _opponent_nope_prob := _opponent_nope_prob s;
     _opponent_defuses_used := _opponent_defuses_used s;
     _opponent_last_seen_hand_size := _opponent_last_seen_hand_size s;
     _just_peeked := _just_peeked s |}.

Definition _update_game_phase (s : State) (v : BotView) : Phase :=
  let alive_players := Z.of_nat (length (other_players v)) + 1 in
  let total_players := Py.int_or (_initial_player_count s) alive_players in
  if alive_players =? total_players then early
  else if Py.fge (Py.float alive_players) (Py.float total_players * (6 # 10))%Q
  then mid
  else late.

(** [self._known_top_cards and self._known_top_cards[0] == EXPLODING]. *)
Definition ek_on_top (s : State) : bool :=
  match known s with
  | first :: _ => String.eqb first EXPLODING
  | [] => false
  end.

(** *** Combo detection *)

Definition group_by_type (combo_cards : list Card) : list (string * list Card) :=
  fold_left
    (fun by_type card =>
       Py.dict_update (card_type card)
         (fun cards => (default [] cards ++ [card])%list) by_type)
    combo_cards [].

(** [by_type[card_type][0]]; the lists of the dict are never empty. *)
Definition first_card (entry : string * list Card) : list Card :=
  match snd entry with
  | c :: _ => [c]
  | [] => []
  end.

Definition _find_all_combos (hand : list Card) : list Combo :=
  let combo_cards := List.filter can_combo hand in
  match combo_cards with
  | [] => []
  | _ :: _ =>
      let by_type := group_by_type combo_cards in
      let combos :=
        flat_map (fun '(_, cards_of_type) =>
                    set_combo (length cards_of_type) cards_of_type)
          by_type in
      if (5 <=? length by_type)%nat then
        (combos ++ [(five_different, flat_map first_card (firstn 5 by_type))])%list
      else combos
  end.

(** The first combo of one type, as the loops over [combos] find it. *)
Definition first_combo (ty : ComboType) (combos : list Combo) : option Combo :=
  find (fun '(combo_ty, _) => ComboType_eqb combo_ty ty) combos.

(** *** Targets *)

(** [valid_targets]: the other players holding at least one card. *)
Definition valid_targets (v : BotView) : list string :=
  List.filter (fun pid => 0 <? card_count v pid) (other_players v).

Definition _choose_best_target (s : State) (v : BotView) (prefer_weak : bool)
  : option string :=
  match other_players v with
  | [] => None
  | _ :: _ =>
      match valid_targets v with
      | [] => None
      | _ :: _ =>
          if prefer_weak
          then Py.min_by_pair
                 (fun pid => (card_count v pid, defense_prob s pid))
                 (valid_targets v)
          else Py.max_by (card_count v) (valid_targets v)
      end
  end.

Definition _choose_weakest_target (s : State) (v : BotView) : option string :=
  match other_players v with
  | [] => None
  | _ :: _ =>
      match valid_targets v with
      | [] => None
      | _ :: _ =>
          let weak_candidates :=
            List.filter
              (fun pid => negb (default false (_opponent_defuses_used s !! pid)))
              (valid_targets v) in
          match weak_candidates with
          | _ :: _ => Py.min_by (card_count v) weak_candidates
          | [] => Py.min_by (card_count v) (valid_targets v)
          end
      end
  end.

(** *** Specific action strategies *)

Definition _avoid_ek_on_top (s : State) (v : BotView) : Action * State :=
  match get_cards_of_type v SKIP with
  | skip0 :: _ => (PlayCardAction skip0 None, s)
  | [] =>
      match get_cards_of_type v SHUFFLE with
      | shuffle0 :: _ =>
          (PlayCardAction shuffle0 None, set_last_shuffle s (_turn_count s))
      | [] =>
          let attack :=
            match get_cards_of_type v ATTACK with
            | attack0 :: _ =>
                if Py.truthy (other_players v) then
                  match truthy_id (_choose_best_target s v true) with
                  | Some target => Some (PlayCardAction attack0 (Some target))
                  | None => None
                  end
                else None
            | [] => None
            end in
          (default DrawCardAction attack, s)
      end
  end.

Definition _try_combo_against_targets (v : BotView) (targets : list string)
  : option Action :=
  match targets with
  | [] => None
  | _ :: _ =>
      let combos := _find_all_combos (my_hand v) in
      match combos with
      | [] => None
      | _ :: _ =>
          let target := Py.min_by (card_count v) targets in
          match first_combo three_of_a_kind combos with
          | Some (_, cards) => Some (PlayComboAction cards target)
          | None =>
              match first_combo two_of_a_kind combos with
              | Some (_, cards) => Some (PlayComboAction cards target)
              | None => None
              end
          end
      end
  end.

(** The test on the discard pile does not depend on the combo at hand, so
    the last loop of [_try_best_combo] is decided at the first
    five-different combo. *)
Definition _try_best_combo (s : State) (v : BotView) : option Action :=
  match other_players v with
  | [] => None
  | _ :: _ =>
      let combos := _find_all_combos (my_hand v) in
      match combos with
      | [] => None
      | _ :: _ =>
          match valid_targets v with
          | [] => None
          | valid0 :: _ =>
              let target :=
                match truthy_id (_choose_best_target s v false) with
                | Some target => target
                | None => valid0
                end in
              match first_combo three_of_a_kind combos with
              | Some (_, cards) => Some (PlayComboAction cards (Some target))
              | None =>
                  match first_combo two_of_a_kind combos with
                  | Some (_, cards) =>
                      Some (PlayComboAction cards (Some target))
                  | None =>
                      match first_combo five_different combos with
                      | Some (_, cards) =>
                          match last (discard_pile v) with
                          | Some top_discard =>
                              if Py.mem (card_type top_discard)
                                   [DEFUSE; NOPE; SHUFFLE; STF]
                              then Some (PlayComboAction cards None)
                              else None
                          | None => None
                          end
                      | None => None
                      end
                  end
              end
          end
      end
  end.

Definition _try_steal (s : State) (v : BotView) (ek_risk : Q) : option Action :=
  match other_players v with
  | [] => None
  | _ :: _ =>
      match _try_best_combo s v with
      | Some combo_action => Some combo_action
      | None =>
          match get_cards_of_type v FAVOR with
          | [] => None
          | favor0 :: _ =>
              match valid_targets v with
              | [] => None
              | _ :: _ =>
                  let weak_targets :=
                    List.filter (fun pid => card_count v pid <=? 3)
                      (valid_targets v) in
                  let target :=
                    match weak_targets with
                    | _ :: _ => Py.min_by (card_count v) weak_targets
                    | [] => Py.max_by (card_count v) (valid_targets v)
                    end in
                  match target with
                  | None => None
                  | Some target =>
                      let my_cards := Z.of_nat (length (my_hand v)) in
                      let target_cards := card_count v target in
                      let should_steal :=
                        Py.fge ek_risk (30 # 100)
                        || (my_cards <? 4)
                        || (my_cards + 2 <=? target_cards)
                        || (target_cards <=? 3) in
                      if should_steal
                      then Some (PlayCardAction favor0 (Some target))
                      else None
                  end
              end
          end
      end
  end.

Definition _play_defensive (s : State) (v : BotView) : option Action :=
  match get_cards_of_type v SKIP with
  | skip0 :: _ => Some (PlayCardAction skip0 None)
  | [] =>
      match get_cards_of_type v ATTACK with
      | attack0 :: _ =>
          if Py.truthy (other_players v) then
            match truthy_id (_choose_weakest_target s v) with
            | Some target =>
                if (draw_pile_count v <=? 15)
                   || Py.flt (defense_prob s target) (4 # 10)
                then Some (PlayCardAction attack0 (Some target))
                else None
            | None => None
            end
          else None
      | [] => None
      end
  end.

(** Defined in the source, called nowhere. *)
Definition _play_aggressive (s : State) (v : BotView) (ek_risk : Q)
  : option Action :=
  match _try_steal s v ek_risk with
  | Some steal_action => Some steal_action
  | None =>
      match get_cards_of_type v ATTACK with
      | attack0 :: _ =>
          if Py.truthy (other_players v) then
            match truthy_id (_choose_best_target s v true) with
            | Some target => Some (PlayCardAction attack0 (Some target))
            | None => None
            end
          else None
      | [] => None
      end
  end.

(** *** Game phase strategies *)

Definition _midgame_strategy (s : State) (v : BotView) (ek_risk : Q)
  : Action * State :=
  if ek_on_top s then _avoid_ek_on_top s v
  else
    let disruption :=
      if Py.truthy (other_players v) then
        let weak_targets :=
          List.filter
            (fun pid =>
               (card_count v pid <=? 3)
               && negb (default false (_opponent_defuses_used s !! pid)))
            (other_players v) in
        match weak_targets with
        | [] => None
        | _ :: _ =>
            match _try_combo_against_targets v weak_targets with
            | Some combo_action => Some combo_action
            | None =>
                match get_cards_of_type v FAVOR with
                | favor0 :: _ =>
                    Some (PlayCardAction favor0
                            (Py.min_by (card_count v) weak_targets))
                | [] => None
                end
            end
        end
      else None in
    let peek :=
      if negb (Py.truthy (known s)) && negb (_just_peeked s)
         && Py.fge ek_risk (25 # 100)
      then
        match get_cards_of_type v STF with
        | stf0 :: _ =>
            if 0 <? draw_pile_count v
            then Some (PlayCardAction stf0 None,
                       set_peek s (_known_top_cards s) true)
            else None
        | [] => None
        end
      else None in
    let shuffle :=
      if Py.truthy (known s) && Py.mem EXPLODING (known s) then
        match get_cards_of_type v SHUFFLE with
        | shuffle0 :: _ =>
            if _last_shuffle_turn s + 2 <? _turn_count s
            then Some (PlayCardAction shuffle0 None,
                       set_last_shuffle s (_turn_count s))
            else None
        | [] => None
        end
      else None in
    let steal :=
      if (6 <=? Z.of_nat (length (my_hand v))) && Py.flt ek_risk (35 # 100)
      then _try_steal s v ek_risk else None in
    let defensive :=
      if Py.fge ek_risk (50 # 100) then _play_defensive s v else None in
    match disruption with
    | Some a => (a, s)
    | None =>
        match peek with
        | Some r => r
        | None =>
            match shuffle with
            | Some r => r
            | None =>
                match steal with
                | Some a => (a, s)
                | None =>
                    match defensive with
                    | Some a => (a, s)
                    | None =>
                        if Py.flt ek_risk (40 # 100) then (DrawCardAction, s)
                        else (default DrawCardAction (_play_defensive s v), s)
                    end
                end
            end
        end
    end.

Definition _early_game_strategy (s : State) (v : BotView) (ek_risk : Q)
  : Action * State :=
  if _turn_count s =? 1 then (DrawCardAction, s)
  else if ek_on_top s then _avoid_ek_on_top s v
  else
    let peek :=
      if negb (Py.truthy (known s)) && negb (_just_peeked s) then
        match get_cards_of_type v STF with
        | stf0 :: _ =>
            if (0 <? draw_pile_count v) && Py.fge ek_risk (20 # 100)
            then Some (PlayCardAction stf0 None,
                       set_peek s (_known_top_cards s) true)
            else None
        | [] => None
        end
      else None in
    let combo :=
      if Py.truthy (other_players v) then
        let weak_targets :=
          List.filter (fun pid => card_count v pid <=? 2) (other_players v) in
        match weak_targets with
        | [] => None
        | _ :: _ => _try_combo_against_targets v weak_targets
        end
      else None in
    match peek with
    | Some r => r
    | None =>
        match combo with
        | Some a => (a, s)
        | None =>
            if Py.flt ek_risk (25 # 100) && negb (_first_ek_seen s)
            then (DrawCardAction, s)
            else _midgame_strategy s v ek_risk
        end
    end.

Definition _late_game_strategy (s : State) (v : BotView) (ek_risk : Q)
  : Action * State :=
  if ek_on_top s then _avoid_ek_on_top s v
  else
    let thin_deck :=
      if Py.fge ek_risk (60 # 100) && (draw_pile_count v <=? 10)
      then _play_defensive s v else None in
    let attack :=
      if Py.fge ek_risk (50 # 100) && (draw_pile_count v <=? 15)
         && (1 <? Z.of_nat (length (other_players v)))
      then
        match get_cards_of_type v ATTACK with
        | attack0 :: _ =>
            match truthy_id (_choose_weakest_target s v) with
            | Some target => Some (PlayCardAction attack0 (Some target))
            | None => None
            end
        | [] => None
        end
      else None in
    let shuffle :=
      match get_cards_of_type v SHUFFLE with
      | shuffle0 :: _ =>
          if Py.fge ek_risk (50 # 100)
             && (_last_shuffle_turn s + 1 <? _turn_count s)
          then Some (PlayCardAction shuffle0 None,
                     set_last_shuffle s (_turn_count s))
          else None
      | [] => None
      end in
    let combo :=
      if Py.truthy (other_players v) then
        let weak_targets :=
          List.filter (fun pid => card_count v pid <=? 2) (other_players v) in
        match weak_targets with
        | [] => None
        | _ :: _ => _try_combo_against_targets v weak_targets
        end
      else None in
    let defensive :=
      if Py.fge ek_risk (45 # 100) then _play_defensive s v else None in
    let peek :=
      if negb (Py.truthy (known s)) then
        match get_cards_of_type v STF with
        | stf0 :: _ =>
            if 0 <? draw_pile_count v
            then Some (PlayCardAction stf0 None) else None
        | [] => None
        end
      else None in
    match thin_deck with
    | Some a => (a, s)
    | None =>
        match attack with
        | Some a => (a, s)
        | None =>
            match shuffle with
            | Some r => r
            | None =>
                match combo with
                | Some a => (a, s)
                | None =>
                    match defensive with
                    | Some a => (a, s)
                    | None => (default DrawCardAction peek, s)
                    end
                end
            end
        end
    end.

Definition take_turn (s : State) (v : BotView) : Action * State :=
  let s := begin_turn s v in
  let game_phase := _update_game_phase s v in
  let ek_risk := _calculate_ek_risk s v in
  match game_phase with
  | early => _early_game_strategy s v ek_risk
  | mid => _midgame_strategy s v ek_risk
  | late => _late_game_strategy s v ek_risk
  end.

End Mastermind.

(* ===================================================================== *)
(** * tft_bot.py *)
(* ===================================================================== *)

Module TFT.

Record State := mkState {
  _first_ek_drawn : bool;
  _deck_shuffled : bool;
  _num_players : Z;
  _num_eks_remaining : Z;
  _opponent_card_history : gmap string (list string);
  _last_stf_step : Z;
  _just_shuffled : bool;
  _last_peeked_cards : list string;
  _ek_on_top : bool
}.

Definition _calculate_ek_probability (s : State) (v : BotView) : Q :=
  if draw_pile_count v =? 0 then 0%Q
  else
    let alive_players := Z.of_nat (length (other_players v)) + 1 in
    let estimated_eks :=
      if 0 <? _num_players s then
        let eliminations := _num_players s - alive_players in
        Z.max 1 ((_num_players s - 1) - eliminations)
      else Z.max 1 (alive_players - 1) in
    (Py.float estimated_eks / Py.float (draw_pile_count v))%Q.

Definition set_deck (s : State) (ek_drawn shuffled ek_top : bool) : State :=
  {| _first_ek_drawn := ek_drawn;
     _deck_shuffled := shuffled;
     _num_players := _num_players s;
     _num_eks_remaining := _num_eks_remaining s;
     _opponent_card_history := _opponent_card_history s;
     _last_stf_step := _last_stf_step s;
     _just_shuffled := _just_shuffled s;
     _last_peeked_cards := _last_peeked_cards s;
     _ek_on_top := ek_top |}.

Definition set_peeked (s : State) (cards : list string) : State :=
  {| _first_ek_drawn := _first_ek_drawn s;
     _deck_shuffled := _deck_shuffled s;
     _num_players := _num_players s;
     _num_eks_remaining := _num_eks_remaining s;
     _opponent_card_history := _opponent_card_history s;
     _last_stf_step := _last_stf_step s;
     _just_shuffled := _just_shuffled s;
     _last_peeked_cards := cards;
     _ek_on_top := _ek_on_top s |}.

Definition set_history (s : State) (h : gmap string (list string)) : State :=
  {| _first_ek_drawn := _first_ek_drawn s;
     _deck_shuffled := _deck_shuffled s;
     _num_players := _num_players s;
     _num_eks_remaining := _num_eks_remaining s;
     _opponent_card_history := h;
     _last_stf_step := _last_stf_step s;
     _just_shuffled := _just_shuffled s;
     _last_peeked_cards := _last_peeked_cards s;
     _ek_on_top := _ek_on_top s |}.

Definition set_players (s : State) (n eks : Z) : State :=
  {| _first_ek_drawn := _first_ek_drawn s;
     _deck_shuffled := _deck_shuffled s;
     _num_players := n;
     _num_eks_remaining := eks;
     _opponent_card_history := _opponent_card_history s;
     _last_stf_step := _last_stf_step s;
     _just_shuffled := _just_shuffled s;
     _last_peeked_cards := _last_peeked_cards s;
     _ek_on_top := _ek_on_top s |}.

(** The chat remarks drawn with [random.random()] are left out. *)
Definition on_event (s : State) (event : GameEvent) (v : BotView) : State :=
  let ty := event_type event in
  if EventType_eqb ty BOT_CHAT then s
  else
    let s :=
      if EventType_eqb ty EXPLODING_KITTEN_DRAWN && negb (_first_ek_drawn s)
      then set_deck s true false (_ek_on_top s)
      else s in
    let s :=
      if EventType_eqb ty DECK_SHUFFLED
      then set_deck s (_first_ek_drawn s) true false
      else s in
    let s :=
      if EventType_eqb ty CARDS_PEEKED && player_is event (my_id v) then
        let card_types := default [] (d_card_types (data event)) in
        let s := set_peeked s card_types in
        match card_types with
        | first :: _ =>
            if Py.mem "ExplodingKittenCard" card_types then
              if String.eqb first "ExplodingKittenCard"
              then set_deck s (_first_ek_drawn s) (_deck_shuffled s) true
              else if Py.fge (_calculate_ek_probability s v) (40 # 100)
              then set_deck s (_first_ek_drawn s) (_deck_shuffled s) true
              else s
            else s
        | [] => s
        end
      else s in
    let s :=
      if EventType_eqb ty PLAYER_ELIMINATED
      then set_deck s (_first_ek_drawn s) true (_ek_on_top s)
      else s in
    let s :=
      if EventType_eqb ty CARD_PLAYED then
        match player_id event with
        | Some pid =>
            if negb (String.eqb pid (my_id v)) && Py.mem pid (other_players v)
            then
              let card := default "" (d_card_type (data event)) in
              set_history s
                (<[pid := (default [] (_opponent_card_history s !! pid) ++ [card])%list]>
                   (_opponent_card_history s))
            else s
        | None => s
        end
      else s in
    if EventType_eqb ty GAME_START then
      let n := Z.of_nat (length (other_players v)) + 1 in
      set_players s n (n - 1)
    else s.

(** Defuse placement; [u] drives [random.randint]. *)
Definition choose_defuse_position (v : BotView) (draw_pile_size : Z) (u : Z)
  : option Z :=
  if draw_pile_size <=? 1 then Some 0
  else if draw_pile_size =? 2 then Some 1
  else if draw_pile_size =? 3 then Py.randint u 1 2
  else if draw_pile_size <=? 5 then
    Py.randint u 1 (Z.min 3 (draw_pile_size - 1))
  else if draw_pile_size <=? 7 then Py.randint u 2 (draw_pile_size - 1)
  else
    let min_pos := 4 in
    let max_pos :=
      Z.max (min_pos + 1) (Py.int (Py.float draw_pile_size * (75 # 100))%Q) in
    Py.randint u min_pos max_pos.

(** Reactions. *)
Definition react (v : BotView) (triggering_event : GameEvent) : option Action :=
  match get_cards_of_type v "NopeCard" with
  | [] => None
  | nope0 :: _ =>
      let event_ty := event_type triggering_event in
      let event_data := data triggering_event in
      let combo :=
        if EventType_eqb event_ty COMBO_PLAYED
           && opt_is (d_target_player_id event_data) (my_id v)
        then Some (PlayCardAction nope0 None) else None in
      if EventType_eqb event_ty CARD_PLAYED then
        let card := default "" (d_card_type event_data) in
        let target_id := d_target_player_id event_data in
        if String.eqb card "AttackCard" && opt_is target_id (my_id v)
        then Some (PlayCardAction nope0 None)
        else if String.eqb card "FavorCard" && opt_is target_id (my_id v)
                && ((Z.of_nat (length (my_hand v)) <? 5)
                    || has_card_type v "DefuseCard")
        then Some (PlayCardAction nope0 None)
        else combo
      else combo
  end.

(** Favor response; the chat remark is left out. *)
Definition choose_card_to_give (s : State) (v : BotView) (requester_id : string)
  : option Card :=
  let hand := my_hand v in
  let ek_probability := _calculate_ek_probability s v in
  let useless_cards :=
    List.filter
      (fun c => Py.mem (card_type c) ["ShuffleCard"; "SeeTheFutureCard"]) hand in
  let useless :=
    if Py.flt (80 # 100) ek_probability then
      match useless_cards with
      | c :: _ => if 3 <? Z.of_nat (length hand) then Some c else None
      | [] => None
      end
    else None in
  match useless with
  | Some c => Some c
  | None => give_by_priority ["DefuseCard"; "NopeCard"] hand
  end.

Definition __init__ : State :=
  {| _first_ek_drawn := false; _deck_shuffled := true; _num_players := 0;
     _num_eks_remaining := 0; _opponent_card_history := ∅;
     _last_stf_step := -1; _just_shuffled := false;
     _last_peeked_cards := []; _ek_on_top := false |}.

(** *** Combo detection *)

Definition group_by_type (combo_cards : list Card) : list (string * list Card) :=
  fold_left
    (fun by_type card =>
       Py.dict_update (card_type card)
         (fun cards => (default [] cards ++ [card])%list) by_type)
    combo_cards [].

(** [by_type[card_type][0]]; the lists of the dict are never empty. *)
Definition first_card (entry : string * list Card) : list Card :=
  match snd entry with
  | c :: _ => [c]
  | [] => []
  end.

Definition _find_possible_combos (hand : list Card) : list Combo :=
  let combo_cards := List.filter can_combo hand in
  match combo_cards with
  | [] => []
  | _ :: _ =>
      let by_type := group_by_type combo_cards in
      let combos :=
        flat_map (fun '(_, cards_of_type) =>
                    set_combo (length cards_of_type) cards_of_type)
          by_type in
      if (5 <=? length by_type)%nat then
        (combos ++ [(five_different, flat_map first_card (firstn 5 by_type))])%list
      else combos
  end.

(** *** Turn logic *)

Definition set_turn_flags (s : State) (just_shuffled ek_top : bool) : State :=
  {| _first_ek_drawn := _first_ek_drawn s;
     _deck_shuffled := _deck_shuffled s;
     _num_players := _num_players s;
     _num_eks_remaining := _num_eks_remaining s;
     _opponent_card_history := _opponent_card_history s;
     _last_stf_step := _last_stf_step s;
     _just_shuffled := just_shuffled;
     _last_peeked_cards := _last_peeked_cards s;
     _ek_on_top := ek_top |}.

(** [valid_targets]: the other players holding at least one card. *)
Definition valid_targets (v : BotView) : list string :=
  List.filter (fun pid => 0 <? card_count v pid) (other_players v).

(** The other players holding at least [n] cards. *)
Definition good_targets (v : BotView) (n : Z) : list string :=
  List.filter (fun pid => n <=? card_count v pid) (other_players v).

Section Turn.

(** [card.can_play(view, is_own_turn=True)], a function of the engine. *)
Variable can_play : Card -> BotView -> bool.

(** The Favor cards of the hand that can be played, with the targets to
    choose from, as priorities 5 and 7 compute them. *)
Definition favor_play (v : BotView) (should_steal : string -> bool)
  : option Action :=
  match get_cards_of_type v "FavorCard" with
  | [] => None
  | _ :: _ =>
      let playable_favors :=
        List.filter (fun card => can_play card v)
          (get_cards_of_type v "FavorCard") in
      match playable_favors with
      | [] => None
      | favor0 :: _ =>
          if Py.truthy (other_players v) then
            match Py.max_by (card_count v) (valid_targets v) with
            | Some target =>
                if should_steal target
                then Some (PlayCardAction favor0 (Some target))
                else None
            | None => None
            end
          else None
      end
  end.

(** The chat remarks are left out.  In the loop over the combos the test
    on [valid_targets] does not depend on the combo at hand, so the loop
    is decided at the first three of a kind. *)
Definition take_turn (s : State) (v : BotView) : Action * State :=
  let s :=
    if my_turns_remaining v =? 1
    then set_turn_flags s false (_ek_on_top s) else s in
  let ek_probability := _calculate_ek_probability s v in
  if negb (_first_ek_drawn s) then (DrawCardAction, s)
  else
    let shuffle :=
      match get_cards_of_type v "ShuffleCard" with
      | shuffle0 :: _ =>
          if (0 <? draw_pile_count v) && negb (_just_shuffled s)
          then Some (PlayCardAction shuffle0 None,
                     set_turn_flags s true (_ek_on_top s))
          else None
      | [] => None
      end in
    let avoid :=
      if _ek_on_top s then
        match get_cards_of_type v "SkipCard" with
        | skip0 :: _ =>
            Some (PlayCardAction skip0 None,
                  set_turn_flags s (_just_shuffled s) false)
        | [] =>
            match get_cards_of_type v "ShuffleCard" with
            | shuffle0 :: _ =>
                if 0 <? draw_pile_count v
                then Some (PlayCardAction shuffle0 None,
                           set_turn_flags s true false)
                else None
            | [] => None
            end
        end
      else None in
    let see_future :=
      match get_cards_of_type v "SeeTheFutureCard" with
      | (stf0 :: _) as stf_cards =>
          if 0 <? draw_pile_count v then
            if Py.fge ek_probability (40 # 100)
            then Some (PlayCardAction stf0 None)
            else if Py.fge ek_probability (33 # 100)
                    && (1 <? Z.of_nat (length stf_cards))
            then Some (PlayCardAction stf0 None)
            else if Py.fge ek_probability (25 # 100)
                    && (3 <=? Z.of_nat (length stf_cards))
            then Some (PlayCardAction stf0 None)
            else None
          else None
      | [] => None
      end in
    let combo :=
      let combos := _find_possible_combos (my_hand v) in
      if Py.truthy combos && Py.truthy (other_players v) then
        let target := Py.max_by (card_count v) (valid_targets v) in
        let three :=
          match find (fun '(combo_ty, _) =>
                        ComboType_eqb combo_ty three_of_a_kind) combos with
          | Some (_, combo_cards) =>
              if Py.truthy (valid_targets v)
              then Some (PlayComboAction combo_cards target) else None
          | None => None
          end in
        match three with
        | Some a => Some a
        | None =>
            match combos with
            | (combo_ty, combo_cards) :: _ =>
                if ComboType_eqb combo_ty two_of_a_kind
                   || ComboType_eqb combo_ty three_of_a_kind
                then
                  if Py.truthy (valid_targets v)
                  then Some (PlayComboAction combo_cards target) else None
                else None
            | [] => None
            end
        end
      else None in
    let steal :=
      favor_play v
        (fun target =>
           let target_card_count := card_count v target in
           let my_card_count := Z.of_nat (length (my_hand v)) in
           Py.fge ek_probability (25 # 100)
           || (my_card_count <? 5)
           || (my_card_count + 3 <=? target_card_count)) in
    let skip :=
      if 1 <? my_turns_remaining v then
        match get_cards_of_type v "SkipCard" with
        | skip0 :: _ =>
            if Py.fge ek_probability (50 # 100)
            then Some (PlayCardAction skip0 None)
            else if 1 <? my_turns_remaining v
            then Some (PlayCardAction skip0 None)
            else None
        | [] => None
        end
      else None in
    let aggressive :=
      if Py.fge ek_probability (50 # 100) then
        match favor_play v (fun _ => true) with
        | Some a => Some a
        | None =>
            match get_cards_of_type v "SkipCard" with
            | skip0 :: _ => Some (PlayCardAction skip0 None)
            | [] => None
            end
        end
      else None in
    let attack_chain :=
      match get_cards_of_type v "AttackCard" with
      | (attack0 :: _) as attack_cards =>
          if (3 <=? Z.of_nat (length attack_cards))
             && Py.truthy (other_players v)
          then
            match good_targets v 6 with
            | _ :: _ =>
                Some (PlayCardAction attack0
                        (Py.max_by (card_count v) (good_targets v 6)))
            | [] => None
            end
          else None
      | [] => None
      end in
    let attack :=
      match get_cards_of_type v "AttackCard" with
      | (attack0 :: _) as attack_cards =>
          if (2 <=? Z.of_nat (length attack_cards))
             && Py.truthy (other_players v)
          then
            if Py.truthy (good_targets v 4) && Py.fge ek_probability (40 # 100)
            then Some (PlayCardAction attack0
                         (Py.max_by (card_count v) (good_targets v 4)))
            else None
          else None
      | [] => None
      end in
    match shuffle with
    | Some r => r
    | None =>
        match avoid with
        | Some r => r
        | None =>
            match see_future with
            | Some a => (a, s)
            | None =>
                match combo with
                | Some a => (a, s)
                | None =>
                    match steal with
                    | Some a => (a, s)
                    | None =>
                        match skip with
                        | Some a => (a, s)
                        | None =>
                            match aggressive with
                            | Some a => (a, s)
                            | None =>
                                match attack_chain with
                                | Some a => (a, s)
                                | None => (default DrawCardAction attack, s)
                                end
                            end
                        end
                    end
                end
            end
        end
    end.

End Turn.

End TFT.

(* ===================================================================== *)
(** * my_bot.py *)
(* ===================================================================== *)

Module MyBot.

(** Reactions; [u] is the value of [random.random()]. *)
Definition react (v : BotView) (triggering_event : GameEvent) (u : Q)
  : option Action :=
  match get_cards_of_type v "NopeCard" with
  | [] => None
  | (nope0 :: _) as nope_cards =>
      let event_ty := event_type triggering_event in
      let event_data := data triggering_event in
      let random_nope :=
        if (1 <? Z.of_nat (length nope_cards)) && Py.flt u (3 # 10)
        then Some (PlayCardAction nope0 None) else None in
      if EventType_eqb event_ty CARD_PLAYED then
        let card := default "" (d_card_type event_data) in
        let target_id := d_target_player_id event_data in
        if String.eqb card "AttackCard" && opt_is target_id (my_id v)
        then Some (PlayCardAction nope0 None)
        else if String.eqb card "FavorCard" && opt_is target_id (my_id v)
        then Some (PlayCardAction nope0 None)
        else random_nope
      else random_nope
  end.

Definition choose_defuse_position (v : BotView) (draw_pile_size : Z) : Z :=
  if 4 <? draw_pile_size then Z.max 1 (draw_pile_size / 4)
  else Z.max 1 (draw_pile_size - 1).

(** *** Combo detection *)

(** The loop filling [by_type]: [by_type[card.card_type].append(card)],
    the entry being created empty when the type is new. *)
Definition group_by_type (combo_cards : list Card) : list (string * list Card) :=
  fold_left
    (fun by_type card =>
       Py.dict_update (card_type card)
         (fun cards => (default [] cards ++ [card])%list) by_type)
    combo_cards [].

(** [by_type[card_type][0]]; the lists of the dict are never empty. *)
Definition first_card (entry : string * list Card) : list Card :=
  match snd entry with
  | c :: _ => [c]
  | [] => []
  end.

Definition _find_possible_combos (hand : list Card) : list Combo :=
  let combo_cards := List.filter can_combo hand in
  match combo_cards with
  | [] => []
  | _ :: _ =>
      let by_type := group_by_type combo_cards in
      let combos :=
        flat_map (fun '(_, cards_of_type) =>
                    set_combo (length cards_of_type) cards_of_type)
          by_type in
      if (5 <=? length by_type)%nat then
        (combos ++ [(five_different, flat_map first_card (firstn 5 by_type))])%list
      else combos
  end.

(** *** Turn logic *)

Definition take_turn (v : BotView) : Action :=
  (* max(view.other_players, key=card count); only read where
     view.other_players is known to be non-empty *)
  let target := Py.max_by (card_count v) (other_players v) in
  let see_future :=
    match get_cards_of_type v "SeeTheFutureCard" with
    | stf0 :: _ =>
        if 0 <? draw_pile_count v then Some (PlayCardAction stf0 None) else None
    | [] => None
    end in
  let attack :=
    if 1 <? my_turns_remaining v then
      match get_cards_of_type v "AttackCard" with
      | attack0 :: _ =>
          if Py.truthy (other_players v)
          then Some (PlayCardAction attack0 target) else None
      | [] => None
      end
    else None in
  let skip :=
    if 1 <? my_turns_remaining v then
      match get_cards_of_type v "SkipCard" with
      | skip0 :: _ => Some (PlayCardAction skip0 None)
      | [] => None
      end
    else None in
  let combo :=
    let combos := _find_possible_combos (my_hand v) in
    if Py.truthy combos && Py.truthy (other_players v) then
      match find (fun '(combo_ty, _) => ComboType_eqb combo_ty three_of_a_kind)
              combos with
      | Some (_, combo_cards) => Some (PlayComboAction combo_cards target)
      | None =>
          match combos with
          | (combo_ty, combo_cards) :: _ =>
              if ComboType_eqb combo_ty two_of_a_kind
                 || ComboType_eqb combo_ty three_of_a_kind
              then Some (PlayComboAction combo_cards target) else None
          | [] => None
          end
      end
    else None in
  let favor :=
    if (Z.of_nat (length (my_hand v)) <? 3) && Py.truthy (other_players v) then
      match get_cards_of_type v "FavorCard" with
      | favor0 :: _ => Some (PlayCardAction favor0 target)
      | [] => None
      end
    else None in
  match see_future with
  | Some a => a
  | None =>
      match attack with
      | Some a => a
      | None =>
          match skip with
          | Some a => a
          | None =>
              match combo with
              | Some a => a
              | None => default DrawCardAction favor
              end
          end
      end
  end.

(** *** Event tracking *)

Record State := mkState {
  _opponent_card_history : gmap string (list string);
  _defuses_played : Z
}.

Definition __init__ : State :=
  {| _opponent_card_history := ∅; _defuses_played := 0 |}.

Definition on_event (s : State) (event : GameEvent) (v : BotView) : State :=
  if EventType_eqb (event_type event) BOT_CHAT then s
  else
    let s :=
      if EventType_eqb (event_type event) CARD_PLAYED then
        match player_id event with
        | Some pid =>
            if negb (String.eqb pid (my_id v)) && Py.mem pid (other_players v)
            then
              let card := default "" (d_card_type (data event)) in
              {| _opponent_card_history :=
                   <[pid := (default [] (_opponent_card_history s !! pid)
                             ++ [card])%list]> (_opponent_card_history s);
                 _defuses_played := _defuses_played s |}
            else s
        | None => s
        end
      else s in
    if EventType_eqb (event_type event) CARD_PLAYED
       && String.eqb (default "" (d_card_type (data event))) "DefuseCard"
    then {| _opponent_card_history := _opponent_card_history s;
            _defuses_played := _defuses_played s + 1 |}
    else s.

(** *** Favor response *)

Definition choose_card_to_give (v : BotView) (requester_id : string)
  : option Card :=
  give_by_priority ["DefuseCard"; "NopeCard"] (my_hand v).

End MyBot.

(* ===================================================================== *)
(** * Notions used to state the properties *)
(* ===================================================================== *)

Module Notions.

(** The same view with every Defuse card taken out of the hand: the
    risk estimators evaluated on it give the risk before the Defuse
    cushion. *)
Definition without_defuse (v : BotView) : BotView :=
  {| my_id := my_id v;
     my_hand :=
       List.filter (fun c => negb (String.eqb (card_type c) DEFUSE)) (my_hand v);
     draw_pile_count := draw_pile_count v;
     discard_pile := discard_pile v;
     turn_order := turn_order v;
     other_players := other_players v;
     other_player_card_counts := other_player_card_counts v;
     my_turns_remaining := my_turns_remaining v |}.

(** The same view with another draw-pile count. *)
Definition with_draw_pile (n : Z) (v : BotView) : BotView :=
  {| my_id := my_id v;
     my_hand := my_hand v;
     draw_pile_count := n;
     discard_pile := discard_pile v;
     turn_order := turn_order v;
     other_players := other_players v;
     other_player_card_counts := other_player_card_counts v;
     my_turns_remaining := my_turns_remaining v |}.

(** The factor Mastermind multiplies the risk by when it holds
    [defuses] Defuse cards: [max(0.3, 1.0 - defuses * 0.25)]. *)
Definition mastermind_cushion (defuses : Z) : Q :=
  Py.fmax (3 # 10) (1 - Py.float defuses * (25 # 100))%Q.

(** The factor aaron multiplies the risk by when it holds a Defuse. *)
Definition aaron_cushion : Q := (6 # 10)%Q.

(** What aaron and Mastermind have counted for an opponent
    ([_opponent_card_counts[pid]], empty when never seen). *)
Definition aaron_counts (s : Aaron.State) (pid : string) : gmap string nat :=
  default ∅ (Aaron._opponent_card_counts s !! pid).

Definition mastermind_counts (s : Mastermind.State) (pid : string)
  : gmap string nat :=
  default ∅ (Mastermind._opponent_card_counts s !! pid).

(** Skip + Attack + Shuffle + Defuse plays in a counter. *)
Definition defensive_plays (h : gmap string nat) : nat :=
  (Py.count_of h SKIP + Py.count_of h ATTACK + Py.count_of h SHUFFLE
   + Py.count_of h DEFUSE)%nat.

(** [n / total] as a float. *)
Definition share (n total : nat) : Q :=
  (Py.float (Z.of_nat n) / Py.float (Z.of_nat total))%Q.

(** The distinct elements of a list in the order of their first
    occurrence. *)
Fixpoint first_occurrences (l : list string) : list string :=
  match l with
  | [] => []
  | x :: r =>
      x :: List.filter (fun y => negb (String.eqb y x)) (first_occurrences r)
  end.

(** The combo-eligible cards of a hand, those of one kind, and the kinds
    present, in hand order. *)
Definition eligible (hand : list Card) : list Card :=
  List.filter can_combo hand.

Definition cards_typed (k : string) (cards : list Card) : list Card :=
  List.filter (fun c => String.eqb (card_type c) k) cards.

Definition of_kind (k : string) (hand : list Card) : list Card :=
  cards_typed k (eligible hand).

Definition kinds (hand : list Card) : list string :=
  first_occurrences (map card_type (eligible hand)).

Definition is_five (e : Combo) : bool := ComboType_eqb (fst e) five_different.

(** The Pair and Triple entries of a detector output made of cards of
    kind [k] only. *)
Definition kind_entry (k : string) (e : Combo) : bool :=
  negb (is_five e)
  && forallb (fun c => String.eqb (card_type c) k) (snd e).

Definition set_combos_of (k : string) (out : list Combo) : list Combo :=
  List.filter (kind_entry k) out.

Definition five_combos (out : list Combo) : list Combo :=
  List.filter is_five out.

(** The detector as the specification words it: per kind a Triple of the
    first three cards or a Pair, then one FiveDistinct made of the first
    card of each of the first five kinds. *)
Definition combos_of_hand (hand : list Card) : list Combo :=
  (flat_map (fun k => set_combo (length (of_kind k hand)) (of_kind k hand))
     (kinds hand)
   ++ (if (5 <=? length (kinds hand))%nat
       then [(five_different,
              flat_map (fun k => firstn 1 (of_kind k hand))
                (firstn 5 (kinds hand)))]
       else []))%list.

(** [X] is the first kind of the hand, in hand order, that counts three or
    more combo-eligible cards. *)
Definition first_triple_kind (X : string) (hand : list Card) : Prop :=
  (3 <= length (of_kind X hand))%nat /\
  exists before after,
    kinds hand = (before ++ X :: after)%list /\
    forall k, In k before -> (length (of_kind k hand) < 3)%nat.

(** A bot fed a sequence of events, each with the view it comes with. *)
Definition run {S : Type} (on_event : S -> GameEvent -> BotView -> S)
  (s : S) (events : list (GameEvent * BotView)) : S :=
  fold_left (fun s ev => on_event s (fst ev) (snd ev)) events s.

(** Every stored probability of Mastermind's opponent model lies within
    its cap. *)
Definition probs_in_range (s : Mastermind.State) : Prop :=
  map_Forall (fun (_ : string) q => (0 <= q <= 9 # 10)%Q)
    (Mastermind._opponent_defense_prob s) /\
  map_Forall (fun (_ : string) q => (0 <= q <= 8 # 10)%Q)
    (Mastermind._opponent_nope_prob s).

(** The number of events of one type in a sequence. *)
Definition count_events (ty : EventType) (events : list (GameEvent * BotView))
  : Z :=
  Z.of_nat
    (length (List.filter (fun ev => EventType_eqb (event_type (fst ev)) ty)
               events)).

(** [history.setdefault(pid, []).append(card)] on a history table, and
    [counts[pid][card] += 1] on a table of counters. *)
Definition history_plus (pid card : string) (h : gmap string (list string))
  : gmap string (list string) :=
  <[pid := (default [] (h !! pid) ++ [card])%list]> h.

Definition counts_plus (pid card : string) (c : gmap string (gmap string nat))
  : gmap string (gmap string nat) :=
  <[pid := <[card := S (Py.count_of (default ∅ (c !! pid)) card)]>
             (default ∅ (c !! pid))]> c.

(** A table of counters agrees with a table of histories: every counter
    holds, per card type, the number of times the type occurs in the
    history of the same player. *)
Definition tables_agree (h : gmap string (list string))
  (c : gmap string (gmap string nat)) : Prop :=
  forall pid card,
    Py.count_of (default ∅ (c !! pid)) card
    = count_occ string_dec (default [] (h !! pid)) card.

(** A combo as the engine expects it: made of combo-eligible cards of the
    hand; three (or two) of one kind, or five of five distinct kinds. *)
Definition well_formed_combo (hand : list Card) (e : Combo) : Prop :=
  (forall c, In c (snd e) -> In c hand /\ can_combo c = true) /\
  match fst e with
  | three_of_a_kind =>
      length (snd e) = 3%nat /\
      exists k, forall c, In c (snd e) -> card_type c = k
  | two_of_a_kind =>
      length (snd e) = 2%nat /\
      exists k, forall c, In c (snd e) -> card_type c = k
  | five_different =>
      length (snd e) = 5%nat /\ List.NoDup (map card_type (snd e))
  end.

(** An action that only uses what the view offers: a card of the hand or
    a combo the detector finds in the hand, and as target, if any, one of
    the other players. *)
Definition legal_action (v : BotView) (a : Action) : Prop :=
  match a with
  | DrawCardAction => True
  | PlayCardAction card target =>
      In card (my_hand v) /\
      forall t, target = Some t -> In t (other_players v)
  | PlayComboAction cards target =>
      (exists ty, In (ty, cards) (combos_of_hand (my_hand v))) /\
      forall t, target = Some t -> In t (other_players v)
  end.

(** The player an action is aimed at, if any. *)
Definition target_of (a : Action) : option string :=
  match a with
  | DrawCardAction => None
  | PlayCardAction _ target => target
  | PlayComboAction _ target => target
  end.

(** A target holding at least one card, and as many as any other player. *)
Definition top_target (v : BotView) (t : string) : Prop :=
  In t (other_players v) /\ 0 < card_count v t /\
  forall p, In p (other_players v) -> card_count v p <= card_count v t.

(** What a bot goes through in a game: its own turns and the events it is
    told of, each with the view of the moment. *)
Inductive Step :=
  | Turn (v : BotView)
  | Heard (e : GameEvent) (v : BotView).

Definition play {S : Type} (take_turn : S -> BotView -> Action * S)
  (on_event : S -> GameEvent -> BotView -> S) (s : S) (log : list Step) : S :=
  fold_left
    (fun s step =>
       match step with
       | Turn v => snd (take_turn s v)
       | Heard e v => on_event s e v
       end)
    log s.

(** The number of own turns in a log. *)
Definition turns (log : list Step) : Z :=
  Z.of_nat
    (length (List.filter
               (fun step => match step with Turn _ => true | Heard _ _ => false end)
               log)).

(** Whether an event of one type occurs in a log. *)
Definition heard (ty : EventType) (log : list Step) : bool :=
  existsb
    (fun step =>
       match step with
       | Heard e _ => EventType_eqb (event_type e) ty
       | Turn _ => false
       end)
    log.

(** What the result of a turn of tft_bot in state [s] is checked for: the
    action uses only what the view offers, aims at a target holding the
    most cards, plays no five different cards, and the state differs from
    [s] in the two turn flags at most. *)
Definition tft_sound (v : BotView) (s : TFT.State) (r : Action * TFT.State)
  : Prop :=
  legal_action v (fst r) /\
  (forall t, target_of (fst r) = Some t -> top_target v t) /\
  (forall cards t, fst r = PlayComboAction cards t ->
     exists ty, ty <> five_different /\
       In (ty, cards) (combos_of_hand (my_hand v))) /\
  exists j e, snd r = TFT.set_turn_flags s j e.

(** Whether an action plays a single card of one type. *)
Definition plays_card (ty : string) (a : Action) : bool :=
  match a with
  | PlayCardAction card _ => String.eqb (card_type card) ty
  | _ => false
  end.

(** What the result of a strategy of Mastermind run in state [s] is
    checked for: the action uses only what the view offers, and the state
    is [s], except that a Shuffle play stamps the turn, and that a peek
    may set the flag [_just_peeked]. *)
Definition mastermind_sound (v : BotView) (s : Mastermind.State)
  (r : Action * Mastermind.State) : Prop :=
  legal_action v (fst r) /\
  ((plays_card SHUFFLE (fst r) = false /\ snd r = s) \/
   (plays_card SHUFFLE (fst r) = true /\
    snd r = Mastermind.set_last_shuffle s (Mastermind._turn_count s)) \/
   (plays_card SHUFFLE (fst r) = false /\
    snd r = Mastermind.set_peek s (Mastermind._known_top_cards s) true)).

(** An action that uses only what the view offers and is no Shuffle
    play. *)
Definition plain_action (v : BotView) (a : Action) : Prop :=
  legal_action v a /\ plays_card SHUFFLE a = false.

(** An action that is no combo, or a pair or a triple the detector finds
    in the hand; not five different cards. *)
Definition pair_or_triple (hand : list Card) (a : Action) : Prop :=
  match a with
  | PlayComboAction cards _ =>
      exists ty, ty <> five_different /\ In (ty, cards) (combos_of_hand hand)
  | _ => True
  end.

End Notions.

(* ===================================================================== *)
(** * Sample inputs *)
(* ===================================================================== *)

Module Samples.

Definition cat (n : nat) : Card := mkCard "TacoCatCard" true n.
Definition defuse (n : nat) : Card := mkCard DEFUSE false n.

(** A two-player game seen by "me" with [n] cards left to draw. *)
Definition view_of (hand : list Card) (n : Z) : BotView :=
  {| my_id := "me"; my_hand := hand; draw_pile_count := n;
     discard_pile := []; turn_order := ["me"; "bob"];
     other_players := ["bob"];
     other_player_card_counts := {[ "bob" := 4 ]};
     my_turns_remaining := 1 |}.

Definition aaron_knowing (top : option (list string)) : Aaron.State :=
  {| Aaron._turn_count := 3; Aaron._initial_player_count := Some 2;
     Aaron._first_ek_seen_from_other := false; Aaron._kittens_removed := 0;
     Aaron._known_top_cards := top; Aaron._opponent_card_history := ∅;
     Aaron._opponent_card_counts := ∅; Aaron._defuses_seen := 0 |}.

Definition mastermind_knowing (top : option (list string)) : Mastermind.State :=
  {| Mastermind._turn_count := 3; Mastermind._initial_player_count := Some 2;
     Mastermind._first_ek_seen := false; Mastermind._kittens_removed := 0;
     Mastermind._defuses_used := 0; Mastermind._known_top_cards := top;
     Mastermind._deck_shuffled := true; Mastermind._last_shuffle_turn := -1;
     Mastermind._opponent_card_history := ∅;
     Mastermind._opponent_card_counts := ∅;
     Mastermind._opponent_defense_prob := ∅;
     Mastermind._opponent_nope_prob := ∅;
     Mastermind._opponent_defuses_used := ∅;
     Mastermind._opponent_last_seen_hand_size := ∅;
     Mastermind._just_peeked := false |}.

Definition tft_knowing (peeked : list string) : TFT.State :=
  {| TFT._first_ek_drawn := false; TFT._deck_shuffled := true;
     TFT._num_players := 2; TFT._num_eks_remaining := 1;
     TFT._opponent_card_history := ∅; TFT._last_stf_step := -1;
     TFT._just_shuffled := false; TFT._last_peeked_cards := peeked;
     TFT._ek_on_top := false |}.

Definition nope (n : nat) : Card := mkCard NOPE false n.

(** [who] peeked at [cards]. *)
Definition peek_by (who : string) (cards : list string) : GameEvent :=
  mkEvent CARDS_PEEKED (Some who) (mkData None (Some cards) None None).

(** [who] played an Attack card on [target]. *)
Definition attack_by (who target : string) : GameEvent :=
  mkEvent CARD_PLAYED (Some who) (mkData (Some ATTACK) None (Some target) None).

(** A counter of observed plays. *)
Definition plays (l : list (string * nat)) : gmap string nat := list_to_map l.

Definition aaron_having_seen (pid : string) (l : list (string * nat))
  : Aaron.State :=
  {| Aaron._turn_count := 3; Aaron._initial_player_count := Some 2;
     Aaron._first_ek_seen_from_other := false; Aaron._kittens_removed := 0;
     Aaron._known_top_cards := None; Aaron._opponent_card_history := ∅;
     Aaron._opponent_card_counts := {[ pid := plays l ]};
     Aaron._defuses_seen := 0 |}.

Definition mastermind_having_seen (pid : string) (l : list (string * nat))
  : Mastermind.State :=
  Mastermind.set_tables (mastermind_knowing None) ∅ {[ pid := plays l ]} ∅ ∅.

(** A combo-eligible card of type [t]. *)
Definition kitty (t : string) (n : nat) : Card := mkCard t true n.

(** Three Tacocats and two Beard Cats, among other cards. *)
Definition hand_three_two : list Card :=
  [kitty "TacoCatCard" 0; kitty "BeardCatCard" 1; mkCard SKIP false 2;
   kitty "TacoCatCard" 3; kitty "BeardCatCard" 4; kitty "TacoCatCard" 5].

(** One card of each of five kinds. *)
Definition hand_five_kinds : list Card :=
  [kitty "TacoCatCard" 0; kitty "BeardCatCard" 1; kitty "RainbowCatCard" 2;
   kitty "PotatoCatCard" 3; kitty "CattermelonCard" 4].

(** [who] played a card of type [card], untargeted. *)
Definition play_by (who card : string) : GameEvent :=
  mkEvent CARD_PLAYED (Some who) (mkData (Some card) None None None).

(** An event without payload. *)
Definition plain (ty : EventType) (who : string) : GameEvent :=
  mkEvent ty (Some who) (mkData None None None None).

End Samples.

(* ===================================================================== *)
(** * Properties *)
(* ===================================================================== *)

(** ** Arithmetic of the float helpers *)

Section FloatFacts.

Local Open Scope Q_scope.

Lemma fmin_le_l (a b : Q) : Py.fmin a b <= a.
Proof.
  unfold Py.fmin. destruct (Qle_bool a b) eqn:E.
  - apply Qle_refl.
  - apply Qlt_le_weak, Qnot_le_lt. intros H.
    apply Qle_bool_iff in H. congruence.
Qed.

Lemma fmin_le_r (a b : Q) : Py.fmin a b <= b.
Proof.
  unfold Py.fmin. destruct (Qle_bool a b) eqn:E.
  - now apply Qle_bool_iff.
  - apply Qle_refl.
Qed.

Lemma fmin_lower (c a b : Q) : c <= a -> c <= b -> c <= Py.fmin a b.
Proof. intros Ha Hb. unfold Py.fmin. now destruct (Qle_bool a b). Qed.

Lemma fmax_ge_l (a b : Q) : a <= Py.fmax a b.
Proof.
  unfold Py.fmax. destruct (Qle_bool b a) eqn:E.
  - apply Qle_refl.
  - apply Qlt_le_weak, Qnot_le_lt. intros H.
    apply Qle_bool_iff in H. congruence.
Qed.

Lemma fmax_upper (c a b : Q) : a <= c -> b <= c -> Py.fmax a b <= c.
Proof. intros Ha Hb. unfold Py.fmax. now destruct (Qle_bool b a). Qed.

Lemma float_pos (n : Z) : (1 <= n)%Z -> 0 < Py.float n.
Proof.
  intros H. unfold Py.float. change 0 with (inject_Z 0).
  rewrite <- Zlt_Qlt. lia.
Qed.

Lemma ratio_nonneg (b u : Z) :
  (1 <= b)%Z -> (1 <= u)%Z -> 0 <= Py.float b / Py.float u.
Proof.
  intros Hb Hu. apply Qle_shift_div_l.
  - now apply float_pos.
  - rewrite Qmult_0_l. apply Qlt_le_weak. now apply float_pos.
Qed.

Lemma capped_ratio_range (b u : Z) :
  (1 <= b)%Z -> (1 <= u)%Z ->
  0 <= Py.fmin 1 (Py.float b / Py.float u) <= 1.
Proof.
  intros Hb Hu. split.
  - apply fmin_lower; [discriminate | now apply ratio_nonneg].
  - apply fmin_le_l.
Qed.

Lemma unit_fraction_range (n : nat) :
  0 <= 1 / Py.float (Z.of_nat (S n)) <= 1.
Proof.
  assert (Hp : 0 < Py.float (Z.of_nat (S n))) by (apply float_pos; lia).
  split.
  - apply Qle_shift_div_l; [exact Hp | rewrite Qmult_0_l; discriminate].
  - apply Qle_shift_div_r; [exact Hp |].
    rewrite Qmult_1_l. unfold Py.float. change 1 with (inject_Z 1).
    rewrite <- Zle_Qle. lia.
Qed.

Lemma scale_range (r f : Q) :
  0 <= r <= 1 -> 0 <= f <= 1 -> 0 <= r * f <= 1.
Proof. intros [? ?] [? ?]. split; nra. Qed.

End FloatFacts.

(** ** Risk estimators *)

Section RiskEstimator.

Local Open Scope Q_scope.
Import Notions.

Lemma aaron_risk_range (s : Aaron.State) (v : BotView) :
  0 <= Aaron.calculate_ek_risk s v <= 1.
Proof.
  unfold Aaron.calculate_ek_risk.
  destruct (Aaron.known s) as [|first rest].
  - destruct (0 <? count_cards_of_type v DEFUSE)%Z.
    + apply scale_range; [apply capped_ratio_range; lia | split; discriminate].
    + apply capped_ratio_range; lia.
  - destruct (String.eqb first EXPLODING); [split; discriminate |].
    destruct (Py.mem EXPLODING (first :: rest)).
    + apply unit_fraction_range.
    + apply capped_ratio_range; lia.
Qed.

Lemma mastermind_cushion_range (d : Z) :
  3 # 10 <= mastermind_cushion d /\ ((1 <= d)%Z -> mastermind_cushion d <= 3 # 4).
Proof.
  unfold mastermind_cushion. split; [apply fmax_ge_l |].
  intros Hd. apply fmax_upper; [discriminate |].
  assert (1 <= Py.float d).
  { unfold Py.float. change 1 with (inject_Z 1). rewrite <- Zle_Qle. lia. }
  lra.
Qed.

Lemma mastermind_risk_range (s : Mastermind.State) (v : BotView) :
  (0 <= draw_pile_count v)%Z ->
  0 <= Mastermind._calculate_ek_risk s v <= 1.
Proof.
  intros Hn. unfold Mastermind._calculate_ek_risk.
  destruct (Z.eqb_spec (draw_pile_count v) 0) as [|Hne]; [split; discriminate |].
  assert (Hc : forall r, 0 <= r <= 1 ->
     0 <= (if (0 <? count_cards_of_type v DEFUSE)%Z
           then r * Py.fmax (3 # 10)
                      (1 - Py.float (count_cards_of_type v DEFUSE) * (25 # 100))
           else r) <= 1).
  { intros r Hr. destruct (Z.ltb_spec 0 (count_cards_of_type v DEFUSE)); [| exact Hr].
    apply scale_range; [exact Hr |].
    destruct (mastermind_cushion_range (count_cards_of_type v DEFUSE)) as [Hlo Hhi].
    unfold mastermind_cushion in *. split; [lra |].
    specialize (Hhi ltac:(lia)). lra. }
  destruct (Mastermind.known s) as [|first rest].
  - apply Hc, capped_ratio_range; lia.
  - destruct (String.eqb first EXPLODING); [split; discriminate |].
    destruct (Py.index EXPLODING (first :: rest)) as [i|].
    + destruct (Nat.eqb i 0); [split; discriminate |].
      destruct (Nat.eqb i 1); split; discriminate.
    + apply Hc, capped_ratio_range; lia.
Qed.

End RiskEstimator.

Section RiskClaims.

Local Open Scope Q_scope.
Import Notions Samples.

Lemma aaron_risk_clamps_deck (s : Aaron.State) (v : BotView) :
  (draw_pile_count v <= 1)%Z ->
  Aaron.calculate_ek_risk s v = Aaron.calculate_ek_risk s (with_draw_pile 1 v).
Proof.
  intros Hn. unfold Aaron.calculate_ek_risk, count_cards_of_type,
    get_cards_of_type. cbn [with_draw_pile draw_pile_count my_hand turn_order].
  replace (Z.max 1 (draw_pile_count v)) with (Z.max 1 1) by lia.
  reflexivity.
Qed.

Lemma aaron_risk_hazard_on_top (s : Aaron.State) (v : BotView) rest :
  Aaron._known_top_cards s = Some (EXPLODING :: rest) ->
  Aaron.calculate_ek_risk s v = 1.
Proof.
  intros Hk. unfold Aaron.calculate_ek_risk, Aaron.known. rewrite Hk.
  change (default [] (Some (EXPLODING :: rest))) with (EXPLODING :: rest).
  cbv beta iota. now rewrite String.eqb_refl.
Qed.

Lemma mastermind_risk_empty_pile (s : Mastermind.State) (v : BotView) :
  draw_pile_count v = 0%Z -> Mastermind._calculate_ek_risk s v = 0.
Proof. intros Hn. unfold Mastermind._calculate_ek_risk. now rewrite Hn. Qed.

Lemma mastermind_risk_hazard_on_top (s : Mastermind.State) (v : BotView) rest :
  draw_pile_count v <> 0%Z ->
  Mastermind._known_top_cards s = Some (EXPLODING :: rest) ->
  Mastermind._calculate_ek_risk s v = 1.
Proof.
  intros Hn Hk. unfold Mastermind._calculate_ek_risk, Mastermind.known.
  destruct (Z.eqb_spec (draw_pile_count v) 0); [contradiction |].
  rewrite Hk.
  change (default [] (Some (EXPLODING :: rest))) with (EXPLODING :: rest).
  cbv beta iota. now rewrite String.eqb_refl.
Qed.

(** C1 (as the code has it).  Both risk estimators return a value of
    [0,1] (Mastermind's for a draw pile count that is not negative).
    With an empty draw pile Mastermind's returns exactly 0, whereas aaron's
    clamps the deck size to at least 1, so that an empty pile is estimated
    like a pile of one card.  With a hazard known at index 0 aaron's returns
    exactly 1, and so does Mastermind's unless the draw pile is empty, which
    it tests first. *)
Theorem C1_risk_in_unit_interval :
  (forall s v, 0 <= Aaron.calculate_ek_risk s v <= 1) /\
  (forall s v, (0 <= draw_pile_count v)%Z ->
     0 <= Mastermind._calculate_ek_risk s v <= 1) /\
  (forall s v, draw_pile_count v = 0%Z ->
     Mastermind._calculate_ek_risk s v = 0) /\
  (forall s v, (draw_pile_count v <= 1)%Z ->
     Aaron.calculate_ek_risk s v
     = Aaron.calculate_ek_risk s (with_draw_pile 1 v)) /\
  (forall s v rest, Aaron._known_top_cards s = Some (EXPLODING :: rest) ->
     Aaron.calculate_ek_risk s v = 1) /\
  (forall s v rest, draw_pile_count v <> 0%Z ->
     Mastermind._known_top_cards s = Some (EXPLODING :: rest) ->
     Mastermind._calculate_ek_risk s v = 1).
Proof.
  repeat split.
  - apply aaron_risk_range.
  - apply aaron_risk_range.
  - now apply mastermind_risk_range.
  - now apply mastermind_risk_range.
  - apply mastermind_risk_empty_pile.
  - apply aaron_risk_clamps_deck.
  - apply aaron_risk_hazard_on_top.
  - apply mastermind_risk_hazard_on_top.
Qed.

Lemma C1_witness :
  (0 <= Mastermind._calculate_ek_risk (mastermind_knowing None) (view_of [] 20) <= 1) /\
  Mastermind._calculate_ek_risk (mastermind_knowing None) (view_of [] 0) = 0 /\
  Aaron.calculate_ek_risk (aaron_knowing None) (view_of [] 0)
  = Aaron.calculate_ek_risk (aaron_knowing None) (with_draw_pile 1 (view_of [] 0)) /\
  Aaron.calculate_ek_risk (aaron_knowing (Some [EXPLODING; "SkipCard"])) (view_of [] 5) = 1 /\
  Mastermind._calculate_ek_risk (mastermind_knowing (Some [EXPLODING])) (view_of [] 5) = 1.
Proof.
  destruct C1_risk_in_unit_interval as (_ & Hm & Hz & Hc & Ha & Ht).
  split; [apply Hm; cbn; lia |].
  split; [apply Hz; reflexivity |].
  split; [apply Hc; cbn; lia |].
  split; [apply (Ha _ _ ["SkipCard"]); reflexivity |].
  apply (Ht _ _ []); [cbn; lia | reflexivity].
Defined.

(** C1 as stated fails: with an empty draw pile aaron's estimator returns 1,
    not 0; and Mastermind's returns 0, not 1, when a hazard is known on top
    of an empty draw pile. *)
Lemma C1_counterexample :
  draw_pile_count (view_of [] 0) = 0%Z /\
  Aaron.calculate_ek_risk (aaron_knowing None) (view_of [] 0) == 1 /\
  ~ Aaron.calculate_ek_risk (aaron_knowing None) (view_of [] 0) == 0 /\
  ~ Mastermind._calculate_ek_risk (mastermind_knowing (Some [EXPLODING]))
      (view_of [] 0) == 1.
Proof. repeat split; vm_compute; congruence. Qed.

End RiskClaims.

Section PeekedHazard.

Local Open Scope Q_scope.
Import Notions Samples.

Lemma index_mem (x : string) (l : list string) (i : nat) :
  Py.index x l = Some i -> Py.mem x l = true.
Proof.
  unfold Py.mem. revert i.
  induction l as [|y r IH]; intros i H; [discriminate |].
  cbn [existsb Py.index] in *. rewrite (String.eqb_sym x y).
  destruct (String.eqb y x); [reflexivity |].
  destruct (Py.index x r) as [j|]; [| discriminate].
  now rewrite (IH j).
Qed.

Lemma index_later_head (x y : string) (r : list string) (i : nat) :
  Py.index x (y :: r) = Some i -> (1 <= i)%nat -> String.eqb y x = false.
Proof.
  cbn. destruct (String.eqb y x); [| reflexivity].
  intros [= <-] H. lia.
Qed.

Lemma aaron_risk_hazard_later (s : Aaron.State) (v : BotView) visible i :
  Aaron._known_top_cards s = Some visible ->
  Py.index EXPLODING visible = Some i -> (1 <= i)%nat ->
  Aaron.calculate_ek_risk s v = 1 / Py.float (Z.of_nat (length visible)).
Proof.
  intros Hk Hi Hpos. unfold Aaron.calculate_ek_risk, Aaron.known. rewrite Hk.
  change (default [] (Some visible)) with visible.
  destruct visible as [|first rest]; [discriminate |].
  rewrite (index_later_head _ _ _ _ Hi Hpos), (index_mem _ _ _ Hi).
  reflexivity.
Qed.

Lemma mastermind_risk_hazard_later (s : Mastermind.State) (v : BotView) visible i :
  draw_pile_count v <> 0%Z ->
  Mastermind._known_top_cards s = Some visible ->
  Py.index EXPLODING visible = Some i -> (1 <= i)%nat ->
  Mastermind._calculate_ek_risk s v = if Nat.eqb i 1 then 5 # 10 else 33 # 100.
Proof.
  intros Hn Hk Hi Hpos. unfold Mastermind._calculate_ek_risk, Mastermind.known.
  destruct (Z.eqb_spec (draw_pile_count v) 0); [contradiction |].
  rewrite Hk. change (default [] (Some visible)) with visible.
  destruct visible as [|first rest]; [discriminate |].
  rewrite (index_later_head _ _ _ _ Hi Hpos), Hi.
  destruct i as [|i]; [lia | reflexivity].
Qed.

(** C2 (as the code has it).  When the first hazard of the known-top
    sequence is at an index i >= 1, aaron's estimator returns 1 over the
    length of the sequence (uniform within the peeked slice), and
    Mastermind's, for a non-empty draw pile, returns 0.5 when i = 1 and
    0.33 when i >= 2.  So for [safe, hazard] both return 0.5, and for
    [safe, safe, hazard] aaron's returns 1/3 and Mastermind's 0.33. *)
Theorem C2_hazard_deeper_in_peek :
  (forall s v visible i,
     Aaron._known_top_cards s = Some visible ->
     Py.index EXPLODING visible = Some i -> (1 <= i)%nat ->
     Aaron.calculate_ek_risk s v = 1 / Py.float (Z.of_nat (length visible))) /\
  (forall s v visible i,
     draw_pile_count v <> 0%Z ->
     Mastermind._known_top_cards s = Some visible ->
     Py.index EXPLODING visible = Some i -> (1 <= i)%nat ->
     Mastermind._calculate_ek_risk s v
     = if Nat.eqb i 1 then 5 # 10 else 33 # 100) /\
  (forall sa sm v safe,
     safe <> EXPLODING -> draw_pile_count v <> 0%Z ->
     Aaron._known_top_cards sa = Some [safe; EXPLODING] ->
     Mastermind._known_top_cards sm = Some [safe; EXPLODING] ->
     Aaron.calculate_ek_risk sa v == 1 # 2 /\
     Mastermind._calculate_ek_risk sm v == 1 # 2) /\
  (forall sa sm v safe1 safe2,
     safe1 <> EXPLODING -> safe2 <> EXPLODING -> draw_pile_count v <> 0%Z ->
     Aaron._known_top_cards sa = Some [safe1; safe2; EXPLODING] ->
     Mastermind._known_top_cards sm = Some [safe1; safe2; EXPLODING] ->
     Aaron.calculate_ek_risk sa v == 1 # 3 /\
     Mastermind._calculate_ek_risk sm v == 33 # 100).
Proof.
  split; [exact aaron_risk_hazard_later |].
  split; [exact mastermind_risk_hazard_later |].
  split.
  - intros sa sm v safe Hs Hn Ha Hm.
    assert (Hi : Py.index EXPLODING [safe; EXPLODING] = Some 1%nat).
    { cbn. apply String.eqb_neq in Hs. now rewrite Hs. }
    rewrite (aaron_risk_hazard_later sa v _ 1 Ha Hi (le_n _)).
    rewrite (mastermind_risk_hazard_later sm v _ 1 Hn Hm Hi (le_n _)).
    split; reflexivity.
  - intros sa sm v safe1 safe2 Hs1 Hs2 Hn Ha Hm.
    assert (Hi : Py.index EXPLODING [safe1; safe2; EXPLODING] = Some 2%nat).
    { cbn. apply String.eqb_neq in Hs1, Hs2. now rewrite Hs1, Hs2. }
    rewrite (aaron_risk_hazard_later sa v _ 2 Ha Hi ltac:(lia)).
    rewrite (mastermind_risk_hazard_later sm v _ 2 Hn Hm Hi ltac:(lia)).
    split; reflexivity.
Qed.

Lemma C2_witness :
  Aaron.calculate_ek_risk (aaron_knowing (Some [SKIP; EXPLODING; SKIP])) (view_of [] 9)
  = 1 / Py.float 3 /\
  Mastermind._calculate_ek_risk (mastermind_knowing (Some [SKIP; SKIP; EXPLODING]))
    (view_of [] 9) = 33 # 100 /\
  (Aaron.calculate_ek_risk (aaron_knowing (Some [SKIP; EXPLODING])) (view_of [] 9)
   == 1 # 2 /\
   Mastermind._calculate_ek_risk (mastermind_knowing (Some [SKIP; EXPLODING]))
     (view_of [] 9) == 1 # 2) /\
  (Aaron.calculate_ek_risk (aaron_knowing (Some [SKIP; SKIP; EXPLODING])) (view_of [] 9)
   == 1 # 3 /\
   Mastermind._calculate_ek_risk (mastermind_knowing (Some [SKIP; SKIP; EXPLODING]))
     (view_of [] 9) == 33 # 100).
Proof.
  destruct C2_hazard_deeper_in_peek as (Ha & Hm & H2 & H3).
  split; [apply (Ha _ _ [SKIP; EXPLODING; SKIP] 1%nat); [reflexivity | reflexivity | lia] |].
  split; [apply (Hm _ _ [SKIP; SKIP; EXPLODING] 2%nat);
          [cbn; lia | reflexivity | reflexivity | lia] |].
  split.
  - apply (H2 _ _ _ SKIP); [discriminate | cbn; lia | reflexivity | reflexivity].
  - apply (H3 _ _ _ SKIP SKIP);
      [discriminate | discriminate | cbn; lia | reflexivity | reflexivity].
Defined.

(** C2 as stated fails: for the known-top sequence [safe, hazard, safe]
    (hazard at index 1) aaron's estimator returns 1/3 and not 1/2; for
    [safe, safe, safe, hazard] (index 3) Mastermind's returns 0.33 and not
    1/4, and for [safe, safe, hazard] it returns 0.33, which is not 1/3. *)
Lemma C2_counterexample :
  (Py.index EXPLODING [SKIP; EXPLODING; SKIP] = Some 1%nat /\
   Aaron.calculate_ek_risk (aaron_knowing (Some [SKIP; EXPLODING; SKIP]))
     (view_of [] 9) == 1 # 3 /\
   ~ Aaron.calculate_ek_risk (aaron_knowing (Some [SKIP; EXPLODING; SKIP]))
       (view_of [] 9) == 1 # 2) /\
  (Py.index EXPLODING [SKIP; SKIP; SKIP; EXPLODING] = Some 3%nat /\
   ~ Mastermind._calculate_ek_risk
       (mastermind_knowing (Some [SKIP; SKIP; SKIP; EXPLODING])) (view_of [] 9)
     == 1 # 4) /\
  (Py.index EXPLODING [SKIP; SKIP; EXPLODING] = Some 2%nat /\
   ~ Mastermind._calculate_ek_risk
       (mastermind_knowing (Some [SKIP; SKIP; EXPLODING])) (view_of [] 9)
     == 1 # 3).
Proof. repeat split; vm_compute; congruence. Qed.

End PeekedHazard.

Section DefuseCushion.

Local Open Scope Q_scope.
Import Notions Samples.

Lemma no_defuse_left (v : BotView) :
  count_cards_of_type (without_defuse v) DEFUSE = 0%Z.
Proof.
  unfold count_cards_of_type, get_cards_of_type, without_defuse.
  cbn [my_hand]. induction (my_hand v) as [|c r IH]; [reflexivity |].
  cbn [List.filter]. destruct (String.eqb (card_type c) DEFUSE) eqn:E.
  - exact IH.
  - cbn [negb List.filter]. rewrite E. exact IH.
Qed.

Lemma not_in_index (x : string) (l : list string) :
  ~ In x l -> Py.index x l = None.
Proof.
  induction l as [|y r IH]; intros H; [reflexivity |].
  cbn. destruct (String.eqb_spec y x) as [->|_].
  - exfalso. apply H. now left.
  - rewrite IH; [reflexivity |]. intros Hin. apply H. now right.
Qed.

Lemma not_in_mem (x : string) (l : list string) :
  ~ In x l -> Py.mem x l = false.
Proof.
  intros H. unfold Py.mem. apply not_true_is_false. intros E.
  apply existsb_exists in E as (y & Hy & Heq).
  apply String.eqb_eq in Heq. now subst.
Qed.

Lemma float_le (a b : Z) : (a <= b)%Z -> Py.float a <= Py.float b.
Proof. intros H. unfold Py.float. now rewrite <- Zle_Qle. Qed.

Lemma fmax_r_when (a b : Q) : a <= b -> Py.fmax a b == b.
Proof.
  intros H. unfold Py.fmax. destruct (Qle_bool b a) eqn:E; [| reflexivity].
  apply Qle_bool_iff in E. now apply Qle_antisym.
Qed.

Lemma fmax_l_when (a b : Q) : b <= a -> Py.fmax a b = a.
Proof.
  intros H. unfold Py.fmax. apply Qle_bool_iff in H. now rewrite H.
Qed.

Lemma mastermind_cushion_floor (k : Z) :
  (3 <= k)%Z -> mastermind_cushion k = 3 # 10.
Proof.
  intros H. apply fmax_l_when. apply float_le in H.
  change (Py.float 3) with 3 in H. lra.
Qed.

Lemma mastermind_cushion_linear (k : Z) :
  (k <= 2)%Z -> mastermind_cushion k == 1 - Py.float k * (25 # 100).
Proof.
  intros H. apply fmax_r_when. apply float_le in H.
  change (Py.float 2) with 2 in H. lra.
Qed.

Lemma mastermind_cushion_antitone (k k' : Z) :
  (k <= k')%Z -> mastermind_cushion k' <= mastermind_cushion k.
Proof.
  intros H. apply float_le in H. unfold mastermind_cushion.
  apply fmax_upper; [apply fmax_ge_l |].
  unfold Py.fmax at 1.
  destruct (Qle_bool (1 - Py.float k * (25 # 100)) (3 # 10)) eqn:E.
  - apply Qle_bool_iff in E. lra.
  - lra.
Qed.

Lemma mastermind_cushion_strict (k k' : Z) :
  (k < k')%Z -> (k <= 2)%Z -> mastermind_cushion k' < mastermind_cushion k.
Proof.
  intros Hlt Hk. rewrite (mastermind_cushion_linear k Hk).
  assert (H1 : Py.float (k + 1) <= Py.float k') by (apply float_le; lia).
  assert (H2 : Py.float k <= Py.float 2) by now apply float_le.
  unfold Py.float in *. rewrite inject_Z_plus in H1.
  change (inject_Z 1) with 1 in H1. change (inject_Z 2) with 2 in H2.
  unfold mastermind_cushion, Py.fmax, Py.float.
  destruct (Qle_bool _ _); lra.
Qed.

Lemma mastermind_risk_cushioned (s : Mastermind.State) (v : BotView) :
  (1 <= count_cards_of_type v DEFUSE)%Z ->
  ~ In EXPLODING (Mastermind.known s) ->
  Mastermind._calculate_ek_risk s v
  == Mastermind._calculate_ek_risk s (without_defuse v)
     * mastermind_cushion (count_cards_of_type v DEFUSE).
Proof.
  intros Hk Hno. unfold Mastermind._calculate_ek_risk.
  rewrite (no_defuse_left v).
  change (draw_pile_count (without_defuse v)) with (draw_pile_count v).
  change (turn_order (without_defuse v)) with (turn_order v).
  destruct (draw_pile_count v =? 0)%Z; [lra |].
  assert (Hpos : (0 <? count_cards_of_type v DEFUSE)%Z = true)
    by (apply Z.ltb_lt; lia).
  rewrite Hpos. change (0 <? 0)%Z with false. cbv iota.
  destruct (Mastermind.known s) as [|first rest] eqn:Ek.
  - reflexivity.
  - rewrite (not_in_index _ _ Hno).
    destruct (String.eqb_spec first EXPLODING) as [->|_].
    + exfalso. apply Hno. now left.
    + reflexivity.
Qed.

Lemma aaron_risk_cushioned (s : Aaron.State) (v : BotView) :
  (1 <= count_cards_of_type v DEFUSE)%Z ->
  Aaron.known s = [] ->
  Aaron.calculate_ek_risk s v
  == Aaron.calculate_ek_risk s (without_defuse v) * aaron_cushion.
Proof.
  intros Hk Hno. unfold Aaron.calculate_ek_risk.
  rewrite (no_defuse_left v), Hno.
  change (draw_pile_count (without_defuse v)) with (draw_pile_count v).
  change (turn_order (without_defuse v)) with (turn_order v).
  assert (Hpos : (0 <? count_cards_of_type v DEFUSE)%Z = true)
    by (apply Z.ltb_lt; lia).
  rewrite Hpos. reflexivity.
Qed.

(** C8 (as the code has it).  Holding k >= 1 Defuse cards, Mastermind's
    estimator returns, whenever no hazard is visible in the known-top
    sequence, the cushion-free risk times max(0.3, 1 - 0.25 k): a factor of
    [0.3, 0.75] that does not increase with k, decreases strictly up to
    k = 3 and stays at the floor 0.3 from k = 3 on.  aaron's estimator,
    when it has no peek knowledge, returns the cushion-free risk times the
    constant 0.6. *)
Theorem C8_defuse_cushion :
  (forall s v,
     (1 <= count_cards_of_type v DEFUSE)%Z ->
     ~ In EXPLODING (Mastermind.known s) ->
     Mastermind._calculate_ek_risk s v
     == Mastermind._calculate_ek_risk s (without_defuse v)
        * mastermind_cushion (count_cards_of_type v DEFUSE)) /\
  (forall k, (1 <= k)%Z ->
     3 # 10 <= mastermind_cushion k /\ mastermind_cushion k <= 3 # 4) /\
  (forall k k', (1 <= k)%Z -> (k <= k')%Z ->
     mastermind_cushion k' <= mastermind_cushion k) /\
  (forall k k', (1 <= k)%Z -> (k < k')%Z -> (k <= 2)%Z ->
     mastermind_cushion k' < mastermind_cushion k) /\
  (forall k, (3 <= k)%Z -> mastermind_cushion k = 3 # 10) /\
  (forall s v,
     (1 <= count_cards_of_type v DEFUSE)%Z ->
     Aaron.known s = [] ->
     Aaron.calculate_ek_risk s v
     == Aaron.calculate_ek_risk s (without_defuse v) * (6 # 10)).
Proof.
  split; [exact mastermind_risk_cushioned |].
  split; [intros k Hk; split;
          [apply mastermind_cushion_range
          | now apply mastermind_cushion_range] |].
  split; [intros k k' _ H; now apply mastermind_cushion_antitone |].
  split; [intros k k' _ H1 H2; now apply mastermind_cushion_strict |].
  split; [exact mastermind_cushion_floor |].
  exact aaron_risk_cushioned.
Qed.

Lemma C8_witness :
  Mastermind._calculate_ek_risk (mastermind_knowing None)
    (view_of [defuse 0; defuse 1] 20)
  == Mastermind._calculate_ek_risk (mastermind_knowing None)
       (without_defuse (view_of [defuse 0; defuse 1] 20))
     * mastermind_cushion 2 /\
  (3 # 10 <= mastermind_cushion 2 /\ mastermind_cushion 2 <= 3 # 4) /\
  mastermind_cushion 5 <= mastermind_cushion 4 /\
  mastermind_cushion 2 < mastermind_cushion 1 /\
  mastermind_cushion 4 = 3 # 10 /\
  Aaron.calculate_ek_risk (aaron_knowing None) (view_of [defuse 0] 20)
  == Aaron.calculate_ek_risk (aaron_knowing None)
       (without_defuse (view_of [defuse 0] 20)) * (6 # 10).
Proof.
  destruct C8_defuse_cushion as (Hm & Hr & Ha & Hs & Hf & Haa).
  split; [apply (Hm (mastermind_knowing None) (view_of [defuse 0; defuse 1] 20));
          [vm_compute; congruence | cbn; tauto] |].
  split; [apply Hr; lia |].
  split; [apply Ha; lia |].
  split; [apply Hs; lia |].
  split; [apply Hf; lia |].
  apply Haa; [vm_compute; congruence | reflexivity].
Defined.

(** C8 as stated fails: Mastermind's factor is the same for three and for
    four Defuse cards, aaron's is the same for one and for two, and with a
    hazard known on top Mastermind returns the cushion-free risk 1 although
    a Defuse is held. *)
Lemma C8_counterexample :
  Mastermind._calculate_ek_risk (mastermind_knowing None)
    (view_of (map defuse (seq 0 3)) 20)
  == Mastermind._calculate_ek_risk (mastermind_knowing None)
       (view_of (map defuse (seq 0 4)) 20) /\
  ~ Mastermind._calculate_ek_risk (mastermind_knowing None)
      (view_of (map defuse (seq 0 3)) 20) == 0 /\
  Aaron.calculate_ek_risk (aaron_knowing None) (view_of (map defuse (seq 0 1)) 20)
  == Aaron.calculate_ek_risk (aaron_knowing None)
       (view_of (map defuse (seq 0 2)) 20) /\
  ~ Aaron.calculate_ek_risk (aaron_knowing None)
      (view_of (map defuse (seq 0 1)) 20) == 0 /\
  Mastermind._calculate_ek_risk (mastermind_knowing (Some [EXPLODING]))
    (view_of [defuse 0] 20) == 1 /\
  Mastermind._calculate_ek_risk (mastermind_knowing (Some [EXPLODING]))
    (without_defuse (view_of [defuse 0] 20)) == 1.
Proof. repeat split; vm_compute; congruence. Qed.

End DefuseCushion.

(** ** Knowledge tracker *)

Section KnowledgeTracker.

Import Samples.

Lemma player_is_false (e : GameEvent) (pid : string) :
  player_id e <> Some pid -> player_is e pid = false.
Proof.
  unfold player_is. destruct (player_id e) as [p|]; [| reflexivity].
  intros H. apply String.eqb_neq. congruence.
Qed.

Lemma player_is_true (e : GameEvent) (pid : string) :
  player_id e = Some pid -> player_is e pid = true.
Proof. unfold player_is. intros ->. apply String.eqb_refl. Qed.

(** C5.  Processing a deck-reshuffled or a hazard-inserted event leaves the
    known-top-of-deck sequence cleared ([None]), whatever it held before,
    in aaron's and in Mastermind's tracker. *)
Theorem C5_reshuffle_clears_known_top :
  forall (sa : Aaron.State) (sm : Mastermind.State) (e : GameEvent) (v : BotView),
    event_type e = DECK_SHUFFLED \/ event_type e = EXPLODING_KITTEN_INSERTED ->
    Aaron._known_top_cards (Aaron.on_event sa e v) = None /\
    Mastermind._known_top_cards (Mastermind.on_event sm e v) = None.
Proof.
  intros sa sm [ty who d] v H. cbn [event_type] in H.
  destruct H as [-> | ->]; split;
    cbv beta iota zeta delta
      [Aaron.on_event Mastermind.on_event EventType_eqb event_type andb orb
       Aaron.set_known Aaron._known_top_cards
       Mastermind.set_peek Mastermind.set_flags Mastermind._known_top_cards];
    reflexivity.
Qed.

Lemma C5_witness :
  Aaron._known_top_cards
    (Aaron.on_event (aaron_knowing (Some [SKIP; EXPLODING]))
       (mkEvent DECK_SHUFFLED (Some "bob") (mkData None None None None))
       (view_of [] 9)) = None /\
  Mastermind._known_top_cards
    (Mastermind.on_event (mastermind_knowing (Some [SKIP; EXPLODING]))
       (mkEvent DECK_SHUFFLED (Some "bob") (mkData None None None None))
       (view_of [] 9)) = None.
Proof. apply C5_reshuffle_clears_known_top. left. reflexivity. Defined.

Lemma aaron_foreign_peek (s : Aaron.State) (e : GameEvent) (v : BotView) :
  event_type e = CARDS_PEEKED -> player_id e <> Some (my_id v) ->
  Aaron.on_event s e v = s.
Proof.
  intros Ht Hp. unfold Aaron.on_event.
  rewrite Ht, (player_is_false _ _ Hp). reflexivity.
Qed.

Lemma aaron_own_peek (s : Aaron.State) (e : GameEvent) (v : BotView) :
  event_type e = CARDS_PEEKED -> player_id e = Some (my_id v) ->
  Aaron._known_top_cards (Aaron.on_event s e v)
  = Some (default [] (d_card_types (data e))).
Proof.
  intros Ht Hp. unfold Aaron.on_event.
  rewrite Ht, (player_is_true _ _ Hp). reflexivity.
Qed.

Lemma tft_foreign_peek (s : TFT.State) (e : GameEvent) (v : BotView) :
  event_type e = CARDS_PEEKED -> player_id e <> Some (my_id v) ->
  TFT.on_event s e v = s.
Proof.
  intros Ht Hp. unfold TFT.on_event.
  rewrite Ht, (player_is_false _ _ Hp). reflexivity.
Qed.

Lemma tft_own_peek (s : TFT.State) (e : GameEvent) (v : BotView) :
  event_type e = CARDS_PEEKED -> player_id e = Some (my_id v) ->
  TFT._last_peeked_cards (TFT.on_event s e v)
  = default [] (d_card_types (data e)).
Proof.
  intros Ht Hp. unfold TFT.on_event.
  rewrite Ht, (player_is_true _ _ Hp).
  cbn [EventType_eqb andb].
  destruct (default [] (d_card_types (data e))) as [|first rest];
    [reflexivity |].
  destruct (Py.mem _ _); [| reflexivity].
  destruct (String.eqb first _); [reflexivity |].
  destruct (Py.fge _ _); reflexivity.
Qed.

(** C6.  A cards-peeked event whose acting player is not the agent leaves
    the agent's known-top-of-deck sequence unchanged (aaron:
    [_known_top_cards]; tft: [_last_peeked_cards]); a cards-peeked event of
    the agent itself replaces it with the revealed sequence as it is. *)
Theorem C6_peek_only_own :
  forall (sa : Aaron.State) (st : TFT.State) (e : GameEvent) (v : BotView),
    event_type e = CARDS_PEEKED ->
    (player_id e <> Some (my_id v) ->
       Aaron._known_top_cards (Aaron.on_event sa e v) = Aaron._known_top_cards sa /\
       TFT._last_peeked_cards (TFT.on_event st e v) = TFT._last_peeked_cards st) /\
    (player_id e = Some (my_id v) ->
       Aaron._known_top_cards (Aaron.on_event sa e v)
       = Some (default [] (d_card_types (data e))) /\
       TFT._last_peeked_cards (TFT.on_event st e v)
       = default [] (d_card_types (data e))).
Proof.
  intros sa st e v Ht. split; intros Hp.
  - now rewrite (aaron_foreign_peek sa e v Ht Hp), (tft_foreign_peek st e v Ht Hp).
  - split; [now apply aaron_own_peek | now apply tft_own_peek].
Qed.

Lemma C6_witness :
  (Aaron._known_top_cards
     (Aaron.on_event (aaron_knowing (Some [SKIP])) (peek_by "bob" [EXPLODING])
        (view_of [] 9)) = Some [SKIP] /\
   TFT._last_peeked_cards
     (TFT.on_event (tft_knowing [SKIP]) (peek_by "bob" [EXPLODING])
        (view_of [] 9)) = [SKIP]) /\
  (Aaron._known_top_cards
     (Aaron.on_event (aaron_knowing (Some [SKIP])) (peek_by "me" [NOPE; EXPLODING])
        (view_of [] 9)) = Some [NOPE; EXPLODING] /\
   TFT._last_peeked_cards
     (TFT.on_event (tft_knowing [SKIP]) (peek_by "me" [NOPE; EXPLODING])
        (view_of [] 9)) = [NOPE; EXPLODING]).
Proof.
  split.
  - apply (proj1 (C6_peek_only_own (aaron_knowing (Some [SKIP])) (tft_knowing [SKIP])
                    (peek_by "bob" [EXPLODING]) (view_of [] 9) eq_refl)).
    discriminate.
  - apply (proj2 (C6_peek_only_own (aaron_knowing (Some [SKIP])) (tft_knowing [SKIP])
                    (peek_by "me" [NOPE; EXPLODING]) (view_of [] 9) eq_refl)).
    reflexivity.
Defined.

End KnowledgeTracker.

(** ** Reaction evaluator *)

Section Reactions.

Import Samples.

(** C10.  Without a Nope card in hand [react] passes ([None]); with at
    least one Nope card, an Attack card played with the agent as its target
    is answered by playing the first Nope card, whatever the random draw
    [u] of the bluff path is.  This holds for my_bot and for aaron. *)
Theorem C10_react_to_attack :
  forall (v : BotView) (e : GameEvent) (u : Q),
    (get_cards_of_type v NOPE = [] ->
       MyBot.react v e u = None /\ Aaron.react v e u = None) /\
    (forall nope0 rest,
       get_cards_of_type v NOPE = nope0 :: rest ->
       event_type e = CARD_PLAYED ->
       d_card_type (data e) = Some ATTACK ->
       d_target_player_id (data e) = Some (my_id v) ->
       MyBot.react v e u = Some (PlayCardAction nope0 None) /\
       Aaron.react v e u = Some (PlayCardAction nope0 None)).
Proof.
  intros v e u. split.
  - intros H. unfold MyBot.react, Aaron.react.
    change "NopeCard" with NOPE. now rewrite H.
  - intros nope0 rest H Ht Hc Htg. unfold MyBot.react, Aaron.react.
    change "NopeCard" with NOPE. change "AttackCard" with ATTACK.
    rewrite H, Ht, Hc, Htg. cbn [EventType_eqb default opt_is].
    change (default "" (Some ATTACK)) with ATTACK.
    rewrite !String.eqb_refl. split; reflexivity.
Qed.

Lemma C10_witness :
  (MyBot.react (view_of [cat 0] 9) (attack_by "bob" "me") (1 # 100) = None /\
   Aaron.react (view_of [cat 0] 9) (attack_by "bob" "me") (1 # 100) = None) /\
  (MyBot.react (view_of [cat 0; nope 1; nope 2] 9) (attack_by "bob" "me") (99 # 100)
   = Some (PlayCardAction (nope 1) None) /\
   Aaron.react (view_of [cat 0; nope 1; nope 2] 9) (attack_by "bob" "me") (99 # 100)
   = Some (PlayCardAction (nope 1) None)).
Proof.
  split.
  - apply (proj1 (C10_react_to_attack (view_of [cat 0] 9) (attack_by "bob" "me")
                    (1 # 100))).
    reflexivity.
  - apply (proj2 (C10_react_to_attack (view_of [cat 0; nope 1; nope 2] 9)
                    (attack_by "bob" "me") (99 # 100)) (nope 1) [nope 2]);
      reflexivity.
Defined.

End Reactions.

(** ** Defuse placement *)

Section DefusePlacement.

Import Samples.

Lemma randint_range (u a b : Z) :
  a <= b -> exists p, Py.randint u a b = Some p /\ a <= p <= b.
Proof.
  intros H. unfold Py.randint.
  destruct (Z.leb_spec a b); [| lia].
  eexists. split; [reflexivity |].
  pose proof (Z.mod_pos_bound u (b - a + 1) ltac:(lia)). lia.
Qed.

Lemma three_quarters_below (n : Z) :
  8 <= n -> Py.int (Py.float n * (75 # 100))%Q <= n - 1.
Proof.
  intros H. unfold Py.int, Py.float.
  rewrite Zle_Qle.
  eapply Qle_trans; [apply Qfloor_le |].
  unfold Z.sub. rewrite inject_Z_plus.
  assert (Hq : (inject_Z 8 <= inject_Z n)%Q) by now rewrite <- Zle_Qle.
  change (inject_Z 8) with 8%Q in Hq. change (inject_Z (- (1))) with (- (1))%Q.
  lra.
Qed.

Lemma mybot_position_range (v : BotView) (size : Z) :
  2 <= size -> 1 <= MyBot.choose_defuse_position v size <= size - 1.
Proof.
  intros H. unfold MyBot.choose_defuse_position.
  destruct (Z.ltb_spec 4 size).
  - pose proof (Z.div_lt_upper_bound size 4 size ltac:(lia) ltac:(lia)). lia.
  - lia.
Qed.

Lemma aaron_position_range (v : BotView) (size u : Z) :
  2 <= size ->
  exists p, Aaron.choose_defuse_position v size u = Some p /\ 1 <= p <= size - 1.
Proof.
  intros H. unfold Aaron.choose_defuse_position.
  destruct (Z.leb_spec size 1); [lia |].
  destruct (randint_range u 1 (Z.max 1 (size - 1)) ltac:(lia)) as (p & Hp & Hr).
  exists p. split; [exact Hp | lia].
Qed.

Lemma tft_position_range (v : BotView) (size u : Z) :
  2 <= size ->
  exists p, TFT.choose_defuse_position v size u = Some p /\ 1 <= p <= size - 1.
Proof.
  intros H. unfold TFT.choose_defuse_position.
  destruct (Z.leb_spec size 1); [lia |].
  destruct (Z.eqb_spec size 2); [exists 1; split; [reflexivity | lia] |].
  destruct (Z.eqb_spec size 3).
  { destruct (randint_range u 1 2 ltac:(lia)) as (p & Hp & Hr).
    exists p. split; [exact Hp | lia]. }
  destruct (Z.leb_spec size 5).
  { destruct (randint_range u 1 (Z.min 3 (size - 1)) ltac:(lia)) as (p & Hp & Hr).
    exists p. split; [exact Hp | lia]. }
  destruct (Z.leb_spec size 7).
  { destruct (randint_range u 2 (size - 1) ltac:(lia)) as (p & Hp & Hr).
    exists p. split; [exact Hp | lia]. }
  pose proof (three_quarters_below size ltac:(lia)) as Hq.
  cbv zeta.
  destruct (randint_range u 4
              (Z.max (4 + 1) (Py.int (Py.float size * (75 # 100))%Q))
              ltac:(lia)) as (p & Hp & Hr).
  exists p. split; [exact Hp | lia].
Qed.

(** C9 (as the code has it).  For a draw pile of one card aaron's and
    tft's [choose_defuse_position] return 0; for every draw pile size of at
    least 2 and every random draw, my_bot's, aaron's and tft's return an
    index of [1, size - 1], so never 0. *)
Theorem C9_defuse_position_range :
  forall (v : BotView) (size u : Z),
    (size = 1 ->
       Aaron.choose_defuse_position v size u = Some 0 /\
       TFT.choose_defuse_position v size u = Some 0) /\
    (2 <= size ->
       1 <= MyBot.choose_defuse_position v size <= size - 1 /\
       (exists p, Aaron.choose_defuse_position v size u = Some p /\
                  1 <= p <= size - 1) /\
       (exists p, TFT.choose_defuse_position v size u = Some p /\
                  1 <= p <= size - 1)).
Proof.
  intros v size u. split.
  - intros ->. split; reflexivity.
  - intros H. split; [now apply mybot_position_range |].
    split; [now apply aaron_position_range | now apply tft_position_range].
Qed.

Lemma C9_witness :
  (Aaron.choose_defuse_position (view_of [] 1) 1 7 = Some 0 /\
   TFT.choose_defuse_position (view_of [] 1) 1 7 = Some 0) /\
  (1 <= MyBot.choose_defuse_position (view_of [] 12) 12 <= 12 - 1 /\
   (exists p, Aaron.choose_defuse_position (view_of [] 12) 12 7 = Some p /\
              1 <= p <= 12 - 1) /\
   (exists p, TFT.choose_defuse_position (view_of [] 12) 12 7 = Some p /\
              1 <= p <= 12 - 1)).
Proof.
  split.
  - apply (proj1 (C9_defuse_position_range (view_of [] 1) 1 7)). reflexivity.
  - apply (proj2 (C9_defuse_position_range (view_of [] 12) 12 7)). lia.
Defined.

(** C9 as stated fails: for a draw pile of one card my_bot's
    [choose_defuse_position] returns 1, outside [0, 0]. *)
Lemma C9_counterexample :
  MyBot.choose_defuse_position (view_of [] 1) 1 = 1 /\
  ~ (0 <= MyBot.choose_defuse_position (view_of [] 1) 1 <= 1 - 1).
Proof. split; [reflexivity | vm_compute; intros [_ H]; now apply H]. Qed.

End DefusePlacement.

(** ** Opponent model *)

Section OpponentModel.

Local Open Scope Q_scope.
Import Notions Samples.

Lemma max_one_total (n : nat) : (1 <= n)%nat -> Z.max 1 (Z.of_nat n) = Z.of_nat n.
Proof. lia. Qed.

Lemma aaron_prior (s : Aaron.State) (p : string) :
  Py.sum_values (aaron_counts s p) = 0%nat ->
  Aaron.simulate_opponent s p = {| Aaron.defensive := 3 # 10; Aaron.nope := 2 # 10 |}.
Proof.
  unfold Aaron.simulate_opponent, aaron_counts. intros ->. reflexivity.
Qed.

Lemma aaron_never_seen (s : Aaron.State) (p : string) :
  Aaron._opponent_card_counts s !! p = None ->
  Py.sum_values (aaron_counts s p) = 0%nat.
Proof.
  unfold aaron_counts. intros ->. unfold Py.sum_values.
  apply map_fold_empty.
Qed.

Lemma aaron_observed (s : Aaron.State) (p : string) :
  (1 <= Py.sum_values (aaron_counts s p))%nat ->
  Aaron.nope (Aaron.simulate_opponent s p)
  = Py.fmin (7 # 10)
      (share (Py.count_of (aaron_counts s p) NOPE) (Py.sum_values (aaron_counts s p))) /\
  Aaron.defensive (Aaron.simulate_opponent s p) <= 8 # 10 /\
  (Py.count_of (aaron_counts s p) DEFUSE = 0%nat ->
   Aaron.defensive (Aaron.simulate_opponent s p)
   = Py.fmin (8 # 10)
       (share (defensive_plays (aaron_counts s p)) (Py.sum_values (aaron_counts s p)))).
Proof.
  intros Hn. unfold Aaron.simulate_opponent. fold (aaron_counts s p).
  destruct (Nat.eqb_spec (Py.sum_values (aaron_counts s p)) 0); [lia |].
  cbn [Aaron.nope Aaron.defensive]. rewrite (max_one_total _ Hn).
  split; [reflexivity |]. split; [apply fmin_le_l |].
  intros Hd. unfold defensive_plays, share. rewrite Hd, Nat.add_0_r.
  reflexivity.
Qed.

Lemma touch_counts_read (s : Mastermind.State) (p : string) :
  default ∅ (Mastermind._opponent_card_counts (Mastermind.touch_counts s p) !! p)
  = mastermind_counts s p.
Proof.
  unfold Mastermind.touch_counts, mastermind_counts.
  destruct (Mastermind._opponent_card_counts s !! p) eqn:E.
  - now rewrite E.
  - cbn [Mastermind.set_tables Mastermind._opponent_card_counts].
    now rewrite lookup_insert_eq.
Qed.

Lemma touch_counts_probs (s : Mastermind.State) (p : string) :
  Mastermind._opponent_defense_prob (Mastermind.touch_counts s p)
  = Mastermind._opponent_defense_prob s /\
  Mastermind._opponent_nope_prob (Mastermind.touch_counts s p)
  = Mastermind._opponent_nope_prob s.
Proof.
  unfold Mastermind.touch_counts.
  now destruct (Mastermind._opponent_card_counts s !! p).
Qed.

Lemma mastermind_observed (s : Mastermind.State) (p : string) :
  (1 <= Py.sum_values (mastermind_counts s p))%nat ->
  Mastermind._opponent_defense_prob (Mastermind._update_opponent_model s p) !! p
  = Some (Py.fmin (9 # 10)
            (share (defensive_plays (mastermind_counts s p))
                   (Py.sum_values (mastermind_counts s p)))) /\
  Mastermind._opponent_nope_prob (Mastermind._update_opponent_model s p) !! p
  = Some (Py.fmin (8 # 10)
            (share (Py.count_of (mastermind_counts s p) NOPE)
                   (Py.sum_values (mastermind_counts s p)))).
Proof.
  intros Hn. unfold Mastermind._update_opponent_model. cbv zeta.
  rewrite touch_counts_read.
  destruct (Nat.eqb_spec (Py.sum_values (mastermind_counts s p)) 0); [lia |].
  cbn [Mastermind.with_probs Mastermind._opponent_defense_prob
       Mastermind._opponent_nope_prob].
  rewrite (max_one_total _ Hn), !lookup_insert_eq. split; reflexivity.
Qed.

Lemma mastermind_unobserved (s : Mastermind.State) (p : string) :
  Py.sum_values (mastermind_counts s p) = 0%nat ->
  Mastermind._opponent_defense_prob (Mastermind._update_opponent_model s p)
  = Mastermind._opponent_defense_prob s /\
  Mastermind._opponent_nope_prob (Mastermind._update_opponent_model s p)
  = Mastermind._opponent_nope_prob s.
Proof.
  intros H0. unfold Mastermind._update_opponent_model. cbv zeta.
  rewrite touch_counts_read, H0. cbn [Nat.eqb].
  apply touch_counts_probs.
Qed.

Lemma mastermind_default (s : Mastermind.State) (p : string) :
  Mastermind._opponent_defense_prob s !! p = None ->
  Mastermind.defense_prob s p = 5 # 10.
Proof. unfold Mastermind.defense_prob. intros ->. reflexivity. Qed.

(** C7 (as the code has it).  For an opponent with zero observed plays
    aaron's [simulate_opponent] returns the neutral prior (0.3, 0.2), and
    Mastermind's [_update_opponent_model] leaves its probability tables as
    they are, its readers falling back on a defensive probability of 0.5
    for an opponent without an entry.  For an opponent with
    at least one observed play, Mastermind stores a defensive probability
    of (skip + attack + shuffle + defuse) / total capped at 0.9 and a veto
    probability of nope / total capped at 0.8; aaron returns a veto
    probability of nope / total capped at 0.7 and a defensive probability
    capped at 0.8, which is (skip + attack + shuffle + defuse) / total
    capped at 0.8 when no Defuse play was counted. *)
Theorem C7_opponent_profile :
  (forall s p, Py.sum_values (aaron_counts s p) = 0%nat ->
     Aaron.simulate_opponent s p
     = {| Aaron.defensive := 3 # 10; Aaron.nope := 2 # 10 |}) /\
  (forall s p, Py.sum_values (mastermind_counts s p) = 0%nat ->
     Mastermind._opponent_defense_prob (Mastermind._update_opponent_model s p)
     = Mastermind._opponent_defense_prob s /\
     Mastermind._opponent_nope_prob (Mastermind._update_opponent_model s p)
     = Mastermind._opponent_nope_prob s) /\
  (forall s p, Mastermind._opponent_defense_prob s !! p = None ->
     Mastermind.defense_prob s p = 5 # 10) /\
  (forall s p, (1 <= Py.sum_values (mastermind_counts s p))%nat ->
     Mastermind._opponent_defense_prob (Mastermind._update_opponent_model s p) !! p
     = Some (Py.fmin (9 # 10)
               (share (defensive_plays (mastermind_counts s p))
                      (Py.sum_values (mastermind_counts s p)))) /\
     Mastermind._opponent_nope_prob (Mastermind._update_opponent_model s p) !! p
     = Some (Py.fmin (8 # 10)
               (share (Py.count_of (mastermind_counts s p) NOPE)
                      (Py.sum_values (mastermind_counts s p))))) /\
  (forall s p, (1 <= Py.sum_values (aaron_counts s p))%nat ->
     Aaron.nope (Aaron.simulate_opponent s p)
     = Py.fmin (7 # 10)
         (share (Py.count_of (aaron_counts s p) NOPE)
                (Py.sum_values (aaron_counts s p))) /\
     Aaron.defensive (Aaron.simulate_opponent s p) <= 8 # 10 /\
     (Py.count_of (aaron_counts s p) DEFUSE = 0%nat ->
      Aaron.defensive (Aaron.simulate_opponent s p)
      = Py.fmin (8 # 10)
          (share (defensive_plays (aaron_counts s p))
                 (Py.sum_values (aaron_counts s p))))).
Proof.
  split; [exact aaron_prior |].
  split; [exact mastermind_unobserved |].
  split; [exact mastermind_default |].
  split; [exact mastermind_observed | exact aaron_observed].
Qed.

Lemma C7_witness :
  Aaron.simulate_opponent (aaron_knowing None) "bob"
  = {| Aaron.defensive := 3 # 10; Aaron.nope := 2 # 10 |} /\
  (Mastermind._opponent_defense_prob
     (Mastermind._update_opponent_model (mastermind_knowing None) "bob")
   = Mastermind._opponent_defense_prob (mastermind_knowing None) /\
   Mastermind._opponent_nope_prob
     (Mastermind._update_opponent_model (mastermind_knowing None) "bob")
   = Mastermind._opponent_nope_prob (mastermind_knowing None)) /\
  Mastermind.defense_prob (mastermind_knowing None) "bob" = 5 # 10 /\
  (let s := mastermind_having_seen "bob" [(SKIP, 2%nat); (NOPE, 1%nat); (DEFUSE, 1%nat)] in
   Mastermind._opponent_defense_prob (Mastermind._update_opponent_model s "bob") !! "bob"
   = Some (Py.fmin (9 # 10)
             (share (defensive_plays (mastermind_counts s "bob"))
                    (Py.sum_values (mastermind_counts s "bob")))) /\
   Mastermind._opponent_nope_prob (Mastermind._update_opponent_model s "bob") !! "bob"
   = Some (Py.fmin (8 # 10)
             (share (Py.count_of (mastermind_counts s "bob") NOPE)
                    (Py.sum_values (mastermind_counts s "bob"))))) /\
  (let s := aaron_having_seen "bob" [(SKIP, 2%nat); (NOPE, 1%nat)] in
   Aaron.nope (Aaron.simulate_opponent s "bob")
   = Py.fmin (7 # 10)
       (share (Py.count_of (aaron_counts s "bob") NOPE)
              (Py.sum_values (aaron_counts s "bob"))) /\
   Aaron.defensive (Aaron.simulate_opponent s "bob") <= 8 # 10 /\
   (Py.count_of (aaron_counts s "bob") DEFUSE = 0%nat ->
    Aaron.defensive (Aaron.simulate_opponent s "bob")
    = Py.fmin (8 # 10)
        (share (defensive_plays (aaron_counts s "bob"))
               (Py.sum_values (aaron_counts s "bob"))))).
Proof.
  destruct C7_opponent_profile as (H1 & H2 & H3 & H4 & H5).
  split; [apply H1; reflexivity |].
  split; [apply H2; reflexivity |].
  split; [apply H3; reflexivity |].
  split; [apply H4; vm_compute; lia | apply H5; vm_compute; lia].
Defined.

(** C7 as stated fails: after a single observed Skip play aaron's defensive
    probability is 0.8, not 1/1 capped at 0.9; and for an opponent without
    observed plays Mastermind's model reads 0.5, not the prior 0.3. *)
Lemma C7_counterexample :
  (let s := aaron_having_seen "bob" [(SKIP, 1%nat)] in
   Py.sum_values (aaron_counts s "bob") = 1%nat /\
   Aaron.defensive (Aaron.simulate_opponent s "bob") == 8 # 10 /\
   ~ Aaron.defensive (Aaron.simulate_opponent s "bob")
     == Py.fmin (9 # 10)
          (share (defensive_plays (aaron_counts s "bob"))
                 (Py.sum_values (aaron_counts s "bob")))) /\
  (let s := mastermind_knowing None in
   Py.sum_values (mastermind_counts s "bob") = 0%nat /\
   Mastermind.defense_prob (Mastermind._update_opponent_model s "bob") "bob"
   == 5 # 10 /\
   ~ Mastermind.defense_prob (Mastermind._update_opponent_model s "bob") "bob"
     == 3 # 10).
Proof. repeat split; vm_compute; congruence. Qed.

End OpponentModel.

(** ** Insertion-ordered dicts *)

Section OrderedDict.

Local Open Scope list_scope.
Import Notions.

Lemma mem_In (x : string) (l : list string) : Py.mem x l = true <-> In x l.
Proof.
  unfold Py.mem. rewrite existsb_exists. split.
  - intros (y & Hy & E). apply String.eqb_eq in E. now subst.
  - intros H. exists x. split; [exact H | apply String.eqb_refl].
Qed.

Lemma mem_cons_other (x y : string) (l : list string) :
  y <> x -> Py.mem x (y :: l) = Py.mem x l.
Proof.
  intros H. unfold Py.mem. cbn [existsb].
  apply not_eq_sym, String.eqb_neq in H. now rewrite H.
Qed.

Lemma first_occurrences_In (x : string) (l : list string) :
  In x (first_occurrences l) <-> In x l.
Proof.
  induction l as [|a r IH]; [reflexivity |].
  cbn [first_occurrences In]. rewrite filter_In, IH. split.
  - intros [H | [H _]]; [now left | now right].
  - intros [H | H]; [now left |].
    destruct (String.eqb_spec x a) as [->|Hne]; [now left | now right].
Qed.

Lemma first_occurrences_NoDup (l : list string) : List.NoDup (first_occurrences l).
Proof.
  induction l as [|a r IH]; cbn [first_occurrences]; constructor.
  - rewrite filter_In. intros [_ H].
    now rewrite String.eqb_refl in H.
  - now apply List.NoDup_filter.
Qed.

Lemma first_occurrences_snoc (l : list string) (x : string) :
  first_occurrences (l ++ [x])
  = first_occurrences l ++ (if Py.mem x l then [] else [x]).
Proof.
  induction l as [|a r IH].
  - reflexivity.
  - cbn [app first_occurrences]. rewrite IH, List.filter_app. f_equal.
    destruct (String.eqb_spec a x) as [->|Hne].
    + unfold Py.mem at 2. cbn [existsb]. rewrite String.eqb_refl.
      cbn [orb]. destruct (Py.mem x r); cbn [List.filter];
        [reflexivity | now rewrite String.eqb_refl].
    + rewrite (mem_cons_other _ _ _ Hne).
      destruct (Py.mem x r); cbn [List.filter]; [reflexivity |].
      apply not_eq_sym, String.eqb_neq in Hne. now rewrite Hne.
Qed.

Lemma mem_first_occurrences_eq (x : string) (l : list string) :
  Py.mem x (first_occurrences l) = Py.mem x l.
Proof.
  apply eq_true_iff_eq. now rewrite !mem_In, first_occurrences_In.
Qed.

Context {V : Type}.

Lemma dict_update_map (k : string) (f : option V -> V) (g g' : string -> V) :
  forall ks : list string,
    List.NoDup ks ->
    (forall k', k' <> k -> g' k' = g k') ->
    g' k = f (if Py.mem k ks then Some (g k) else None) ->
    Py.dict_update k f (map (fun k' => (k', g k')) ks)
    = map (fun k' => (k', g' k')) (ks ++ (if Py.mem k ks then [] else [k])).
Proof.
  induction ks as [|k0 ks IH]; intros Hnd Hother Hsame.
  - cbn in *. now rewrite Hsame.
  - inversion Hnd as [|? ? Hnotin Hnd']; subst.
    cbn [map Py.dict_update app].
    destruct (String.eqb_spec k0 k) as [->|Hne].
    + assert (Hm : Py.mem k (k :: ks) = true) by (apply mem_In; now left).
      rewrite Hm in *. rewrite app_nil_r, Hsame. f_equal.
      apply map_ext_in. intros k' Hin. f_equal. symmetry. apply Hother.
      intros ->. now apply Hnotin.
    + rewrite (mem_cons_other _ _ _ Hne) in *.
      rewrite (Hother k0 Hne). f_equal. now apply IH.
Qed.

Context {A : Type} (key : A -> string) (step : A -> option V -> V)
  (G : list A -> string -> V).

Hypothesis G_same : forall l a,
  G (l ++ [a]) (key a)
  = step a (if Py.mem (key a) (map key l) then Some (G l (key a)) else None).

Hypothesis G_other : forall l a k, k <> key a -> G (l ++ [a]) k = G l k.

Lemma fold_dict_update (l : list A) :
  fold_left (fun d a => Py.dict_update (key a) (step a) d) l []
  = map (fun k => (k, G l k)) (first_occurrences (map key l)).
Proof.
  induction l as [|a l IH] using rev_ind; [reflexivity |].
  rewrite fold_left_app, IH, List.map_app. cbn [fold_left map].
  rewrite first_occurrences_snoc.
  rewrite <- (mem_first_occurrences_eq (key a) (map key l)).
  apply dict_update_map.
  - apply first_occurrences_NoDup.
  - intros k' Hk. now apply G_other.
  - rewrite (mem_first_occurrences_eq (key a) (map key l)). apply G_same.
Qed.

End OrderedDict.

(** ** Combo detector *)

Section ComboDetector.

Local Open Scope list_scope.
Import Notions.

Lemma cards_typed_snoc_same (l : list Card) (a : Card) :
  cards_typed (card_type a) (l ++ [a]) = cards_typed (card_type a) l ++ [a].
Proof.
  unfold cards_typed. rewrite List.filter_app. cbn [List.filter].
  now rewrite String.eqb_refl.
Qed.

Lemma cards_typed_snoc_other (l : list Card) (a : Card) (k : string) :
  k <> card_type a -> cards_typed k (l ++ [a]) = cards_typed k l.
Proof.
  intros H. unfold cards_typed. rewrite List.filter_app. cbn [List.filter].
  apply not_eq_sym, String.eqb_neq in H. rewrite H. apply app_nil_r.
Qed.

Lemma cards_typed_In (k : string) (l : list Card) (c : Card) :
  In c (cards_typed k l) <-> In c l /\ card_type c = k.
Proof. unfold cards_typed. now rewrite filter_In, String.eqb_eq. Qed.

Lemma cards_typed_absent (k : string) (l : list Card) :
  Py.mem k (map card_type l) = false -> cards_typed k l = [].
Proof.
  intros H. destruct (cards_typed k l) as [|c r] eqn:E; [reflexivity |].
  assert (Hc : In c (cards_typed k l)) by (rewrite E; now left).
  apply cards_typed_In in Hc as [Hin <-].
  assert (Hm : Py.mem (card_type c) (map card_type l) = true)
    by (apply mem_In; now apply in_map).
  congruence.
Qed.

Lemma cards_typed_present (k : string) (l : list Card) :
  In k (map card_type l) -> (1 <= length (cards_typed k l))%nat.
Proof.
  intros H. apply in_map_iff in H as (c & <- & Hin).
  assert (Hc : In c (cards_typed (card_type c) l))
    by now apply cards_typed_In.
  destruct (cards_typed (card_type c) l); [destruct Hc | cbn; lia].
Qed.

Lemma group_by_type_spec (cc : list Card) :
  MyBot.group_by_type cc
  = map (fun k => (k, cards_typed k cc)) (first_occurrences (map card_type cc)).
Proof.
  unfold MyBot.group_by_type.
  apply (fold_dict_update card_type
           (fun card cards => default [] cards ++ [card])
           (fun l k => cards_typed k l)).
  - intros l a. rewrite cards_typed_snoc_same.
    destruct (Py.mem (card_type a) (map card_type l)) eqn:E; [reflexivity |].
    now rewrite (cards_typed_absent _ _ E).
  - intros l a k H. now apply cards_typed_snoc_other.
Qed.

Lemma fold_left_on_map {A B C : Type} (f : C -> B -> C) (g : A -> B)
  (l : list A) (c : C) :
  fold_left f (map g l) c = fold_left (fun c a => f c (g a)) l c.
Proof. revert c. induction l as [|a l IH]; intros c; cbn; [reflexivity | apply IH]. Qed.

Lemma Counter_spec (cc : list Card) :
  Aaron.Counter (map card_type cc)
  = map (fun k => (k, length (cards_typed k cc)))
      (first_occurrences (map card_type cc)).
Proof.
  unfold Aaron.Counter. rewrite fold_left_on_map.
  apply (fold_dict_update card_type
           (fun (_ : Card) n => S (default O n))
           (fun l k => length (cards_typed k l))).
  - intros l a. rewrite cards_typed_snoc_same, length_app. cbn [length].
    destruct (Py.mem (card_type a) (map card_type l)) eqn:E.
    + cbn. lia.
    + now rewrite (cards_typed_absent _ _ E).
  - intros l a k H. now rewrite cards_typed_snoc_other.
Qed.

Lemma flat_map_on_map {A B C : Type} (f : B -> list C) (g : A -> B)
  (l : list A) :
  flat_map f (map g l) = flat_map (fun a => f (g a)) l.
Proof. induction l as [|a l IH]; cbn; [reflexivity | now rewrite IH]. Qed.

Lemma find_as_filter {A : Type} (p : A -> bool) (l : list A) :
  match find p l with Some c => [c] | None => [] end = firstn 1 (List.filter p l).
Proof.
  induction l as [|a l IH]; [reflexivity |].
  cbn [find List.filter]. destruct (p a); [reflexivity | exact IH].
Qed.

Lemma first_of_kind_length (cc : list Card) (k : string) :
  In k (first_occurrences (map card_type cc)) ->
  length (firstn 1 (cards_typed k cc)) = 1%nat.
Proof.
  intros H. apply first_occurrences_In, cards_typed_present in H.
  rewrite length_firstn. lia.
Qed.

Lemma in_firstn {A : Type} (n : nat) (l : list A) (x : A) :
  In x (firstn n l) -> In x l.
Proof.
  intros H. rewrite <- (firstn_skipn n l). apply in_or_app. now left.
Qed.

Lemma flat_map_singletons {A B : Type} (U : A -> list B) (l : list A) :
  (forall a, In a l -> length (U a) = 1%nat) ->
  length (flat_map U l) = length l.
Proof.
  induction l as [|a l IH]; intros H; [reflexivity |].
  cbn [flat_map]. rewrite length_app, H by now left. cbn [length].
  rewrite IH; [reflexivity |]. intros b Hb. apply H. now right.
Qed.

Lemma unique_loop_spec (cc : list Card) :
  forall (keys : list string) (acc : list Card),
    (forall k, In k keys -> length (firstn 1 (cards_typed k cc)) = 1%nat) ->
    (length acc <= 5)%nat ->
    Aaron.unique_loop cc keys acc
    = acc ++ flat_map (fun k => firstn 1 (cards_typed k cc))
               (firstn (5 - length acc) keys).
Proof.
  induction keys as [|k keys IH]; intros acc Hone Hlen.
  - cbn. rewrite firstn_nil. cbn. now rewrite app_nil_r.
  - cbn [Aaron.unique_loop]. destruct (Nat.leb_spec 5 (length acc)) as [H5|H5].
    + replace (5 - length acc)%nat with 0%nat by lia. cbn.
      now rewrite app_nil_r.
    + rewrite find_as_filter. fold (cards_typed k cc).
      rewrite IH.
      * rewrite length_app, (Hone k) by now left.
        replace (5 - length acc)%nat with (S (5 - (length acc + 1)))%nat by lia.
        cbn [firstn flat_map]. now rewrite <- app_assoc.
      * intros k' Hk'. apply Hone. now right.
      * rewrite length_app, (Hone k) by now left. lia.
Qed.

(** my_bot's detector computes what the specification describes. *)
Lemma mybot_combos_spec (hand : list Card) :
  MyBot._find_possible_combos hand = combos_of_hand hand.
Proof.
  unfold MyBot._find_possible_combos, combos_of_hand, kinds, of_kind, eligible.
  generalize (List.filter can_combo hand) as cc. intros cc.
  destruct cc as [|c0 l0]; [reflexivity |].
  set (cc := c0 :: l0).
  rewrite group_by_type_spec, length_map, firstn_map, !flat_map_on_map.
  destruct (5 <=? length (first_occurrences (map card_type cc)))%nat;
    [| now rewrite app_nil_r].
  reflexivity.
Qed.

(** aaron's detector computes the same. *)
Lemma aaron_combos_spec (hand : list Card) :
  Aaron._find_possible_combos hand = combos_of_hand hand.
Proof.
  unfold Aaron._find_possible_combos, combos_of_hand, kinds, of_kind, eligible.
  generalize (List.filter can_combo hand) as cc. intros cc.
  destruct cc as [|c0 l0]; [reflexivity |].
  set (cc := c0 :: l0).
  rewrite Counter_spec, length_map, flat_map_on_map, List.map_map.
  cbn [fst]. rewrite List.map_id.
  set (ks := first_occurrences (map card_type cc)).
  fold (cards_typed).
  destruct (Nat.leb_spec 5 (length ks)) as [H5|H5]; [| now rewrite app_nil_r].
  rewrite unique_loop_spec;
    [| intros k Hk; now apply first_of_kind_length | cbn; lia].
  cbn [app length Nat.sub].
  assert (Hlen : length (flat_map (fun k => firstn 1 (cards_typed k cc))
                           (firstn 5 ks)) = 5%nat).
  { rewrite flat_map_singletons.
    - rewrite length_firstn. lia.
    - intros k Hk. apply first_of_kind_length. eapply in_firstn; eassumption. }
  rewrite Hlen. cbn [Nat.leb].
  rewrite firstn_all2 by lia. reflexivity.
Qed.

(** *** What the described detector yields per kind *)

Lemma forallb_typed_prefix (k : string) (cc : list Card) (m : nat) :
  forallb (fun c => String.eqb (card_type c) k) (firstn m (cards_typed k cc))
  = true.
Proof.
  apply forallb_forall. intros c Hc. apply in_firstn, cards_typed_In in Hc.
  apply String.eqb_eq, Hc.
Qed.

Lemma forallb_other_prefix (k k' : string) (cc : list Card) (m : nat) :
  k' <> k -> (1 <= length (cards_typed k' cc))%nat ->
  forallb (fun c => String.eqb (card_type c) k)
    (firstn (S m) (cards_typed k' cc)) = false.
Proof.
  intros Hne Hlen. destruct (cards_typed k' cc) as [|c r] eqn:E;
    [cbn in Hlen; lia |].
  assert (Hc : In c (cards_typed k' cc)) by (rewrite E; now left).
  apply cards_typed_In in Hc as [_ Hty].
  cbn [firstn forallb]. rewrite Hty.
  apply String.eqb_neq in Hne. now rewrite Hne.
Qed.

Lemma set_combo_same_kind (k : string) (cc : list Card) (n : nat) :
  List.filter (kind_entry k) (set_combo n (cards_typed k cc))
  = set_combo n (cards_typed k cc).
Proof.
  unfold set_combo, kind_entry.
  destruct (3 <=? n)%nat;
    [| destruct (2 <=? n)%nat; [| reflexivity]];
    cbn [List.filter is_five fst snd ComboType_eqb negb andb];
    now rewrite forallb_typed_prefix.
Qed.

Lemma set_combo_other_kind (k k' : string) (cc : list Card) :
  k' <> k ->
  List.filter (kind_entry k)
    (set_combo (length (cards_typed k' cc)) (cards_typed k' cc)) = [].
Proof.
  intros Hne. unfold set_combo, kind_entry.
  destruct (Nat.leb_spec 3 (length (cards_typed k' cc)));
    [| destruct (Nat.leb_spec 2 (length (cards_typed k' cc))); [| reflexivity]];
    cbn [List.filter is_five fst snd ComboType_eqb negb andb];
    rewrite forallb_other_prefix by (trivial; lia); reflexivity.
Qed.

Lemma set_combo_not_five (n : nat) (cs : list Card) :
  List.filter is_five (set_combo n cs) = [].
Proof.
  unfold set_combo.
  destruct (3 <=? n)%nat; [reflexivity |].
  destruct (2 <=? n)%nat; reflexivity.
Qed.

Lemma filter_flat_map_nil {A B : Type} (p : B -> bool) (f : A -> list B)
  (l : list A) :
  (forall a, In a l -> List.filter p (f a) = []) ->
  List.filter p (flat_map f l) = [].
Proof.
  induction l as [|a l IH]; intros H; [reflexivity |].
  cbn [flat_map]. rewrite List.filter_app, H by now left.
  apply IH. intros b Hb. apply H. now right.
Qed.

Lemma kind_entries_of_kinds (k : string) (cc : list Card) :
  forall ks : list string,
    List.NoDup ks ->
    List.filter (kind_entry k)
      (flat_map (fun k' => set_combo (length (cards_typed k' cc))
                             (cards_typed k' cc)) ks)
    = if Py.mem k ks
      then set_combo (length (cards_typed k cc)) (cards_typed k cc)
      else [].
Proof.
  induction ks as [|k0 ks IH]; intros Hnd; [reflexivity |].
  inversion Hnd as [|? ? Hnotin Hnd']; subst.
  cbn [flat_map]. rewrite List.filter_app.
  destruct (String.eqb_spec k0 k) as [->|Hne].
  - rewrite set_combo_same_kind.
    assert (Hm : Py.mem k (k :: ks) = true) by (apply mem_In; now left).
    rewrite Hm, filter_flat_map_nil; [apply app_nil_r |].
    intros k' Hk'. apply set_combo_other_kind. intros ->. contradiction.
  - rewrite (set_combo_other_kind k k0 cc Hne), (mem_cons_other _ _ _ Hne).
    now apply IH.
Qed.

Lemma set_combos_of_described (k : string) (hand : list Card) :
  set_combos_of k (combos_of_hand hand)
  = set_combo (length (of_kind k hand)) (of_kind k hand).
Proof.
  unfold set_combos_of, combos_of_hand, of_kind, kinds.
  rewrite List.filter_app, kind_entries_of_kinds
    by apply first_occurrences_NoDup.
  replace (List.filter (kind_entry k) _) with (@nil Combo)
    by (now destruct (5 <=? _)%nat).
  rewrite app_nil_r, mem_first_occurrences_eq.
  destruct (Py.mem k (map card_type (eligible hand))) eqn:E; [reflexivity |].
  now rewrite (cards_typed_absent _ _ E).
Qed.

Lemma five_combos_described (hand : list Card) :
  five_combos (combos_of_hand hand)
  = if (5 <=? length (kinds hand))%nat
    then [(five_different,
           flat_map (fun k => firstn 1 (of_kind k hand)) (firstn 5 (kinds hand)))]
    else [].
Proof.
  unfold five_combos, combos_of_hand.
  rewrite List.filter_app, filter_flat_map_nil
    by (intros; apply set_combo_not_five).
  now destruct (5 <=? length (kinds hand))%nat.
Qed.

Lemma firsts_types (cc : list Card) :
  forall ks : list string,
    (forall k, In k ks -> In k (map card_type cc)) ->
    map card_type (flat_map (fun k => firstn 1 (cards_typed k cc)) ks) = ks.
Proof.
  induction ks as [|k ks IH]; intros H; [reflexivity |].
  cbn [flat_map]. rewrite List.map_app, IH by (intros; apply H; now right).
  pose proof (cards_typed_present k cc (H k (or_introl eq_refl))) as Hlen.
  destruct (cards_typed k cc) as [|c r] eqn:E; [cbn in Hlen; lia |].
  assert (Hc : In c (cards_typed k cc)) by (rewrite E; now left).
  apply cards_typed_In in Hc as [_ Hty]. cbn. now rewrite Hty.
Qed.

Lemma NoDup_firstn {A : Type} (n : nat) (l : list A) :
  List.NoDup l -> List.NoDup (firstn n l).
Proof.
  intros H. rewrite <- (firstn_skipn n l) in H.
  now apply List.NoDup_app_remove_r in H.
Qed.

(** C4.  Per combo-eligible kind the Combo Detector (my_bot's and aaron's
    alike) yields exactly one Triple made of the first three cards when the
    kind counts three or more cards, and then no Pair of that kind; exactly
    one Pair when the kind counts two; nothing when it counts fewer.  It
    yields exactly one FiveDistinct, of five cards of five distinct kinds
    taken from the eligible cards of the hand, when five or more kinds are
    present, and none otherwise.  A Triple of one kind and a Pair of another
    appear together in one output. *)
Theorem C4_combo_detector :
  forall hand : list Card,
    let out := MyBot._find_possible_combos hand in
    Aaron._find_possible_combos hand = out /\
    (forall k, (3 <= length (of_kind k hand))%nat ->
       set_combos_of k out = [(three_of_a_kind, firstn 3 (of_kind k hand))]) /\
    (forall k, length (of_kind k hand) = 2%nat ->
       set_combos_of k out = [(two_of_a_kind, of_kind k hand)]) /\
    (forall k, (length (of_kind k hand) <= 1)%nat -> set_combos_of k out = []) /\
    ((5 <= length (kinds hand))%nat ->
       exists cards,
         five_combos out = [(five_different, cards)] /\
         length cards = 5%nat /\
         List.NoDup (map card_type cards) /\
         (forall c, In c cards -> In c hand /\ can_combo c = true)) /\
    ((length (kinds hand) < 5)%nat -> five_combos out = []) /\
    (forall x y,
       length (of_kind x hand) = 3%nat -> length (of_kind y hand) = 2%nat ->
       In (three_of_a_kind, of_kind x hand) out /\
       In (two_of_a_kind, of_kind y hand) out).
Proof.
  intros hand out. subst out. rewrite aaron_combos_spec, mybot_combos_spec.
  assert (H3 : forall k, (3 <= length (of_kind k hand))%nat ->
            set_combos_of k (combos_of_hand hand)
            = [(three_of_a_kind, firstn 3 (of_kind k hand))]).
  { intros k Hk. rewrite set_combos_of_described. unfold set_combo.
    destruct (Nat.leb_spec 3 (length (of_kind k hand))); [reflexivity | lia]. }
  assert (H2 : forall k, length (of_kind k hand) = 2%nat ->
            set_combos_of k (combos_of_hand hand)
            = [(two_of_a_kind, of_kind k hand)]).
  { intros k Hk. rewrite set_combos_of_described. unfold set_combo.
    rewrite Hk. cbn [Nat.leb]. now rewrite firstn_all2 by lia. }
  split; [reflexivity |].
  split; [exact H3 |].
  split; [exact H2 |].
  split.
  { intros k Hk. rewrite set_combos_of_described. unfold set_combo.
    destruct (Nat.leb_spec 3 (length (of_kind k hand))); [lia |].
    destruct (Nat.leb_spec 2 (length (of_kind k hand))); [lia | reflexivity]. }
  split.
  { intros H5. rewrite five_combos_described.
    destruct (Nat.leb_spec 5 (length (kinds hand))); [| lia].
    eexists. split; [reflexivity |].
    assert (Hks : forall k, In k (firstn 5 (kinds hand)) ->
              In k (map card_type (eligible hand))).
    { intros k Hk. apply in_firstn in Hk. unfold kinds in Hk.
      apply first_occurrences_In. exact Hk. }
    split; [| split].
    - unfold of_kind. rewrite flat_map_singletons.
      + rewrite length_firstn. lia.
      + intros k Hk. apply first_of_kind_length. eapply in_firstn, Hk.
    - unfold of_kind. rewrite firsts_types by exact Hks.
      apply NoDup_firstn, first_occurrences_NoDup.
    - intros c Hc. apply in_flat_map in Hc as (k & _ & Hc).
      apply in_firstn, cards_typed_In in Hc as [Hc _].
      now apply filter_In in Hc. }
  split.
  { intros H5. rewrite five_combos_described.
    destruct (Nat.leb_spec 5 (length (kinds hand))); [lia | reflexivity]. }
  intros x y Hx Hy. split.
  - assert (Hin : In (three_of_a_kind, of_kind x hand)
                    (set_combos_of x (combos_of_hand hand))).
    { rewrite H3 by lia. rewrite firstn_all2 by lia. now left. }
    now apply filter_In in Hin.
  - assert (Hin : In (two_of_a_kind, of_kind y hand)
                    (set_combos_of y (combos_of_hand hand))).
    { rewrite H2 by exact Hy. now left. }
    now apply filter_In in Hin.
Qed.

Lemma C4_witness :
  set_combos_of "TacoCatCard" (MyBot._find_possible_combos Samples.hand_three_two)
  = [(three_of_a_kind, firstn 3 (of_kind "TacoCatCard" Samples.hand_three_two))] /\
  set_combos_of "BeardCatCard" (MyBot._find_possible_combos Samples.hand_three_two)
  = [(two_of_a_kind, of_kind "BeardCatCard" Samples.hand_three_two)] /\
  set_combos_of SKIP (MyBot._find_possible_combos Samples.hand_three_two) = [] /\
  (exists cards,
     five_combos (MyBot._find_possible_combos Samples.hand_five_kinds)
     = [(five_different, cards)] /\
     length cards = 5%nat /\
     List.NoDup (map card_type cards) /\
     (forall c, In c cards ->
        In c Samples.hand_five_kinds /\ can_combo c = true)) /\
  five_combos (MyBot._find_possible_combos Samples.hand_three_two) = [] /\
  (In (three_of_a_kind, of_kind "TacoCatCard" Samples.hand_three_two)
     (MyBot._find_possible_combos Samples.hand_three_two) /\
   In (two_of_a_kind, of_kind "BeardCatCard" Samples.hand_three_two)
     (MyBot._find_possible_combos Samples.hand_three_two)).
Proof.
  destruct (C4_combo_detector Samples.hand_three_two)
    as (_ & H3 & H2 & H1 & _ & H0 & H32).
  destruct (C4_combo_detector Samples.hand_five_kinds)
    as (_ & _ & _ & _ & H5 & _ & _).
  split; [apply H3; vm_compute; lia |].
  split; [apply H2; reflexivity |].
  split; [apply H1; vm_compute; lia |].
  split; [apply H5; vm_compute; lia |].
  split; [apply H0; vm_compute; lia |].
  apply H32; reflexivity.
Defined.

(** *** The first Triple of an output *)

Lemma described_split (X : string) (hand : list Card) :
  first_triple_kind X hand ->
  exists l r,
    combos_of_hand hand
    = l ++ (three_of_a_kind, firstn 3 (of_kind X hand)) :: r /\
    Forall (fun e : Combo => fst e = two_of_a_kind) l.
Proof.
  intros (H3 & before & after & Hk & Hb).
  unfold combos_of_hand. rewrite Hk, flat_map_app. cbn [flat_map].
  unfold set_combo at 2.
  destruct (Nat.leb_spec 3 (length (of_kind X hand))); [| lia].
  rewrite <- !app_assoc. cbn [app].
  eexists _, _. split; [reflexivity |].
  clear Hk. induction before as [|k before IH]; [constructor |].
  cbn [flat_map]. apply Forall_app. split.
  - specialize (Hb k (or_introl eq_refl)). unfold set_combo.
    destruct (Nat.leb_spec 3 (length (of_kind k hand))); [lia |].
    destruct (2 <=? length (of_kind k hand))%nat; repeat constructor.
  - apply IH. intros k' Hk'. apply Hb. now right.
Qed.

Lemma find_first_triple (l r : list Combo) (cards : list Card) :
  Forall (fun e : Combo => fst e = two_of_a_kind) l ->
  find (fun '(combo_ty, _) => ComboType_eqb combo_ty three_of_a_kind)
    (l ++ (three_of_a_kind, cards) :: r)
  = Some (three_of_a_kind, cards).
Proof.
  induction 1 as [|[ty cs] l Hty _ IH]; [reflexivity |].
  cbn in Hty. subst ty. exact IH.
Qed.

Lemma best_combo_first_triple (b : bool) (l r : list Combo) (cards : list Card) :
  Forall (fun e : Combo => fst e = two_of_a_kind) l ->
  forall best,
    Aaron.best_combo_loop b (l ++ (three_of_a_kind, cards) :: r) best
    = Some (three_of_a_kind, cards).
Proof.
  induction 1 as [|[ty cs] l Hty _ IH]; intros best; [reflexivity |].
  cbn in Hty. subst ty. cbn [app Aaron.best_combo_loop]. apply IH.
Qed.

End ComboDetector.

(** ** Action policy: the combo gate *)

Section ComboGate.

Local Open Scope list_scope.
Import Notions Samples.

Lemma max_from_in {A : Type} (key : A -> Z) (l : list A) :
  forall best, In (Py.max_from key best l) (best :: l).
Proof.
  induction l as [|x l IH]; intros best; [now left |].
  cbn [Py.max_from]. destruct (key best <? key x).
  - right. apply IH.
  - destruct (IH best) as [H | H]; [now left | right; now right].
Qed.

Lemma max_by_in {A : Type} (key : A -> Z) (l : list A) :
  l <> [] -> exists t, Py.max_by key l = Some t /\ In t l.
Proof.
  destruct l as [|x l]; [congruence |]. intros _.
  exists (Py.max_from key x l). split; [reflexivity | apply max_from_in].
Qed.

Lemma aaron_target_in (v : BotView) :
  other_players v <> [] ->
  exists t, Aaron._choose_attack_target v false = Some t /\
            In t (other_players v).
Proof.
  intros Ho. unfold Aaron._choose_attack_target.
  destruct (Aaron._find_strategic_bot_id v) as [sb|] eqn:Es.
  - exists sb. split.
    + now destruct (other_players v).
    + unfold Aaron._find_strategic_bot_id in Es. now apply find_some in Es.
  - destruct (max_by_in (card_count v) (other_players v) Ho) as (t & Ht & Hin).
    exists t. split; [| exact Hin].
    now destruct (other_players v).
Qed.

Lemma aaron_combo_gate (v : BotView) (X p : string) :
  first_triple_kind X (my_hand v) ->
  In p (other_players v) -> 0 < card_count v p ->
  exists t,
    In t (other_players v) /\ 0 < card_count v t /\
    Aaron._try_play_best_combo v
    = Some (PlayComboAction (firstn 3 (of_kind X (my_hand v))) (Some t)).
Proof.
  intros HX Hp Hcount.
  assert (Ho : other_players v <> []) by (intros E; now rewrite E in Hp).
  destruct (aaron_target_in v Ho) as (t0 & Ht0 & Hin0).
  destruct (described_split X (my_hand v) HX) as (l & r & Hsplit & Hl).
  assert (Htarget : exists t,
            In t (other_players v) /\ 0 < card_count v t /\
            (if card_count v t0 <=? 0
             then match List.filter (fun pid => 0 <? card_count v pid)
                          (other_players v) with
                  | [] => None
                  | pid :: _ => Some pid
                  end
             else Some t0) = Some t).
  { destruct (Z.leb_spec (card_count v t0) 0).
    - destruct (List.filter (fun pid => 0 <? card_count v pid) (other_players v))
        as [|t1 rest] eqn:Ef.
      + assert (Hin : In p (List.filter (fun pid => 0 <? card_count v pid)
                              (other_players v)))
          by (apply filter_In; split; [exact Hp | now apply Z.ltb_lt]).
        now rewrite Ef in Hin.
      + assert (Hin : In t1 (List.filter (fun pid => 0 <? card_count v pid)
                               (other_players v)))
          by (rewrite Ef; now left).
        apply filter_In in Hin as [Hin Hpos]. apply Z.ltb_lt in Hpos.
        now exists t1.
    - exists t0. repeat split; [exact Hin0 | lia]. }
  destruct Htarget as (t & Hin & Hpos & Ht).
  exists t. split; [exact Hin |]. split; [exact Hpos |].
  unfold Aaron._try_play_best_combo.
  rewrite Ht0, Ht, aaron_combos_spec, Hsplit,
    (best_combo_first_triple _ l r _ Hl).
  now destruct (other_players v).
Qed.

Lemma aaron_take_turn_combo (s : Aaron.State) (v : BotView) (X p : string) :
  Aaron._turn_count s <> 0 ->
  Aaron._first_ek_seen_from_other s = false ->
  first_triple_kind X (my_hand v) ->
  In p (other_players v) -> 0 < card_count v p ->
  exists t,
    In t (other_players v) /\ 0 < card_count v t /\
    fst (Aaron.take_turn s v)
    = PlayComboAction (firstn 3 (of_kind X (my_hand v))) (Some t).
Proof.
  intros Hturn Hek HX Hp Hcount.
  destruct (aaron_combo_gate v X p HX Hp Hcount) as (t & Hin & Hpos & Hgate).
  exists t. split; [exact Hin |]. split; [exact Hpos |].
  unfold Aaron.take_turn, Aaron._is_first_turn, Aaron._play_after_first_ek.
  cbn [Aaron.begin_turn Aaron._turn_count Aaron._first_ek_seen_from_other].
  destruct (Z.eqb_spec (Aaron._turn_count s + 1) 1); [lia |].
  rewrite Hek. cbn [negb fst].
  unfold Aaron.decide_action. now rewrite Hgate.
Qed.

Lemma mybot_take_turn_combo (v : BotView) (X : string) :
  (get_cards_of_type v STF = [] \/ draw_pile_count v <= 0) ->
  (my_turns_remaining v <= 1 \/
   get_cards_of_type v ATTACK = [] /\ get_cards_of_type v SKIP = []) ->
  first_triple_kind X (my_hand v) ->
  other_players v <> [] ->
  exists t,
    In t (other_players v) /\
    MyBot.take_turn v
    = PlayComboAction (firstn 3 (of_kind X (my_hand v))) (Some t).
Proof.
  intros Hstf Hturns HX Ho.
  destruct (max_by_in (card_count v) (other_players v) Ho) as (t & Ht & Hin).
  destruct (described_split X (my_hand v) HX) as (l & r & Hsplit & Hl).
  exists t. split; [exact Hin |].
  unfold MyBot.take_turn.
  change "SeeTheFutureCard" with STF. change "AttackCard" with ATTACK.
  change "SkipCard" with SKIP.
  rewrite Ht, mybot_combos_spec, Hsplit, (find_first_triple l r _ Hl).
  assert (Hgate1 : match get_cards_of_type v STF with
                   | [] => None
                   | stf0 :: _ =>
                       if 0 <? draw_pile_count v
                       then Some (PlayCardAction stf0 None) else None
                   end = None).
  { destruct Hstf as [-> | Hd]; [reflexivity |].
    destruct (Z.ltb_spec 0 (draw_pile_count v)); [lia |].
    now destruct (get_cards_of_type v STF). }
  rewrite Hgate1.
  assert (Htruthy : forall (A : Type) (x : A) (l r : list A),
            Py.truthy (l ++ x :: r) = true)
    by (intros A x [|? ?] ?; reflexivity).
  assert (Hothers : Py.truthy (other_players v) = true)
    by now destruct (other_players v).
  rewrite Htruthy, Hothers. cbn [andb].
  destruct Hturns as [Hle | [Ha Hs]].
  - destruct (Z.ltb_spec 1 (my_turns_remaining v)); [lia | reflexivity].
  - rewrite Ha, Hs. now destruct (1 <? my_turns_remaining v).
Qed.

Lemma aaron_decide_combo_first (s : Aaron.State) (v : BotView) (X p : string)
  (risk : Q) :
  first_triple_kind X (my_hand v) ->
  In p (other_players v) -> 0 < card_count v p ->
  exists t,
    In t (other_players v) /\ 0 < card_count v t /\
    Aaron.decide_action s v risk
    = PlayComboAction (firstn 3 (of_kind X (my_hand v))) (Some t).
Proof.
  intros HX Hp Hcount.
  destruct (aaron_combo_gate v X p HX Hp Hcount) as (t & Hin & Hpos & Hgate).
  exists t. split; [exact Hin |]. split; [exact Hpos |].
  unfold Aaron.decide_action. now rewrite Hgate.
Qed.

(** C3 (as the code has it).  Let X be the first kind of the hand that
    counts three or more combo-eligible cards.  my_bot's [take_turn] plays
    the first three X cards as a combo on an opponent when there is an
    opponent and none of its earlier gates fires: it holds no
    See-the-Future card or the draw pile is empty, and it has at most one
    turn left or holds neither Attack nor Skip.  aaron's [take_turn] plays
    that combo on an opponent who holds cards when it is not aaron's first
    turn, no other player has drawn a hazard so far, and some opponent
    holds a card; within aaron's [decide_action] the combo gate comes
    first, whatever the risk.  When X counts exactly three cards these are
    all the X cards. *)
Theorem C3_combo_gate :
  forall (v : BotView) (X : string),
    first_triple_kind X (my_hand v) ->
    ((get_cards_of_type v STF = [] \/ draw_pile_count v <= 0) ->
     (my_turns_remaining v <= 1 \/
      get_cards_of_type v ATTACK = [] /\ get_cards_of_type v SKIP = []) ->
     other_players v <> [] ->
     exists t,
       In t (other_players v) /\
       MyBot.take_turn v
       = PlayComboAction (firstn 3 (of_kind X (my_hand v))) (Some t)) /\
    (forall (s : Aaron.State) (p : string),
       Aaron._turn_count s <> 0 ->
       Aaron._first_ek_seen_from_other s = false ->
       In p (other_players v) -> 0 < card_count v p ->
       exists t,
         In t (other_players v) /\ 0 < card_count v t /\
         fst (Aaron.take_turn s v)
         = PlayComboAction (firstn 3 (of_kind X (my_hand v))) (Some t)) /\
    (forall (s : Aaron.State) (p : string) (risk : Q),
       In p (other_players v) -> 0 < card_count v p ->
       exists t,
         In t (other_players v) /\ 0 < card_count v t /\
         Aaron.decide_action s v risk
         = PlayComboAction (firstn 3 (of_kind X (my_hand v))) (Some t)) /\
    (length (of_kind X (my_hand v)) = 3%nat ->
     firstn 3 (of_kind X (my_hand v)) = of_kind X (my_hand v)).
Proof.
  intros v X HX. split; [| split; [| split]].
  - intros Hstf Hturns Ho. now apply mybot_take_turn_combo.
  - intros s p Hturn Hek Hp Hcount. now apply (aaron_take_turn_combo s v X p).
  - intros s p risk Hp Hcount. now apply (aaron_decide_combo_first s v X p).
  - intros Hlen. apply firstn_all2. lia.
Qed.

Lemma sample_first_triple :
  first_triple_kind "TacoCatCard" (my_hand (view_of hand_three_two 5)).
Proof.
  split; [vm_compute; lia |].
  exists [], ["BeardCatCard"]. split; [reflexivity |]. intros k [].
Qed.

Lemma C3_witness :
  (exists t,
     In t (other_players (view_of hand_three_two 5)) /\
     MyBot.take_turn (view_of hand_three_two 5)
     = PlayComboAction (firstn 3 (of_kind "TacoCatCard" hand_three_two)) (Some t)) /\
  (exists t,
     In t (other_players (view_of hand_three_two 5)) /\
     0 < card_count (view_of hand_three_two 5) t /\
     fst (Aaron.take_turn (aaron_knowing None) (view_of hand_three_two 5))
     = PlayComboAction (firstn 3 (of_kind "TacoCatCard" hand_three_two)) (Some t)) /\
  (exists t,
     In t (other_players (view_of hand_three_two 5)) /\
     0 < card_count (view_of hand_three_two 5) t /\
     Aaron.decide_action (aaron_knowing None) (view_of hand_three_two 5) (9 # 10)
     = PlayComboAction (firstn 3 (of_kind "TacoCatCard" hand_three_two)) (Some t)) /\
  firstn 3 (of_kind "TacoCatCard" hand_three_two)
  = of_kind "TacoCatCard" hand_three_two.
Proof.
  destruct (C3_combo_gate (view_of hand_three_two 5) "TacoCatCard"
              sample_first_triple) as (Hm & Ha & Hd & He).
  split; [apply Hm; [left; reflexivity | left; cbn; lia | discriminate] |].
  split; [apply (Ha (aaron_knowing None) "bob");
          [discriminate | reflexivity | now left | reflexivity] |].
  split; [apply (Hd (aaron_knowing None) "bob"); [now left | reflexivity] |].
  apply He. reflexivity.
Defined.

(** C3 as stated fails: holding three Tacocats and facing an opponent with
    cards, my_bot plays its See-the-Future card first, and aaron draws on
    its first turn. *)
Lemma C3_counterexample :
  length (of_kind "TacoCatCard" (mkCard STF false 9 :: hand_three_two)) = 3%nat /\
  other_players (view_of hand_three_two 5) = ["bob"] /\
  card_count (view_of hand_three_two 5) "bob" = 4 /\
  MyBot.take_turn (view_of (mkCard STF false 9 :: hand_three_two) 5)
  = PlayCardAction (mkCard STF false 9) None /\
  fst (Aaron.take_turn Aaron.__init__ (view_of hand_three_two 5))
  = DrawCardAction.
Proof. repeat split. Qed.

End ComboGate.

(** ** Favor response *)

Section FavorResponse.

Local Open Scope list_scope.
Import Notions Samples.

Lemma first_in {A : Type} (l : list A) (x : A) : Py.first l = Some x -> In x l.
Proof. destruct l; [discriminate |]. intros [= ->]. now left. Qed.

Lemma filter_head_in {A : Type} (p : A -> bool) (l r : list A) (x : A) :
  List.filter p l = x :: r -> In x l /\ p x = true.
Proof.
  intros E. apply filter_In. rewrite E. now left.
Qed.

Lemma filter_nil_all {A : Type} (p : A -> bool) (l : list A) :
  List.filter p l = [] -> forall x, In x l -> p x = false.
Proof.
  intros E x Hx. destruct (p x) eqn:Ep; [| reflexivity].
  assert (Hin : In x (List.filter p l)) by now apply filter_In.
  now rewrite E in Hin.
Qed.

Lemma give_in_hand (kept : list string) (hand : list Card) (c : Card) :
  give_by_priority kept hand = Some c -> In c hand.
Proof.
  unfold give_by_priority.
  destruct (List.filter _ hand) as [|cat0 r] eqn:Ec.
  - destruct (List.filter (type_not_in kept) hand) as [|c0 r0] eqn:En.
    + apply first_in.
    + intros [= <-]. now apply (filter_head_in _ _ _ _ En).
  - intros [= <-]. now apply (filter_head_in _ _ _ _ Ec).
Qed.

Lemma give_total (kept : list string) (hand : list Card) :
  hand <> [] -> exists c, give_by_priority kept hand = Some c.
Proof.
  intros Hne. unfold give_by_priority.
  destruct (List.filter _ hand) as [|cat0 r]; [| now eexists].
  destruct (List.filter (type_not_in kept) hand) as [|c0 r0]; [| now eexists].
  destruct hand; [contradiction | now eexists].
Qed.

Lemma give_cat (kept : list string) (hand : list Card) (cat0 : Card) :
  In cat0 hand -> Py.contains "Cat" (card_type cat0) = true ->
  exists c,
    give_by_priority kept hand = Some c /\
    Py.contains "Cat" (card_type c) = true /\
    Py.first (List.filter (fun c => Py.contains "Cat" (card_type c)) hand) = Some c.
Proof.
  intros Hin Hcat. unfold give_by_priority.
  destruct (List.filter _ hand) as [|c r] eqn:Ec.
  - now rewrite (filter_nil_all _ _ Ec cat0 Hin) in Hcat.
  - exists c. split; [reflexivity |]. split; [| reflexivity].
    now apply (filter_head_in _ _ _ _ Ec).
Qed.

Lemma give_kept_last (kept : list string) (hand : list Card) (c : Card) :
  give_by_priority kept hand = Some c ->
  Py.mem (card_type c) kept = true ->
  Py.contains "Cat" (card_type c) = false ->
  forall c', In c' hand ->
    Py.mem (card_type c') kept = true /\
    Py.contains "Cat" (card_type c') = false.
Proof.
  unfold give_by_priority. intros Hgive Hkept Hnocat.
  destruct (List.filter _ hand) as [|cat0 r] eqn:Ec.
  - destruct (List.filter (type_not_in kept) hand) as [|c0 r0] eqn:En.
    + intros c' Hc'. split.
      * pose proof (filter_nil_all _ _ En c' Hc') as H.
        unfold type_not_in in H.
        now destruct (Py.mem (card_type c') kept).
      * exact (filter_nil_all _ _ Ec c' Hc').
    + injection Hgive as <-.
      destruct (filter_head_in _ _ _ _ En) as [_ H].
      unfold type_not_in in H. now rewrite Hkept in H.
  - injection Hgive as <-.
    destruct (filter_head_in _ _ _ _ Ec) as [_ H]. congruence.
Qed.

(** The favor response of every bot hands over a card of the hand, and
    fails (the [IndexError] of [hand[0]]) exactly on an empty hand. *)
Theorem give_card_from_hand :
  forall (st : TFT.State) (v : BotView) (r : string),
    (my_hand v = [] ->
       MyBot.choose_card_to_give v r = None /\
       Aaron.choose_card_to_give v r = None /\
       Mastermind.choose_card_to_give v r = None /\
       TFT.choose_card_to_give st v r = None) /\
    (my_hand v <> [] ->
       (exists c, MyBot.choose_card_to_give v r = Some c /\ In c (my_hand v)) /\
       (exists c, Aaron.choose_card_to_give v r = Some c /\ In c (my_hand v)) /\
       (exists c, Mastermind.choose_card_to_give v r = Some c /\ In c (my_hand v)) /\
       (exists c, TFT.choose_card_to_give st v r = Some c /\ In c (my_hand v))).
Proof.
  intros st v r. split.
  - intros E. unfold MyBot.choose_card_to_give, Aaron.choose_card_to_give,
      Mastermind.choose_card_to_give, TFT.choose_card_to_give.
    rewrite E. cbn. now destruct (Py.flt _ _).
  - intros Hne.
    assert (Hg : forall kept, exists c,
              give_by_priority kept (my_hand v) = Some c /\ In c (my_hand v)).
    { intros kept. destruct (give_total kept _ Hne) as (c & Hc).
      exists c. split; [exact Hc | now apply give_in_hand in Hc]. }
    split; [apply Hg |]. split; [apply Hg |]. split; [apply Hg |].
    unfold TFT.choose_card_to_give. cbv zeta.
    destruct (Py.flt _ _); [| apply Hg].
    destruct (List.filter _ (my_hand v)) as [|u0 us] eqn:Eu; [apply Hg |].
    destruct (3 <? _); [| apply Hg].
    exists u0. split; [reflexivity |]. now apply (filter_head_in _ _ _ _ Eu).
Qed.

Lemma give_card_from_hand_witness :
  (MyBot.choose_card_to_give (view_of [] 5) "bob" = None /\
   Aaron.choose_card_to_give (view_of [] 5) "bob" = None /\
   Mastermind.choose_card_to_give (view_of [] 5) "bob" = None /\
   TFT.choose_card_to_give (tft_knowing []) (view_of [] 5) "bob" = None) /\
  ((exists c, MyBot.choose_card_to_give (view_of [defuse 0; cat 1] 5) "bob" = Some c
              /\ In c (my_hand (view_of [defuse 0; cat 1] 5))) /\
   (exists c, Aaron.choose_card_to_give (view_of [defuse 0; cat 1] 5) "bob" = Some c
              /\ In c (my_hand (view_of [defuse 0; cat 1] 5))) /\
   (exists c, Mastermind.choose_card_to_give (view_of [defuse 0; cat 1] 5) "bob" = Some c
              /\ In c (my_hand (view_of [defuse 0; cat 1] 5))) /\
   (exists c, TFT.choose_card_to_give (tft_knowing []) (view_of [defuse 0; cat 1] 5) "bob"
              = Some c /\ In c (my_hand (view_of [defuse 0; cat 1] 5)))).
Proof.
  split.
  - apply (proj1 (give_card_from_hand (tft_knowing []) (view_of [] 5) "bob")).
    reflexivity.
  - apply (proj2 (give_card_from_hand (tft_knowing [])
                    (view_of [defuse 0; cat 1] 5) "bob")).
    discriminate.
Defined.

(** A hand that holds a cat card gives away its first cat card: always
    for my_bot, aaron and Mastermind, and for tft unless it judges the
    hazard probability above 0.8, when it may give a Shuffle or
    See-the-Future card instead. *)
Theorem give_card_cat_first :
  forall (st : TFT.State) (v : BotView) (r : string) (cat0 : Card),
    In cat0 (my_hand v) -> Py.contains "Cat" (card_type cat0) = true ->
    exists c,
      Py.first (List.filter (fun c => Py.contains "Cat" (card_type c)) (my_hand v))
      = Some c /\
      Py.contains "Cat" (card_type c) = true /\
      MyBot.choose_card_to_give v r = Some c /\
      Aaron.choose_card_to_give v r = Some c /\
      Mastermind.choose_card_to_give v r = Some c /\
      (TFT.choose_card_to_give st v r = Some c \/
       Py.flt (80 # 100) (TFT._calculate_ek_probability st v) = true /\
       exists u, TFT.choose_card_to_give st v r = Some u /\
                 In u (my_hand v) /\
                 Py.mem (card_type u) [SHUFFLE; STF] = true).
Proof.
  intros st v r cat0 Hin Hcat.
  destruct (give_cat [DEFUSE; NOPE] _ _ Hin Hcat) as (c & H1 & Hc & Hfirst).
  destruct (give_cat [DEFUSE; NOPE; SHUFFLE; STF] _ _ Hin Hcat)
    as (c' & H2 & _ & Hfirst').
  assert (c' = c) by congruence. subst c'.
  exists c. split; [exact Hfirst |]. split; [exact Hc |].
  split; [exact H1 |]. split; [exact H1 |]. split; [exact H2 |].
  unfold TFT.choose_card_to_give. cbv zeta.
  change ["DefuseCard"; "NopeCard"] with [DEFUSE; NOPE].
  change ["ShuffleCard"; "SeeTheFutureCard"] with [SHUFFLE; STF].
  destruct (Py.flt _ _); [| now left].
  destruct (List.filter (fun c0 => Py.mem (card_type c0) [SHUFFLE; STF])
                (my_hand v)) as [|u0 us] eqn:Eu; [now left |].
  destruct (3 <? _); [| now left].
  right. split; [reflexivity |]. exists u0. split; [reflexivity |].
  exact (filter_head_in _ _ _ _ Eu).
Qed.

Lemma give_card_cat_first_witness :
  exists c,
    Py.first (List.filter (fun c => Py.contains "Cat" (card_type c))
                (my_hand (view_of [defuse 0; cat 1; cat 2] 5))) = Some c /\
    Py.contains "Cat" (card_type c) = true /\
    MyBot.choose_card_to_give (view_of [defuse 0; cat 1; cat 2] 5) "bob" = Some c /\
    Aaron.choose_card_to_give (view_of [defuse 0; cat 1; cat 2] 5) "bob" = Some c /\
    Mastermind.choose_card_to_give (view_of [defuse 0; cat 1; cat 2] 5) "bob"
    = Some c /\
    (TFT.choose_card_to_give (tft_knowing []) (view_of [defuse 0; cat 1; cat 2] 5) "bob"
     = Some c \/
     Py.flt (80 # 100)
       (TFT._calculate_ek_probability (tft_knowing [])
          (view_of [defuse 0; cat 1; cat 2] 5)) = true /\
     exists u,
       TFT.choose_card_to_give (tft_knowing []) (view_of [defuse 0; cat 1; cat 2] 5) "bob"
       = Some u /\
       In u (my_hand (view_of [defuse 0; cat 1; cat 2] 5)) /\
       Py.mem (card_type u) [SHUFFLE; STF] = true).
Proof.
  apply (give_card_cat_first (tft_knowing []) (view_of [defuse 0; cat 1; cat 2] 5)
           "bob" (cat 1)); [right; now left | reflexivity].
Defined.

(** Defuse and Nope cards are given away only as a last resort: when
    my_bot, aaron or tft hand over a Defuse or Nope card, the hand holds
    nothing but Defuse and Nope cards; Mastermind keeps Shuffle and
    See-the-Future cards back in the same way. *)
Theorem give_card_keeps_defuse :
  forall (st : TFT.State) (v : BotView) (r : string) (c : Card),
    (Py.mem (card_type c) [DEFUSE; NOPE] = true ->
     MyBot.choose_card_to_give v r = Some c \/
     Aaron.choose_card_to_give v r = Some c \/
     TFT.choose_card_to_give st v r = Some c ->
     forall c', In c' (my_hand v) ->
       Py.mem (card_type c') [DEFUSE; NOPE] = true) /\
    (Py.mem (card_type c) [DEFUSE; NOPE; SHUFFLE; STF] = true ->
     Mastermind.choose_card_to_give v r = Some c ->
     forall c', In c' (my_hand v) ->
       Py.mem (card_type c') [DEFUSE; NOPE; SHUFFLE; STF] = true).
Proof.
  intros st v r c.
  assert (Hnocat : forall t, Py.mem t [DEFUSE; NOPE; SHUFFLE; STF] = true ->
            Py.contains "Cat" t = false).
  { intros t Ht. apply mem_In in Ht.
    destruct Ht as [<- | [<- | [<- | [<- | []]]]]; reflexivity. }
  assert (Hsub : forall t, Py.mem t [DEFUSE; NOPE] = true ->
            Py.mem t [DEFUSE; NOPE; SHUFFLE; STF] = true).
  { intros t Ht. apply mem_In. apply mem_In in Ht.
    destruct Ht as [<- | [<- | []]]; cbn; tauto. }
  split.
  - intros Hc Hgive c' Hc'.
    assert (Hg : give_by_priority [DEFUSE; NOPE] (my_hand v) = Some c).
    { destruct Hgive as [H | [H | H]]; [exact H | exact H |].
      unfold TFT.choose_card_to_give in H. cbv zeta in H.
      change ["DefuseCard"; "NopeCard"] with [DEFUSE; NOPE] in H.
      change ["ShuffleCard"; "SeeTheFutureCard"] with [SHUFFLE; STF] in H.
      destruct (Py.flt _ _); [| exact H].
      destruct (List.filter (fun c0 => Py.mem (card_type c0) [SHUFFLE; STF])
                (my_hand v)) as [|u0 us] eqn:Eu; [exact H |].
      destruct (3 <? _); [| exact H].
      injection H as ->. exfalso.
      destruct (filter_head_in _ _ _ _ Eu) as [_ Hu].
      apply mem_In in Hu. apply mem_In in Hc.
      destruct Hu as [Hu | [Hu | []]]; rewrite <- Hu in Hc;
        destruct Hc as [Hc | [Hc | []]]; discriminate Hc. }
    now apply (give_kept_last _ _ _ Hg Hc (Hnocat _ (Hsub _ Hc)) c' Hc').
  - intros Hc Hgive c' Hc'.
    now apply (give_kept_last _ _ _ Hgive Hc (Hnocat _ Hc) c' Hc').
Qed.

Lemma give_card_keeps_defuse_witness :
  (forall c', In c' (my_hand (view_of [defuse 0; nope 1] 5)) ->
     Py.mem (card_type c') [DEFUSE; NOPE] = true) /\
  (forall c', In c' (my_hand (view_of [defuse 0; nope 1] 5)) ->
     Py.mem (card_type c') [DEFUSE; NOPE; SHUFFLE; STF] = true).
Proof.
  split.
  - apply (proj1 (give_card_keeps_defuse (tft_knowing [])
                    (view_of [defuse 0; nope 1] 5) "bob" (defuse 0)));
      [reflexivity | left; reflexivity].
  - apply (proj2 (give_card_keeps_defuse (tft_knowing [])
                    (view_of [defuse 0; nope 1] 5) "bob" (defuse 0)));
      reflexivity.
Defined.

End FavorResponse.

(** ** Reactions of the four bots *)

Section ReactionPolicy.

Local Open Scope list_scope.
Import Notions Samples.

Lemma opt_is_true (x : option string) (pid : string) :
  opt_is x pid = true -> x = Some pid.
Proof.
  destruct x as [p|]; [| discriminate]. cbn. intros H.
  apply String.eqb_eq in H. now subst.
Qed.

Lemma opt_is_false (x : option string) (pid : string) :
  x <> Some pid -> opt_is x pid = false.
Proof.
  destruct x as [p|]; [| reflexivity]. cbn. intros H.
  apply String.eqb_neq. congruence.
Qed.

Lemma flt_lt (x y : Q) : Py.flt x y = true -> (x < y)%Q.
Proof.
  unfold Py.flt. intros H. apply Qnot_le_lt. intros Hle.
  apply Qle_bool_iff in Hle. rewrite Hle in H. discriminate.
Qed.

Lemma first_nope_held (v : BotView) (n0 : Card) (r : list Card) :
  get_cards_of_type v NOPE = n0 :: r ->
  In n0 (my_hand v) /\ card_type n0 = NOPE.
Proof.
  intros E. unfold get_cards_of_type in E.
  destruct (filter_head_in _ _ _ _ E) as [Hin Hty].
  split; [exact Hin | now apply String.eqb_eq].
Qed.

Ltac split_ifs :=
  repeat match goal with
         | |- context [if ?b then _ else _] => destruct b
         end.

(** Whatever the event and the random draw, a reaction of any of the four
    bots is either a pass or the play, without a target, of the first Nope
    card of the hand: no other card is ever played in reaction. *)
Theorem react_plays_only_nope :
  forall (v : BotView) (e : GameEvent) (u : Q) (a : Action),
    MyBot.react v e u = Some a \/ Aaron.react v e u = Some a \/
    Mastermind.react v e = Some a \/ TFT.react v e = Some a ->
    exists c,
      a = PlayCardAction c None /\
      Py.first (get_cards_of_type v NOPE) = Some c /\
      In c (my_hand v) /\ card_type c = NOPE.
Proof.
  intros v e u a H.
  unfold MyBot.react, Aaron.react, Mastermind.react, TFT.react in H.
  change "NopeCard" with NOPE in H.
  destruct (get_cards_of_type v NOPE) as [|n0 r] eqn:En.
  - destruct H as [H | [H | [H | H]]]; discriminate H.
  - exists n0. destruct (first_nope_held v n0 r En) as [Hin Hty].
    split; [| now repeat split].
    cbv zeta in H.
    destruct H as [H | [H | [H | H]]]; revert H; split_ifs;
      intros H; congruence.
Qed.

Lemma react_plays_only_nope_witness :
  exists c,
    PlayCardAction (nope 1) None = PlayCardAction c None /\
    Py.first (get_cards_of_type (view_of [cat 0; nope 1] 9) NOPE) = Some c /\
    In c (my_hand (view_of [cat 0; nope 1] 9)) /\ card_type c = NOPE.
Proof.
  apply (react_plays_only_nope (view_of [cat 0; nope 1] 9)
           (attack_by "bob" "me") (1 # 2) (PlayCardAction (nope 1) None)).
  left. reflexivity.
Defined.

(** Mastermind and tft never react to an event that is not aimed at the
    agent; holding a Nope card they veto every combo aimed at the agent,
    and a Favor aimed at the agent exactly when the hand has fewer than
    five cards or holds a Defuse. *)
Theorem react_without_bluff :
  forall (v : BotView) (e : GameEvent),
    (d_target_player_id (data e) <> Some (my_id v) ->
       Mastermind.react v e = None /\ TFT.react v e = None) /\
    (forall n0 r,
       get_cards_of_type v NOPE = n0 :: r ->
       d_target_player_id (data e) = Some (my_id v) ->
       (event_type e = COMBO_PLAYED ->
          Mastermind.react v e = Some (PlayCardAction n0 None) /\
          TFT.react v e = Some (PlayCardAction n0 None)) /\
       (event_type e = CARD_PLAYED -> d_card_type (data e) = Some FAVOR ->
          let protect :=
            (Z.of_nat (length (my_hand v)) <? 5) || has_card_type v DEFUSE in
          Mastermind.react v e
          = (if protect then Some (PlayCardAction n0 None) else None) /\
          TFT.react v e
          = (if protect then Some (PlayCardAction n0 None) else None))).
Proof.
  intros v e. split.
  - intros Ht. unfold Mastermind.react, TFT.react.
    rewrite (opt_is_false _ _ Ht), !andb_false_r. cbn [andb].
    split; destruct (get_cards_of_type v _); [reflexivity | | reflexivity |];
      now destruct (EventType_eqb (event_type e) CARD_PLAYED).
  - intros n0 r En Ht. unfold Mastermind.react, TFT.react.
    change "NopeCard" with NOPE. change "FavorCard" with FAVOR.
    change "AttackCard" with ATTACK. change "DefuseCard" with DEFUSE.
    rewrite En, Ht. cbn [opt_is]. rewrite String.eqb_refl. split.
    + intros ->. split; reflexivity.
    + intros -> ->. cbn [EventType_eqb andb default].
      change (default "" (Some FAVOR)) with FAVOR.
      change (String.eqb FAVOR ATTACK) with false.
      change (String.eqb FAVOR FAVOR) with true. cbn [andb].
      split; now destruct (_ || _).
Qed.

Lemma react_without_bluff_witness :
  (Mastermind.react (view_of [nope 0] 9) (attack_by "bob" "carol") = None /\
   TFT.react (view_of [nope 0] 9) (attack_by "bob" "carol") = None) /\
  (Mastermind.react (view_of [nope 0] 9)
     (mkEvent COMBO_PLAYED (Some "bob") (mkData None None (Some "me") None))
   = Some (PlayCardAction (nope 0) None) /\
   TFT.react (view_of [nope 0] 9)
     (mkEvent COMBO_PLAYED (Some "bob") (mkData None None (Some "me") None))
   = Some (PlayCardAction (nope 0) None)).
Proof.
  split.
  - apply (proj1 (react_without_bluff (view_of [nope 0] 9)
                    (attack_by "bob" "carol"))).
    discriminate.
  - apply (proj1 (proj2 (react_without_bluff (view_of [nope 0] 9)
                           (mkEvent COMBO_PLAYED (Some "bob")
                              (mkData None None (Some "me") None)))
                    (nope 0) [] eq_refl eq_refl)).
    reflexivity.
Defined.

(** my_bot and aaron react only to a card played on the agent (aaron also
    to a favor request naming the agent), or else by their random bluff,
    which needs at least two Nope cards in hand and a random draw below
    0.3 (my_bot) or 0.1 (aaron). *)
Theorem react_bluff_needs_surplus :
  forall (v : BotView) (e : GameEvent) (u : Q) (a : Action),
    (MyBot.react v e u = Some a ->
       (event_type e = CARD_PLAYED /\
        d_target_player_id (data e) = Some (my_id v)) \/
       ((2 <= length (get_cards_of_type v NOPE))%nat /\ (u < 3 # 10)%Q)) /\
    (Aaron.react v e u = Some a ->
       (event_type e = CARD_PLAYED /\
        d_target_player_id (data e) = Some (my_id v)) \/
       (event_type e = FAVOR_REQUESTED /\ d_target (data e) = Some (my_id v)) \/
       ((2 <= length (get_cards_of_type v NOPE))%nat /\ (u < 1 # 10)%Q)).
Proof.
  intros v e u a.
  assert (Hbluff : forall (l : list Card) (q : Q),
            (1 <? Z.of_nat (length l)) && Py.flt u q = true ->
            (2 <= length l)%nat /\ (u < q)%Q).
  { intros l q H. apply andb_prop in H as [H1 H2].
    apply Z.ltb_lt in H1. split; [lia | now apply flt_lt]. }
  split.
  - unfold MyBot.react. change "NopeCard" with NOPE.
    destruct (get_cards_of_type v NOPE) as [|n0 r] eqn:En; [discriminate |].
    cbv zeta.
    destruct (EventType_eqb (event_type e) CARD_PLAYED) eqn:Ety.
    + assert (Hty : event_type e = CARD_PLAYED)
        by (now destruct (event_type e)).
      destruct (opt_is _ _) eqn:Eo.
      * intros _. left. split; [exact Hty | now apply opt_is_true].
      * rewrite !andb_false_r.
        destruct (_ && Py.flt u _) eqn:Eb; [| discriminate].
        intros _. right. now apply Hbluff.
    + destruct (_ && Py.flt u _) eqn:Eb; [| discriminate].
      intros _. right. now apply Hbluff.
  - unfold Aaron.react.
    destruct (get_cards_of_type v NOPE) as [|n0 r] eqn:En; [discriminate |].
    cbv zeta.
    assert (Hrest :
      (if EventType_eqb (event_type e) FAVOR_REQUESTED
          && opt_is (d_target (data e)) (my_id v)
       then Some (PlayCardAction n0 None)
       else if (1 <? Z.of_nat (length (n0 :: r))) && Py.flt u (1 # 10)
            then Some (PlayCardAction n0 None) else None) = Some a ->
      (event_type e = FAVOR_REQUESTED /\ d_target (data e) = Some (my_id v)) \/
      ((2 <= length (n0 :: r))%nat /\ (u < 1 # 10)%Q)).
    { destruct (_ && opt_is _ _) eqn:Ef.
      - intros _. left. apply andb_prop in Ef as [E1 E2].
        split; [now destruct (event_type e) | now apply opt_is_true].
      - destruct (_ && Py.flt u _) eqn:Eb; [| discriminate].
        intros _. right. now apply Hbluff. }
    destruct (EventType_eqb (event_type e) CARD_PLAYED) eqn:Ety.
    + assert (Hty : event_type e = CARD_PLAYED)
        by (now destruct (event_type e)).
      destruct (opt_is (d_target_player_id (data e)) (my_id v)) eqn:Eo.
      * intros _. left. split; [exact Hty | now apply opt_is_true].
      * rewrite !andb_false_r. intros H. right. now apply Hrest.
    + intros H. right. now apply Hrest.
Qed.

Lemma react_bluff_needs_surplus_witness :
  ((event_type (attack_by "bob" "carol") = CARD_PLAYED /\
    d_target_player_id (data (attack_by "bob" "carol")) = Some "me") \/
   ((2 <= length (get_cards_of_type (view_of [nope 0; nope 1] 9) NOPE))%nat /\
    (1 # 20 < 3 # 10)%Q)) /\
  ((event_type (attack_by "bob" "carol") = CARD_PLAYED /\
    d_target_player_id (data (attack_by "bob" "carol")) = Some "me") \/
   (event_type (attack_by "bob" "carol") = FAVOR_REQUESTED /\
    d_target (data (attack_by "bob" "carol")) = Some "me") \/
   ((2 <= length (get_cards_of_type (view_of [nope 0; nope 1] 9) NOPE))%nat /\
    (1 # 20 < 1 # 10)%Q)).
Proof.
  split.
  - apply (proj1 (react_bluff_needs_surplus (view_of [nope 0; nope 1] 9)
                    (attack_by "bob" "carol") (1 # 20)
                    (PlayCardAction (nope 0) None))).
    reflexivity.
  - apply (proj2 (react_bluff_needs_surplus (view_of [nope 0; nope 1] 9)
                    (attack_by "bob" "carol") (1 # 20)
                    (PlayCardAction (nope 0) None))).
    reflexivity.
Defined.

End ReactionPolicy.

(** ** Defuse placement of Mastermind and the bands of tft *)

Section PlacementBands.

Import Notions Samples.

(** Mastermind's [choose_defuse_position] returns 0 exactly for a draw
    pile of at most one card, an index of [1, size - 1] for every larger
    pile, and for piles of sixteen cards or more an index of
    [2, size - 2]: neither the top two positions nor the bottom. *)
Theorem mastermind_position_range :
  forall (s : Mastermind.State) (v : BotView) (size : Z),
    (size <= 1 -> Mastermind.choose_defuse_position s v size = 0) /\
    (2 <= size ->
       1 <= Mastermind.choose_defuse_position s v size <= size - 1) /\
    (16 <= size ->
       2 <= Mastermind.choose_defuse_position s v size <= size - 2).
Proof.
  intros s v size. unfold Mastermind.choose_defuse_position.
  split; [| split].
  - intros H. destruct (Z.leb_spec size 1); [reflexivity | lia].
  - intros H. destruct (Z.leb_spec size 1); [lia |]. cbv zeta.
    destruct (_ && (size <=? 10)); [lia |].
    destruct (Z.leb_spec size 15); [lia |].
    pose proof (Z.div_le_upper_bound size 4 (size - 2) ltac:(lia) ltac:(lia)).
    destruct (Z.ltb_spec
                (Z.min (size - 2) (Py.int (Py.float size * (75 # 100))%Q))
                (Z.max 2 (size / 4))); lia.
  - intros H. destruct (Z.leb_spec size 1); [lia |]. cbv zeta.
    destruct (Z.leb_spec size 10); [lia |]. rewrite andb_false_r.
    destruct (Z.leb_spec size 15); [lia |].
    pose proof (Z.div_le_upper_bound size 4 (size - 2) ltac:(lia) ltac:(lia)).
    destruct (Z.ltb_spec
                (Z.min (size - 2) (Py.int (Py.float size * (75 # 100))%Q))
                (Z.max 2 (size / 4))); lia.
Qed.

Lemma mastermind_position_range_witness :
  Mastermind.choose_defuse_position Mastermind.__init__ (view_of [] 1) 1 = 0 /\
  1 <= Mastermind.choose_defuse_position Mastermind.__init__ (view_of [] 7) 7
    <= 7 - 1 /\
  2 <= Mastermind.choose_defuse_position Mastermind.__init__ (view_of [] 40) 40
    <= 40 - 2.
Proof.
  destruct (mastermind_position_range Mastermind.__init__ (view_of [] 1) 1)
    as (H1 & _ & _).
  destruct (mastermind_position_range Mastermind.__init__ (view_of [] 7) 7)
    as (_ & H2 & _).
  destruct (mastermind_position_range Mastermind.__init__ (view_of [] 40) 40)
    as (_ & _ & H3).
  split; [apply H1; lia |]. split; [apply H2; lia | apply H3; lia].
Defined.

(** tft's [choose_defuse_position] never fails, and keeps the hazard away
    from the top by bands: at most index 3 for piles of four or five cards,
    at least index 2 for six or seven, at least index 4 from eight on. *)
Theorem tft_position_bands :
  forall (v : BotView) (size u : Z),
    exists p,
      TFT.choose_defuse_position v size u = Some p /\
      (4 <= size <= 5 -> 1 <= p <= 3) /\
      (6 <= size <= 7 -> 2 <= p <= size - 1) /\
      (8 <= size -> 4 <= p <= size - 1).
Proof.
  intros v size u. unfold TFT.choose_defuse_position.
  destruct (Z.leb_spec size 1); [exists 0; split; [reflexivity | lia] |].
  destruct (Z.eqb_spec size 2); [exists 1; split; [reflexivity | lia] |].
  destruct (Z.eqb_spec size 3).
  { destruct (randint_range u 1 2 ltac:(lia)) as (p & Hp & Hr).
    exists p. split; [exact Hp | lia]. }
  destruct (Z.leb_spec size 5).
  { destruct (randint_range u 1 (Z.min 3 (size - 1)) ltac:(lia)) as (p & Hp & Hr).
    exists p. split; [exact Hp | lia]. }
  destruct (Z.leb_spec size 7).
  { destruct (randint_range u 2 (size - 1) ltac:(lia)) as (p & Hp & Hr).
    exists p. split; [exact Hp | lia]. }
  pose proof (three_quarters_below size ltac:(lia)) as Hq.
  cbv zeta.
  destruct (randint_range u 4
              (Z.max (4 + 1) (Py.int (Py.float size * (75 # 100))%Q))
              ltac:(lia)) as (p & Hp & Hr).
  exists p. split; [exact Hp | lia].
Qed.

Lemma tft_position_bands_witness :
  exists p,
    TFT.choose_defuse_position (view_of [] 12) 12 5 = Some p /\
    (4 <= 12 <= 5 -> 1 <= p <= 3) /\
    (6 <= 12 <= 7 -> 2 <= p <= 12 - 1) /\
    (8 <= 12 -> 4 <= p <= 12 - 1).
Proof. apply (tft_position_bands (view_of [] 12) 12 5). Defined.

End PlacementBands.

(** ** Probabilities of the opponent model *)

Section ProfileBounds.

Local Open Scope Q_scope.
Import Notions Samples.

Lemma capped_share_range (cap : Q) (n total : nat) :
  0 <= cap ->
  0 <= Py.fmin cap
         (Py.float (Z.of_nat n) / Py.float (Z.max 1 (Z.of_nat total))) <= cap.
Proof.
  intros Hcap. split; [| apply fmin_le_l].
  apply fmin_lower; [exact Hcap |].
  apply Qle_shift_div_l; [apply float_pos; lia |].
  rewrite Qmult_0_l. unfold Py.float. change 0 with (inject_Z 0).
  rewrite <- Zle_Qle. lia.
Qed.

(** aaron's [simulate_opponent] always returns probabilities: a defensive
    value of [0, 0.8] and a veto value of [0, 0.7], with or without
    observations. *)
Theorem aaron_profile_bounds :
  forall (s : Aaron.State) (p : string),
    0 <= Aaron.defensive (Aaron.simulate_opponent s p) <= 8 # 10 /\
    0 <= Aaron.nope (Aaron.simulate_opponent s p) <= 7 # 10.
Proof.
  intros s p. unfold Aaron.simulate_opponent.
  destruct (Nat.eqb _ 0); cbn [Aaron.defensive Aaron.nope].
  - repeat split; discriminate.
  - split; apply capped_share_range; discriminate.
Qed.

Lemma update_keeps_range (s : Mastermind.State) (p : string) :
  probs_in_range s -> probs_in_range (Mastermind._update_opponent_model s p).
Proof.
  intros [Hd Hn]. unfold Mastermind._update_opponent_model. cbv zeta.
  destruct (touch_counts_probs s p) as [Ed En].
  destruct (Nat.eqb _ 0).
  - unfold probs_in_range. now rewrite Ed, En.
  - unfold probs_in_range.
    cbn [Mastermind.with_probs Mastermind._opponent_defense_prob
         Mastermind._opponent_nope_prob].
    rewrite Ed, En. split.
    + apply map_Forall_insert_2; [| exact Hd].
      apply capped_share_range. discriminate.
    + apply map_Forall_insert_2; [| exact Hn].
      apply capped_share_range. discriminate.
Qed.

End ProfileBounds.

(** ** Event tracking: what every event does to the belief state *)

Ltac by_event e :=
  let ty := fresh "ty" in
  let who := fresh "who" in
  let d := fresh "d" in
  destruct e as [ty who d]; destruct ty;
  cbv beta iota zeta delta
    [Aaron.on_event Mastermind.on_event TFT.on_event MyBot.on_event
     EventType_eqb event_type player_id data andb orb].

Ltac break_conditions :=
  repeat match goal with
         | |- context [if ?b then _ else _] => destruct b eqn:?
         | |- context [match ?x with Some _ => _ | None => _ end] =>
             destruct x eqn:?
         end.

Section RunningEvents.

Import Notions.

Context {S : Type} (on_event : S -> GameEvent -> BotView -> S).

Lemma run_nil (s : S) : run on_event s [] = s.
Proof. reflexivity. Qed.

Lemma run_cons (s : S) (ev : GameEvent * BotView)
  (events : list (GameEvent * BotView)) :
  run on_event s (ev :: events)
  = run on_event (on_event s (fst ev) (snd ev)) events.
Proof. reflexivity. Qed.

(** A property kept by every event is kept by a run of events. *)
Lemma run_invariant (P : S -> Prop) :
  (forall s e v, P s -> P (on_event s e v)) ->
  forall events s, P s -> P (run on_event s events).
Proof.
  intros Hstep. induction events as [|ev events IH]; intros s Hs.
  - now rewrite run_nil.
  - rewrite run_cons. apply IH, Hstep, Hs.
Qed.

End RunningEvents.

Section ProbabilityInvariant.

Local Open Scope Q_scope.
Import Notions Samples.

Lemma mastermind_event_probs (s : Mastermind.State) (e : GameEvent) (v : BotView) :
  (Mastermind._opponent_defense_prob (Mastermind.on_event s e v)
   = Mastermind._opponent_defense_prob s /\
   Mastermind._opponent_nope_prob (Mastermind.on_event s e v)
   = Mastermind._opponent_nope_prob s) \/
  exists s1 pid,
    (Mastermind._opponent_defense_prob s1 = Mastermind._opponent_defense_prob s /\
     Mastermind._opponent_nope_prob s1 = Mastermind._opponent_nope_prob s) /\
    Mastermind._opponent_defense_prob (Mastermind.on_event s e v)
    = Mastermind._opponent_defense_prob (Mastermind._update_opponent_model s1 pid) /\
    Mastermind._opponent_nope_prob (Mastermind.on_event s e v)
    = Mastermind._opponent_nope_prob (Mastermind._update_opponent_model s1 pid).
Proof.
  by_event e; break_conditions;
    try (left; split; reflexivity);
    right;
    match goal with
    | |- context [Mastermind._update_opponent_model
                    (Mastermind.record_play s ?p ?c) ?p] =>
        exists (Mastermind.record_play s p c), p
    end;
    repeat split; reflexivity.
Qed.

Lemma mastermind_event_keeps_range (s : Mastermind.State) (e : GameEvent)
  (v : BotView) :
  probs_in_range s -> probs_in_range (Mastermind.on_event s e v).
Proof.
  intros H.
  destruct (mastermind_event_probs s e v)
    as [[Ed En] | (s1 & pid & [Ed1 En1] & Ed & En)].
  - unfold probs_in_range. now rewrite Ed, En.
  - assert (H1 : probs_in_range s1)
      by (unfold probs_in_range; now rewrite Ed1, En1).
    apply (update_keeps_range s1 pid) in H1.
    unfold probs_in_range in *. now rewrite Ed, En.
Qed.

(** Whatever events Mastermind is fed from its initial state, every
    probability stored in its opponent model stays a probability: the
    defensive ones within [0, 0.9], the veto ones within [0, 0.8]. *)
Theorem mastermind_probabilities_in_range :
  forall (events : list (GameEvent * BotView)) (pid : string) (q : Q),
    let s := run Mastermind.on_event Mastermind.__init__ events in
    (Mastermind._opponent_defense_prob s !! pid = Some q -> 0 <= q <= 9 # 10) /\
    (Mastermind._opponent_nope_prob s !! pid = Some q -> 0 <= q <= 8 # 10).
Proof.
  intros events pid q s.
  assert (H : probs_in_range s).
  { subst s. apply run_invariant.
    - intros s e v. apply mastermind_event_keeps_range.
    - split; apply map_Forall_empty. }
  destruct H as [Hd Hn]. split; intros Hq.
  - exact (Hd pid q Hq).
  - exact (Hn pid q Hq).
Qed.

Lemma mastermind_probabilities_in_range_witness :
  0 <= 9 # 10 <= 9 # 10 /\ 0 <= 0 <= 8 # 10.
Proof.
  destruct (mastermind_probabilities_in_range
              [(play_by "bob" SKIP, view_of [] 9)] "bob" (9 # 10)) as [Hd _].
  destruct (mastermind_probabilities_in_range
              [(play_by "bob" SKIP, view_of [] 9)] "bob" 0) as [_ Hn].
  split; [apply Hd | apply Hn]; reflexivity.
Defined.

End ProbabilityInvariant.

Section KnownTopDynamics.

Local Open Scope list_scope.
Import Notions Samples.

Lemma aaron_known_set (s : Aaron.State) (k : option (list string)) :
  Aaron.known (Aaron.set_known s k) = default [] k.
Proof. reflexivity. Qed.

Lemma aaron_draw_pops (s : Aaron.State) (e : GameEvent) (v : BotView) :
  event_type e = CARD_DRAWN ->
  Aaron.known (Aaron.on_event s e v) = tl (Aaron.known s).
Proof.
  destruct e as [ty who d]. cbn [event_type]. intros ->.
  cbv beta iota zeta delta
    [Aaron.on_event EventType_eqb event_type player_id data andb orb].
  destruct (Aaron.known s) eqn:E; cbn [Py.truthy]; [now rewrite E |].
  reflexivity.
Qed.

Lemma mastermind_draw_pops (s : Mastermind.State) (e : GameEvent) (v : BotView) :
  event_type e = CARD_DRAWN ->
  Mastermind.known (Mastermind.on_event s e v) = tl (Mastermind.known s).
Proof.
  destruct e as [ty who d]. cbn [event_type]. intros ->.
  cbv beta iota zeta delta
    [Mastermind.on_event EventType_eqb event_type player_id data andb orb].
  assert (Hk : Mastermind.known
                 (if Py.truthy (Mastermind.known s)
                  then Mastermind.set_peek s
                         (if (1 <? Z.of_nat (length (Mastermind.known s)))%Z
                          then Some (tl (Mastermind.known s)) else None) false
                  else s) = tl (Mastermind.known s)).
  { destruct (Mastermind.known s) as [|x rest] eqn:E; cbn [Py.truthy];
      [now rewrite E |].
    destruct (Z.ltb_spec 1 (Z.of_nat (length (x :: rest)))) as [Hl | Hl];
      [reflexivity |].
    destruct rest; [reflexivity | cbn [length] in Hl; lia]. }
  break_conditions; exact Hk.
Qed.

Lemma mastermind_foreign_peek (s : Mastermind.State) (e : GameEvent)
  (v : BotView) :
  event_type e = CARDS_PEEKED -> player_id e <> Some (my_id v) ->
  Mastermind.on_event s e v = s.
Proof.
  intros Ht Hp. pose proof (player_is_false e (my_id v) Hp) as Hf.
  destruct e as [ty who d]. cbn [event_type] in Ht. subst ty.
  cbv beta iota zeta delta
    [Mastermind.on_event EventType_eqb event_type player_id data andb orb].
  now rewrite Hf.
Qed.

Lemma update_keeps_known (s : Mastermind.State) (p : string) :
  Mastermind._known_top_cards (Mastermind._update_opponent_model s p)
  = Mastermind._known_top_cards s.
Proof.
  unfold Mastermind._update_opponent_model, Mastermind.touch_counts.
  cbv zeta. destruct (Mastermind._opponent_card_counts s !! p);
    now destruct (Nat.eqb _ 0).
Qed.

Lemma skipn_tl {A : Type} (n : nat) (l : list A) :
  skipn (S n) l = skipn n (tl l).
Proof. destruct l; [now destruct n | reflexivity]. Qed.

(** A card-drawn event pops the head of the known-top-of-deck sequence, in
    aaron's and in Mastermind's tracker; so after the agent has peeked at
    [cards] and any number of cards have been drawn (by anyone), what is
    still known is [cards] without its first entries, one per draw. *)
Theorem peek_then_draws :
  forall (sa : Aaron.State) (sm : Mastermind.State) (e : GameEvent)
         (v : BotView) (cards : list string)
         (draws : list (GameEvent * BotView)),
    event_type e = CARDS_PEEKED -> player_id e = Some (my_id v) ->
    d_card_types (data e) = Some cards ->
    (forall ev, In ev draws -> event_type (fst ev) = CARD_DRAWN) ->
    Aaron.known (run Aaron.on_event (Aaron.on_event sa e v) draws)
    = skipn (length draws) cards /\
    Mastermind.known (run Mastermind.on_event (Mastermind.on_event sm e v) draws)
    = skipn (length draws) cards.
Proof.
  intros sa sm e v cards draws Ht Hp Hc Hd.
  assert (Ha : Aaron.known (Aaron.on_event sa e v) = cards).
  { unfold Aaron.known. rewrite (aaron_own_peek sa e v Ht Hp), Hc. reflexivity. }
  assert (Hm : Mastermind.known (Mastermind.on_event sm e v) = cards).
  { clear Ha. destruct e as [ty who d].
    cbn [event_type player_id data] in Ht, Hp, Hc. rewrite Ht, Hp.
    cbv beta iota zeta delta
      [Mastermind.on_event EventType_eqb event_type player_id data andb orb].
    unfold player_is. cbn [player_id]. now rewrite String.eqb_refl, Hc. }
  revert Ha Hm.
  generalize (Aaron.on_event sa e v) as sa1.
  generalize (Mastermind.on_event sm e v) as sm1.
  clear Ht Hp Hc. revert cards.
  induction draws as [|ev draws IH]; intros cards sm1 sa1 Ha Hm;
    [now split |].
  rewrite !run_cons. cbn [length]. rewrite skipn_tl.
  apply IH.
  - intros ev' Hev'. apply Hd. now right.
  - rewrite aaron_draw_pops by (apply Hd; now left). now rewrite Ha.
  - rewrite mastermind_draw_pops by (apply Hd; now left). now rewrite Hm.
Qed.

Lemma peek_then_draws_witness :
  Aaron.known
    (run Aaron.on_event
       (Aaron.on_event (aaron_knowing None)
          (peek_by "me" [SKIP; EXPLODING; NOPE]) (view_of [] 9))
       [(plain CARD_DRAWN "bob", view_of [] 8)])
  = skipn 1 [SKIP; EXPLODING; NOPE] /\
  Mastermind.known
    (run Mastermind.on_event
       (Mastermind.on_event (mastermind_knowing None)
          (peek_by "me" [SKIP; EXPLODING; NOPE]) (view_of [] 9))
       [(plain CARD_DRAWN "bob", view_of [] 8)])
  = skipn 1 [SKIP; EXPLODING; NOPE].
Proof.
  apply (peek_then_draws (aaron_knowing None) (mastermind_knowing None)
           (peek_by "me" [SKIP; EXPLODING; NOPE]) (view_of [] 9)
           [SKIP; EXPLODING; NOPE] [(plain CARD_DRAWN "bob", view_of [] 8)]);
    try reflexivity.
  intros ev [<- | []]. reflexivity.
Defined.

(** The known-top-of-deck sequence only grows through the agent's own
    peeks: any other event leaves it as it was or shorter (aaron and
    Mastermind). *)
Theorem known_top_grows_only_by_own_peek :
  forall (sa : Aaron.State) (sm : Mastermind.State) (e : GameEvent) (v : BotView),
    ~ (event_type e = CARDS_PEEKED /\ player_id e = Some (my_id v)) ->
    (length (Aaron.known (Aaron.on_event sa e v)) <= length (Aaron.known sa))%nat /\
    (length (Mastermind.known (Mastermind.on_event sm e v))
     <= length (Mastermind.known sm))%nat.
Proof.
  intros sa sm e v Hnot.
  assert (Htl : forall l : list string, (length (tl l) <= length l)%nat)
    by (intros [|x l]; cbn; lia).
  destruct (EventType_eqb (event_type e) CARDS_PEEKED) eqn:Ep.
  { assert (Ht : event_type e = CARDS_PEEKED) by now destruct (event_type e).
    assert (Hp : player_id e <> Some (my_id v)) by tauto.
    rewrite (aaron_foreign_peek sa e v Ht Hp).
    rewrite (mastermind_foreign_peek sm e v Ht Hp). split; lia. }
  destruct (EventType_eqb (event_type e) CARD_DRAWN) eqn:Ed.
  { assert (Ht : event_type e = CARD_DRAWN) by now destruct (event_type e).
    rewrite (aaron_draw_pops sa e v Ht), (mastermind_draw_pops sm e v Ht).
    split; apply Htl. }
  clear Hnot. revert Ep Ed. split; revert Ep Ed;
    by_event e; intros Ep Ed; try discriminate Ep; try discriminate Ed;
    break_conditions; cbn; unfold Mastermind.known, Aaron.known;
    rewrite ?update_keeps_known; cbn;
    first [lia | apply Nat.le_0_l | apply Nat.le_refl].
Qed.

Lemma known_top_grows_only_by_own_peek_witness :
  (length (Aaron.known (Aaron.on_event (aaron_knowing (Some [SKIP]))
                          (peek_by "bob" [SKIP; NOPE]) (view_of [] 9)))
   <= length (Aaron.known (aaron_knowing (Some [SKIP]))))%nat /\
  (length (Mastermind.known (Mastermind.on_event (mastermind_knowing (Some [SKIP]))
                               (peek_by "bob" [SKIP; NOPE]) (view_of [] 9)))
   <= length (Mastermind.known (mastermind_knowing (Some [SKIP]))))%nat.
Proof.
  apply known_top_grows_only_by_own_peek. intros [_ H]. discriminate H.
Defined.

End KnownTopDynamics.

Section OpponentTracking.

Local Open Scope list_scope.
Import Notions Samples.

Lemma aaron_kittens_step (s : Aaron.State) (e : GameEvent) (v : BotView) :
  0 <= Aaron._kittens_removed s ->
  Aaron._kittens_removed (Aaron.on_event s e v)
  = Aaron._kittens_removed s
    + (if EventType_eqb (event_type e) PLAYER_ELIMINATED then 1 else 0).
Proof.
  intros H. by_event e; break_conditions; cbn; lia.
Qed.

Lemma mastermind_kittens_step (s : Mastermind.State) (e : GameEvent) (v : BotView) :
  Mastermind._kittens_removed (Mastermind.on_event s e v)
  = Mastermind._kittens_removed s
    + (if EventType_eqb (event_type e) PLAYER_ELIMINATED then 1 else 0).
Proof.
  assert (Hu : forall s p,
            Mastermind._kittens_removed (Mastermind._update_opponent_model s p)
            = Mastermind._kittens_removed s).
  { intros s0 p. unfold Mastermind._update_opponent_model, Mastermind.touch_counts.
    cbv zeta. destruct (Mastermind._opponent_card_counts s0 !! p);
      now destruct (Nat.eqb _ 0). }
  by_event e; break_conditions; cbn; rewrite ?Hu; cbn; lia.
Qed.

Lemma count_events_cons (ty : EventType) (ev : GameEvent * BotView)
  (events : list (GameEvent * BotView)) :
  count_events ty (ev :: events)
  = (if EventType_eqb (event_type (fst ev)) ty then 1 else 0)
    + count_events ty events.
Proof.
  unfold count_events. cbn [List.filter].
  destruct (EventType_eqb _ ty); cbn [length]; lia.
Qed.

Lemma count_events_nonneg (ty : EventType) (events : list (GameEvent * BotView)) :
  0 <= count_events ty events.
Proof. unfold count_events. lia. Qed.

(** Fed any sequence of events from its initial state, aaron's and
    Mastermind's tracker hold in [_kittens_removed] exactly the number of
    player-eliminated events of the sequence. *)
Theorem eliminations_counted :
  forall events : list (GameEvent * BotView),
    Aaron._kittens_removed (run Aaron.on_event Aaron.__init__ events)
    = count_events PLAYER_ELIMINATED events /\
    Mastermind._kittens_removed (run Mastermind.on_event Mastermind.__init__ events)
    = count_events PLAYER_ELIMINATED events.
Proof.
  intros events. split.
  - assert (H : forall s, 0 <= Aaron._kittens_removed s ->
              Aaron._kittens_removed (run Aaron.on_event s events)
              = Aaron._kittens_removed s + count_events PLAYER_ELIMINATED events).
    { induction events as [|ev events IH]; intros s Hs.
      - unfold count_events. cbn. lia.
      - rewrite run_cons, IH.
        + rewrite aaron_kittens_step by exact Hs.
          rewrite count_events_cons. lia.
        + rewrite aaron_kittens_step by exact Hs.
          destruct (EventType_eqb (event_type (fst ev)) PLAYER_ELIMINATED); lia. }
    rewrite H by (cbn; lia). reflexivity.
  - assert (H : forall s,
              Mastermind._kittens_removed (run Mastermind.on_event s events)
              = Mastermind._kittens_removed s
                + count_events PLAYER_ELIMINATED events).
    { induction events as [|ev events IH]; intros s.
      - unfold count_events. cbn. lia.
      - rewrite run_cons, IH, mastermind_kittens_step, count_events_cons.
        lia. }
    rewrite H. reflexivity.
Qed.

(** *** Which plays are recorded *)

Lemma is_card_played (e : GameEvent) :
  EventType_eqb (event_type e) CARD_PLAYED = true -> event_type e = CARD_PLAYED.
Proof. now destruct (event_type e). Qed.

Lemma guarded_opponent (pid me : string) (others : list string) :
  (if negb (String.eqb pid me) then Py.mem pid others else false) = true ->
  pid <> me /\ In pid others.
Proof.
  destruct (String.eqb_spec pid me); cbn [negb]; [discriminate |].
  intros H. split; [assumption | now apply mem_In].
Qed.

Lemma aaron_tracked (e : GameEvent) (v : BotView) (pid : string) :
  Aaron.is_tracked_opponent e v = Some pid ->
  pid <> my_id v /\ In pid (other_players v).
Proof.
  unfold Aaron.is_tracked_opponent.
  destruct (player_id e) as [p|]; [| discriminate].
  destruct (String.eqb_spec p ""); cbn [negb andb]; [discriminate |].
  destruct (String.eqb_spec p (my_id v)); cbn [negb andb]; [discriminate |].
  destruct (Py.mem p (other_players v)) eqn:Em; [| discriminate].
  intros [= <-]. split; [assumption | now apply mem_In].
Qed.

(** An event leaves aaron's tables alone or records one play of an
    opponent. *)
Lemma aaron_tables_step (s : Aaron.State) (e : GameEvent) (v : BotView) :
  (Aaron._opponent_card_history (Aaron.on_event s e v)
   = Aaron._opponent_card_history s /\
   Aaron._opponent_card_counts (Aaron.on_event s e v)
   = Aaron._opponent_card_counts s) \/
  exists pid card,
    (pid <> my_id v /\ In pid (other_players v)) /\
    Aaron._opponent_card_history (Aaron.on_event s e v)
    = history_plus pid card (Aaron._opponent_card_history s) /\
    Aaron._opponent_card_counts (Aaron.on_event s e v)
    = counts_plus pid card (Aaron._opponent_card_counts s).
Proof.
  destruct (EventType_eqb (event_type e) CARD_PLAYED) eqn:Ety.
  - apply is_card_played in Ety. destruct e as [ty who d].
    cbn [event_type] in Ety. subst ty.
    cbv beta iota zeta delta
      [Aaron.on_event EventType_eqb event_type player_id data andb orb].
    destruct (Aaron.is_tracked_opponent _ v) as [pid|] eqn:Ho.
    + right. exists pid, (default "" (d_card_type d)).
      split; [now apply (aaron_tracked _ _ _ Ho) |].
      now destruct (String.eqb _ DEFUSE).
    + left. now destruct (String.eqb _ DEFUSE).
  - left. revert Ety. by_event e; intros Ety; try discriminate Ety;
      break_conditions; split; reflexivity.
Qed.

Lemma update_after_record (s : Mastermind.State) (pid card : string) :
  Mastermind._opponent_card_history
    (Mastermind._update_opponent_model (Mastermind.record_play s pid card) pid)
  = history_plus pid card (Mastermind._opponent_card_history s) /\
  Mastermind._opponent_card_counts
    (Mastermind._update_opponent_model (Mastermind.record_play s pid card) pid)
  = counts_plus pid card (Mastermind._opponent_card_counts s).
Proof.
  unfold Mastermind._update_opponent_model, Mastermind.touch_counts.
  cbv zeta.
  cbn [Mastermind.record_play Mastermind.set_tables
       Mastermind._opponent_card_counts].
  rewrite lookup_insert_eq.
  destruct (Nat.eqb _ 0); split; reflexivity.
Qed.

(** The same for Mastermind's tables. *)
Lemma mastermind_tables_step (s : Mastermind.State) (e : GameEvent) (v : BotView) :
  (Mastermind._opponent_card_history (Mastermind.on_event s e v)
   = Mastermind._opponent_card_history s /\
   Mastermind._opponent_card_counts (Mastermind.on_event s e v)
   = Mastermind._opponent_card_counts s) \/
  exists pid card,
    (pid <> my_id v /\ In pid (other_players v)) /\
    Mastermind._opponent_card_history (Mastermind.on_event s e v)
    = history_plus pid card (Mastermind._opponent_card_history s) /\
    Mastermind._opponent_card_counts (Mastermind.on_event s e v)
    = counts_plus pid card (Mastermind._opponent_card_counts s).
Proof.
  destruct (EventType_eqb (event_type e) CARD_PLAYED) eqn:Ety.
  - apply is_card_played in Ety. destruct e as [ty who d].
    cbn [event_type] in Ety. subst ty.
    cbv beta iota zeta delta
      [Mastermind.on_event EventType_eqb event_type player_id data andb orb].
    destruct (Mastermind.truthy_id who) as [pid|]; [| left; now split].
    destruct (if negb (String.eqb pid (my_id v))
              then Py.mem pid (other_players v) else false) eqn:Eg.
    + right. exists pid, (default "" (d_card_type d)).
      split; [now apply guarded_opponent |].
      destruct (update_after_record s pid (default "" (d_card_type d)))
        as [Eh Ec].
      destruct (if Py.mem pid (other_players v) then _ else false);
        cbn [Mastermind.set_tables Mastermind._opponent_card_history
             Mastermind._opponent_card_counts]; now split.
    + left. destruct (if Py.mem pid (other_players v) then _ else false);
        now split.
  - left. revert Ety. by_event e; intros Ety; try discriminate Ety;
      break_conditions; split; reflexivity.
Qed.

(** tft and my_bot keep a history only. *)
Lemma tft_history_step (s : TFT.State) (e : GameEvent) (v : BotView) :
  TFT._opponent_card_history (TFT.on_event s e v) = TFT._opponent_card_history s \/
  exists pid card,
    (pid <> my_id v /\ In pid (other_players v)) /\
    TFT._opponent_card_history (TFT.on_event s e v)
    = history_plus pid card (TFT._opponent_card_history s).
Proof.
  destruct (EventType_eqb (event_type e) CARD_PLAYED) eqn:Ety.
  - apply is_card_played in Ety. destruct e as [ty who d].
    cbn [event_type] in Ety. subst ty.
    cbv beta iota zeta delta
      [TFT.on_event EventType_eqb event_type player_id data andb orb].
    destruct who as [pid|]; [| now left].
    destruct (if negb (String.eqb pid (my_id v))
              then Py.mem pid (other_players v) else false) eqn:Eg;
      [| now left].
    right. exists pid, (default "" (d_card_type d)).
    split; [now apply guarded_opponent | reflexivity].
  - left. revert Ety. by_event e; intros Ety; try discriminate Ety;
      break_conditions; try reflexivity;
      destruct (default [] (d_card_types d)); break_conditions; reflexivity.
Qed.

Lemma mybot_history_step (s : MyBot.State) (e : GameEvent) (v : BotView) :
  MyBot._opponent_card_history (MyBot.on_event s e v)
  = MyBot._opponent_card_history s \/
  exists pid card,
    (pid <> my_id v /\ In pid (other_players v)) /\
    MyBot._opponent_card_history (MyBot.on_event s e v)
    = history_plus pid card (MyBot._opponent_card_history s).
Proof.
  destruct (EventType_eqb (event_type e) CARD_PLAYED) eqn:Ety.
  - apply is_card_played in Ety. destruct e as [ty who d].
    cbn [event_type] in Ety. subst ty.
    cbv beta iota zeta delta
      [MyBot.on_event EventType_eqb event_type player_id data andb orb].
    destruct who as [pid|]; [| left; now destruct (String.eqb _ _)].
    destruct (if negb (String.eqb pid (my_id v))
              then Py.mem pid (other_players v) else false) eqn:Eg;
      [| left; now destruct (String.eqb _ "DefuseCard")].
    right. exists pid, (default "" (d_card_type d)).
    split; [now apply guarded_opponent |].
    now destruct (String.eqb _ "DefuseCard").
  - left. revert Ety. by_event e; intros Ety; try discriminate Ety;
      break_conditions; reflexivity.
Qed.

Lemma history_plus_other (pid card q : string) (h : gmap string (list string)) :
  q <> pid -> history_plus pid card h !! q = h !! q.
Proof. intros H. unfold history_plus. now rewrite lookup_insert_ne. Qed.

Lemma counts_plus_other (pid card q : string)
  (c : gmap string (gmap string nat)) :
  q <> pid -> counts_plus pid card c !! q = c !! q.
Proof. intros H. unfold counts_plus. now rewrite lookup_insert_ne. Qed.

(** No bot ever records a play under the agent's own id or under the id
    of someone who is not among the other living players: whatever the
    event, the history (and, for aaron and Mastermind, the counter) kept
    under such an id is left as it was. *)
Theorem only_opponents_recorded :
  forall (sa : Aaron.State) (sm : Mastermind.State) (st : TFT.State)
         (sb : MyBot.State) (e : GameEvent) (v : BotView) (pid : string),
    pid = my_id v \/ ~ In pid (other_players v) ->
    (Aaron._opponent_card_history (Aaron.on_event sa e v) !! pid
     = Aaron._opponent_card_history sa !! pid /\
     Aaron._opponent_card_counts (Aaron.on_event sa e v) !! pid
     = Aaron._opponent_card_counts sa !! pid) /\
    (Mastermind._opponent_card_history (Mastermind.on_event sm e v) !! pid
     = Mastermind._opponent_card_history sm !! pid /\
     Mastermind._opponent_card_counts (Mastermind.on_event sm e v) !! pid
     = Mastermind._opponent_card_counts sm !! pid) /\
    TFT._opponent_card_history (TFT.on_event st e v) !! pid
    = TFT._opponent_card_history st !! pid /\
    MyBot._opponent_card_history (MyBot.on_event sb e v) !! pid
    = MyBot._opponent_card_history sb !! pid.
Proof.
  intros sa sm st sb e v pid Hpid.
  assert (Hne : forall p, p <> my_id v /\ In p (other_players v) -> pid <> p).
  { intros p [Hp1 Hp2] ->. destruct Hpid as [Hpid | Hpid]; contradiction. }
  split; [| split; [| split]].
  - destruct (aaron_tables_step sa e v) as [[-> ->] | (p & c & Hp & -> & ->)];
      [now split |].
    now rewrite history_plus_other, counts_plus_other by now apply Hne.
  - destruct (mastermind_tables_step sm e v)
      as [[-> ->] | (p & c & Hp & -> & ->)]; [now split |].
    now rewrite history_plus_other, counts_plus_other by now apply Hne.
  - destruct (tft_history_step st e v) as [-> | (p & c & Hp & ->)];
      [reflexivity |].
    now rewrite history_plus_other by now apply Hne.
  - destruct (mybot_history_step sb e v) as [-> | (p & c & Hp & ->)];
      [reflexivity |].
    now rewrite history_plus_other by now apply Hne.
Qed.

Lemma only_opponents_recorded_witness :
  (Aaron._opponent_card_history
     (Aaron.on_event Aaron.__init__ (play_by "me" SKIP) (view_of [] 9)) !! "me"
   = Aaron._opponent_card_history Aaron.__init__ !! "me" /\
   Aaron._opponent_card_counts
     (Aaron.on_event Aaron.__init__ (play_by "me" SKIP) (view_of [] 9)) !! "me"
   = Aaron._opponent_card_counts Aaron.__init__ !! "me") /\
  (Mastermind._opponent_card_history
     (Mastermind.on_event Mastermind.__init__ (play_by "me" SKIP) (view_of [] 9))
     !! "me"
   = Mastermind._opponent_card_history Mastermind.__init__ !! "me" /\
   Mastermind._opponent_card_counts
     (Mastermind.on_event Mastermind.__init__ (play_by "me" SKIP) (view_of [] 9))
     !! "me"
   = Mastermind._opponent_card_counts Mastermind.__init__ !! "me") /\
  TFT._opponent_card_history
    (TFT.on_event TFT.__init__ (play_by "me" SKIP) (view_of [] 9)) !! "me"
  = TFT._opponent_card_history TFT.__init__ !! "me" /\
  MyBot._opponent_card_history
    (MyBot.on_event MyBot.__init__ (play_by "me" SKIP) (view_of [] 9)) !! "me"
  = MyBot._opponent_card_history MyBot.__init__ !! "me".
Proof.
  apply (only_opponents_recorded Aaron.__init__ Mastermind.__init__
           TFT.__init__ MyBot.__init__ (play_by "me" SKIP) (view_of [] 9) "me").
  left. reflexivity.
Defined.

Lemma tables_agree_plus (pid card : string) (h : gmap string (list string))
  (c : gmap string (gmap string nat)) :
  tables_agree h c ->
  tables_agree (history_plus pid card h) (counts_plus pid card c).
Proof.
  intros H q card'. destruct (decide (q = pid)) as [-> | Hq].
  - unfold history_plus, counts_plus. rewrite !lookup_insert_eq.
    cbn [from_option id]. rewrite count_occ_app. cbn [count_occ].
    unfold Py.count_of at 1.
    destruct (decide (card' = card)) as [-> | Hc].
    + rewrite lookup_insert_eq. cbn [from_option id].
      destruct (string_dec card card); [| contradiction].
      rewrite (H pid card). lia.
    + rewrite lookup_insert_ne by congruence.
      destruct (string_dec card card'); [congruence |].
      fold (Py.count_of (default ∅ (c !! pid)) card').
      rewrite (H pid card'). lia.
  - now rewrite history_plus_other, counts_plus_other.
Qed.

(** Fed any sequence of events from the initial state, aaron's and
    Mastermind's counters stay the tally of their histories: for every
    player and every card type the counter holds the number of times the
    type occurs in the recorded history of that player. *)
Theorem counters_tally_histories :
  forall (events : list (GameEvent * BotView)) (pid card : string),
    let sa := run Aaron.on_event Aaron.__init__ events in
    let sm := run Mastermind.on_event Mastermind.__init__ events in
    Py.count_of (default ∅ (Aaron._opponent_card_counts sa !! pid)) card
    = count_occ string_dec
        (default [] (Aaron._opponent_card_history sa !! pid)) card /\
    Py.count_of (default ∅ (Mastermind._opponent_card_counts sm !! pid)) card
    = count_occ string_dec
        (default [] (Mastermind._opponent_card_history sm !! pid)) card.
Proof.
  intros events pid card sa sm. split.
  - subst sa.
    apply (run_invariant Aaron.on_event
             (fun s => tables_agree (Aaron._opponent_card_history s)
                         (Aaron._opponent_card_counts s))).
    + intros s e v H.
      destruct (aaron_tables_step s e v) as [[-> ->] | (p & c & _ & -> & ->)];
        [exact H | now apply tables_agree_plus].
    + intros q c. reflexivity.
  - subst sm.
    apply (run_invariant Mastermind.on_event
             (fun s => tables_agree (Mastermind._opponent_card_history s)
                         (Mastermind._opponent_card_counts s))).
    + intros s e v H.
      destruct (mastermind_tables_step s e v)
        as [[-> ->] | (p & c & _ & -> & ->)];
        [exact H | now apply tables_agree_plus].
    + intros q c. reflexivity.
Qed.

End OpponentTracking.

(** ** The actions a turn can produce *)

Section LegalActions.

Local Open Scope list_scope.
Import Notions Samples.

Lemma of_kind_prefix_in (hand : list Card) (k : string) (m : nat) (c : Card) :
  In c (firstn m (of_kind k hand)) ->
  (In c hand /\ can_combo c = true) /\ card_type c = k.
Proof.
  intros H. apply in_firstn in H. unfold of_kind in H.
  apply cards_typed_In in H as [H Hk]. unfold eligible in H.
  apply filter_In in H. now split.
Qed.

Lemma tft_combos_spec (hand : list Card) :
  TFT._find_possible_combos hand = combos_of_hand hand.
Proof. exact (mybot_combos_spec hand). Qed.

Lemma mastermind_combos_spec (hand : list Card) :
  Mastermind._find_all_combos hand = combos_of_hand hand.
Proof. exact (mybot_combos_spec hand). Qed.

(** Every combo found by the detector of any of the four bots is made of
    combo-eligible cards of the hand, and is three cards of one kind, two
    cards of one kind, or five cards of five distinct kinds. *)
Theorem detected_combos_well_formed :
  forall (hand : list Card) (e : Combo),
    In e (MyBot._find_possible_combos hand) \/
    In e (Aaron._find_possible_combos hand) \/
    In e (TFT._find_possible_combos hand) \/
    In e (Mastermind._find_all_combos hand) ->
    well_formed_combo hand e.
Proof.
  intros hand e H.
  rewrite mybot_combos_spec, aaron_combos_spec, tft_combos_spec,
    mastermind_combos_spec in H.
  assert (Hin : In e (combos_of_hand hand)) by tauto. clear H.
  unfold combos_of_hand in Hin. apply in_app_or in Hin as [Hin | Hin].
  - apply in_flat_map in Hin as (k & Hk & Hin). unfold set_combo in Hin.
    destruct (Nat.leb_spec 3 (length (of_kind k hand))) as [H3 | H3].
    + destruct Hin as [<- | []]. split.
      * intros c Hc. now apply of_kind_prefix_in in Hc.
      * cbn [fst snd]. split; [rewrite length_firstn; lia |].
        exists k. intros c Hc. now apply of_kind_prefix_in in Hc.
    + destruct (Nat.leb_spec 2 (length (of_kind k hand))) as [H2 | H2];
        [| destruct Hin].
      destruct Hin as [<- | []]. split.
      * intros c Hc. now apply of_kind_prefix_in in Hc.
      * cbn [fst snd]. split; [rewrite length_firstn; lia |].
        exists k. intros c Hc. now apply of_kind_prefix_in in Hc.
  - destruct (Nat.leb_spec 5 (length (kinds hand))) as [H5 | H5];
      [| destruct Hin].
    destruct Hin as [<- | []].
    assert (Hks : forall k, In k (firstn 5 (kinds hand)) ->
              In k (map card_type (eligible hand))).
    { intros k Hk. apply in_firstn in Hk. unfold kinds in Hk.
      apply first_occurrences_In. exact Hk. }
    split; [| cbn [fst snd]; split].
    + cbn [snd]. intros c Hc. apply in_flat_map in Hc as (k & _ & Hc).
      now apply of_kind_prefix_in in Hc.
    + unfold of_kind. rewrite flat_map_singletons.
      * rewrite length_firstn. lia.
      * intros k Hk. apply first_of_kind_length. eapply in_firstn, Hk.
    + unfold of_kind. rewrite firsts_types by exact Hks.
      apply NoDup_firstn, first_occurrences_NoDup.
Qed.

Lemma detected_combos_well_formed_witness :
  well_formed_combo hand_three_two
    (three_of_a_kind, [kitty "TacoCatCard" 0; kitty "TacoCatCard" 3;
                       kitty "TacoCatCard" 5]).
Proof.
  apply detected_combos_well_formed. left. now left.
Defined.

Lemma hd_of_type (v : BotView) (t : string) (c : Card) (r : list Card) :
  get_cards_of_type v t = c :: r -> In c (my_hand v).
Proof.
  intros E. unfold get_cards_of_type in E.
  now apply (filter_head_in _ _ _ _ E).
Qed.

Lemma min_from_in {A : Type} (key : A -> Z) (l : list A) :
  forall best, In (Py.min_from key best l) (best :: l).
Proof.
  induction l as [|x l IH]; intros best; [now left |].
  cbn [Py.min_from]. destruct (key x <? key best)%Z.
  - right. apply IH.
  - destruct (IH best) as [H | H]; [now left | right; now right].
Qed.

Lemma aaron_target_legal (v : BotView) (b : bool) (t : string) :
  Aaron._choose_attack_target v b = Some t -> In t (other_players v).
Proof.
  unfold Aaron._choose_attack_target.
  destruct (other_players v) as [|o os] eqn:Eo; [discriminate |].
  rewrite <- Eo.
  destruct (Aaron._find_strategic_bot_id v) as [sb|] eqn:Es.
  - intros [= <-]. unfold Aaron._find_strategic_bot_id in Es.
    now apply find_some in Es.
  - rewrite Eo. destruct b; intros [= <-];
      [apply min_from_in | apply max_from_in].
Qed.

Lemma best_combo_in (b : bool) (l : list Combo) :
  forall best e,
    Aaron.best_combo_loop b l best = Some e -> In e l \/ best = Some e.
Proof.
  induction l as [|[ty cs] l IH]; intros best e H; [now right |].
  cbn [Aaron.best_combo_loop] in H. destruct ty.
  - injection H as <-. left. now left.
  - apply IH in H as [H | H]; [left; now right |].
    destruct best; [now right | injection H as <-; left; now left].
  - destruct b.
    + injection H as <-. left. now left.
    + apply IH in H as [H | H]; [left; now right | now right].
Qed.

Ltac legal_leaf :=
  cbn [legal_action];
  first
    [ exact I
    | split;
      [ first [ eapply hd_of_type; eassumption
              | eexists; eassumption ]
      | first [ solve [intros ? [=]]
              | solve [intros ? [= <-]; eapply aaron_target_legal; eassumption]
              | solve [intros ? ?; eapply aaron_target_legal; eassumption] ] ] ].

Lemma aaron_steal_legal (v : BotView) (b : bool) (a : Action) :
  Aaron._steal_for_value v b = Some a -> legal_action v a.
Proof.
  unfold Aaron._steal_for_value.
  destruct (other_players v) as [|o os]; [discriminate |].
  destruct (Aaron._choose_attack_target v b) as [t|] eqn:Et; [| discriminate].
  rewrite aaron_combos_spec.
  destruct (combos_of_hand (my_hand v)) as [|[ty cs] l] eqn:Ec.
  - destruct (get_cards_of_type v FAVOR) as [|f0 fs] eqn:Ef; [discriminate |].
    destruct (negb _); [| discriminate]. intros [= <-]. legal_leaf.
  - intros [= <-]. cbn [legal_action]. split.
    + exists ty. rewrite Ec. now left.
    + intros ? [= <-]. eapply aaron_target_legal; eassumption.
Qed.

Lemma aaron_attack_legal (v : BotView) (b : bool) (a : Action) :
  match get_cards_of_type v ATTACK with
  | [] => None
  | attack0 :: _ =>
      if Py.truthy (other_players v)
      then
        if Aaron._has_strategic_bot v then None
        else if Aaron.usable (Aaron._choose_attack_target v b)
             then Some (PlayCardAction attack0 (Aaron._choose_attack_target v b))
             else None
      else None
  end = Some a -> legal_action v a.
Proof.
  destruct (get_cards_of_type v ATTACK) as [|a0 r] eqn:Ea; [discriminate |].
  destruct (Py.truthy _); [| discriminate].
  destruct (Aaron._has_strategic_bot v); [discriminate |].
  destruct (Aaron.usable _); [| discriminate].
  intros [= <-]. legal_leaf.
Qed.

Lemma aaron_defensive_legal (v : BotView) (a : Action) :
  Aaron.play_defensive v = Some a -> legal_action v a.
Proof.
  unfold Aaron.play_defensive.
  destruct (get_cards_of_type v SKIP) as [|s0 r] eqn:Es.
  - apply aaron_attack_legal.
  - intros [= <-]. legal_leaf.
Qed.

Lemma aaron_aggressive_legal (v : BotView) (q : Q) (a : Action) :
  Aaron.play_aggressive v q = Some a -> legal_action v a.
Proof.
  unfold Aaron.play_aggressive.
  destruct (Aaron._steal_for_value v false) as [st|] eqn:Est.
  - intros [= <-]. now apply (aaron_steal_legal v false).
  - apply aaron_attack_legal.
Qed.

Lemma aaron_best_combo_legal (v : BotView) (a : Action) :
  Aaron._try_play_best_combo v = Some a -> legal_action v a.
Proof.
  unfold Aaron._try_play_best_combo.
  destruct (other_players v) as [|o os] eqn:Eo; [discriminate |].
  rewrite <- Eo. clear Eo.
  destruct (Aaron._choose_attack_target v false) as [t0|] eqn:Et0;
    [| discriminate].
  rewrite aaron_combos_spec.
  assert (Htarget : forall t,
            (if (card_count v t0 <=? 0)%Z
             then match List.filter (fun pid => (0 <? card_count v pid)%Z)
                          (other_players v) with
                  | [] => None
                  | pid :: _ => Some pid
                  end
             else Some t0) = Some t -> In t (other_players v)).
  { intros t. destruct (card_count v t0 <=? 0)%Z.
    - destruct (List.filter _ (other_players v)) as [|p ps] eqn:Ef;
        [discriminate |].
      intros [= <-]. now apply (filter_head_in _ _ _ _ Ef).
    - intros [= <-]. eapply aaron_target_legal; eassumption. }
  destruct (if (card_count v t0 <=? 0)%Z then _ else Some t0) as [t|];
    [| discriminate].
  specialize (Htarget t eq_refl).
  destruct (Aaron.best_combo_loop _ _ None) as [[ty cs]|] eqn:Eb;
    [| discriminate].
  apply best_combo_in in Eb as [Eb | Eb]; [| discriminate].
  destruct ty; intros [= <-]; cbn [legal_action];
    (split; [eexists; exact Eb |]);
    first [intros ? [= <-]; exact Htarget | intros ? [=]].
Qed.

Lemma aaron_early_legal (v : BotView) :
  legal_action v (Aaron._early_low_risk v).
Proof.
  unfold Aaron._early_low_risk.
  destruct (1 <? my_turns_remaining v)%Z; [| exact I].
  destruct (get_cards_of_type v ATTACK) as [|a0 r] eqn:Ea; [exact I |].
  destruct (Py.truthy _); [| exact I].
  destruct (Aaron.usable _); [| exact I].
  cbn [from_option id]. legal_leaf.
Qed.

Lemma aaron_midgame_legal (s : Aaron.State) (v : BotView) :
  legal_action v (Aaron._midgame_control s v).
Proof.
  unfold Aaron._midgame_control.
  destruct (get_cards_of_type v SHUFFLE) as [|s0 r] eqn:Es.
  2: destruct (_ && _ && _); [legal_leaf |].
  all: destruct (Aaron.known s) as [|k ks].
  all: try destruct (String.eqb k EXPLODING).
  all: try (destruct (Aaron.play_defensive v) as [d|] eqn:Ed;
            [now apply aaron_defensive_legal |]).
  all: destruct (Aaron._steal_for_value v true) as [st|] eqn:Est;
    [now apply (aaron_steal_legal v true) | exact I].
Qed.

Lemma aaron_late_legal (s : Aaron.State) (v : BotView) (q : Q) :
  legal_action v (Aaron._late_high_risk s v q).
Proof.
  unfold Aaron._late_high_risk.
  destruct (get_cards_of_type v SHUFFLE) as [|s0 r] eqn:Es.
  2: destruct (negb _); [legal_leaf |].
  all: destruct (Aaron.play_defensive v) as [d|] eqn:Ed;
    [now apply aaron_defensive_legal |].
  all: destruct (Aaron.play_aggressive v q) as [g|] eqn:Eg;
    [now apply (aaron_aggressive_legal v q) |].
  all: destruct (Aaron.known s) as [|k ks]; [exact I |].
  all: destruct (_ && _); [| exact I].
  all: destruct (get_cards_of_type v SKIP) as [|k0 r0] eqn:Ek;
    [exact I | cbn [from_option id]; legal_leaf].
Qed.

Lemma aaron_decide_legal (s : Aaron.State) (v : BotView) (q : Q) :
  legal_action v (Aaron.decide_action s v q).
Proof.
  unfold Aaron.decide_action.
  destruct (Aaron._try_play_best_combo v) as [c|] eqn:Ec;
    [now apply aaron_best_combo_legal |].
  assert (Hrest : legal_action v
            (if Py.flt q (33 # 100) then Aaron._early_low_risk v
             else if Py.flt q (5 # 10) then Aaron._midgame_control s v
                  else Aaron._late_high_risk s v q)).
  { destruct (Py.flt q (33 # 100)); [apply aaron_early_legal |].
    destruct (Py.flt q (5 # 10));
      [apply aaron_midgame_legal | apply aaron_late_legal]. }
  destruct (get_cards_of_type v STF) as [|p0 r] eqn:Ep; [exact Hrest |].
  destruct (Aaron._known_top_cards s); [exact Hrest |].
  destruct (_ && _); [legal_leaf | exact Hrest].
Qed.

Lemma aaron_after_first_legal (s : Aaron.State) (v : BotView) (a : Action) :
  Aaron._play_after_first_ek s v = Some a -> legal_action v a.
Proof.
  unfold Aaron._play_after_first_ek.
  destruct (negb _); [discriminate |].
  destruct (get_cards_of_type v SHUFFLE) as [|s0 r] eqn:Es;
    [| intros [= <-]; legal_leaf].
  destruct (get_cards_of_type v STF) as [|p0 r] eqn:Ep.
  2: destruct (0 <? draw_pile_count v)%Z; [intros [= <-]; legal_leaf |].
  all: destruct (Aaron._steal_for_value v true) as [st|] eqn:Est;
    [intros [= <-]; now apply (aaron_steal_legal v true) |].
  all: destruct (Aaron.play_defensive v) as [d|] eqn:Ed;
    intros [= <-]; [now apply aaron_defensive_legal | exact I].
Qed.

(** Whatever the state and the view, the action aaron's take_turn returns
    uses only what the view offers: a single card played is in the hand, a
    combo played is one the detector found in the hand, and a target is
    one of the other players. *)
Theorem aaron_turn_is_legal :
  forall (s : Aaron.State) (v : BotView),
    legal_action v (fst (Aaron.take_turn s v)).
Proof.
  intros s v. unfold Aaron.take_turn.
  destruct (Aaron._is_first_turn _); [exact I |].
  destruct (Aaron._play_after_first_ek _ v) as [a|] eqn:Ea; cbn [fst].
  - eapply aaron_after_first_legal, Ea.
  - apply aaron_decide_legal.
Qed.

Lemma max_from_ge {A : Type} (key : A -> Z) (l : list A) :
  forall best x,
    In x (best :: l) -> (key x <= key (Py.max_from key best l))%Z.
Proof.
  induction l as [|y l IH]; intros best x Hx.
  - destruct Hx as [<- | []]. cbn [Py.max_from]. lia.
  - cbn [Py.max_from]. destruct (Z.ltb_spec (key best) (key y)).
    + destruct Hx as [<- | Hx].
      * specialize (IH y y (or_introl eq_refl)). lia.
      * now apply IH.
    + destruct Hx as [<- | [<- | Hx]].
      * apply IH. now left.
      * specialize (IH best best (or_introl eq_refl)). lia.
      * apply IH. now right.
Qed.

Lemma min_from_le {A : Type} (key : A -> Z) (l : list A) :
  forall best x,
    In x (best :: l) -> (key (Py.min_from key best l) <= key x)%Z.
Proof.
  induction l as [|y l IH]; intros best x Hx.
  - destruct Hx as [<- | []]. cbn [Py.min_from]. lia.
  - cbn [Py.min_from]. destruct (Z.ltb_spec (key y) (key best)).
    + destruct Hx as [<- | Hx].
      * specialize (IH y y (or_introl eq_refl)). lia.
      * now apply IH.
    + destruct Hx as [<- | [<- | Hx]].
      * apply IH. now left.
      * specialize (IH best best (or_introl eq_refl)). lia.
      * apply IH. now right.
Qed.

Lemma max_by_spec {A : Type} (key : A -> Z) (l : list A) (t : A) :
  Py.max_by key l = Some t ->
  In t l /\ forall x, In x l -> (key x <= key t)%Z.
Proof.
  destruct l as [|y l]; [discriminate |]. intros [= <-]. split.
  - apply max_from_in.
  - intros x Hx. now apply max_from_ge.
Qed.

Lemma min_by_spec {A : Type} (key : A -> Z) (l : list A) (t : A) :
  Py.min_by key l = Some t ->
  In t l /\ forall x, In x l -> (key t <= key x)%Z.
Proof.
  destruct l as [|y l]; [discriminate |]. intros [= <-]. split.
  - apply min_from_in.
  - intros x Hx. now apply min_from_le.
Qed.

(** The shape of every action of my_bot's take_turn: a card played is the
    first card of its type in the hand, a combo played is a pair or a
    triple found by the detector (never five different cards), and a
    target named is the other player holding the most cards. *)
Lemma mybot_turn_cases (v : BotView) :
  let target := Py.max_by (card_count v) (other_players v) in
  MyBot.take_turn v = DrawCardAction \/
  (exists c ty r, get_cards_of_type v ty = c :: r /\
     (MyBot.take_turn v = PlayCardAction c None \/
      MyBot.take_turn v = PlayCardAction c target /\ other_players v <> [])) \/
  (exists ty cards,
     In (ty, cards) (combos_of_hand (my_hand v)) /\
     ty <> five_different /\ other_players v <> [] /\
     MyBot.take_turn v = PlayComboAction cards target).
Proof.
  intros target. remember (MyBot.take_turn v) as a eqn:Ha.
  unfold MyBot.take_turn in Ha. cbv zeta in Ha. fold target in Ha.
  rewrite mybot_combos_spec in Ha.
  assert (Hcard : forall c ty r, get_cards_of_type v ty = c :: r ->
            a = PlayCardAction c None \/
            a = PlayCardAction c target /\ other_players v <> [] ->
            a = DrawCardAction \/
            (exists c ty r, get_cards_of_type v ty = c :: r /\
               (a = PlayCardAction c None \/
                a = PlayCardAction c target /\ other_players v <> [])) \/
            (exists ty cards,
               In (ty, cards) (combos_of_hand (my_hand v)) /\
               ty <> five_different /\ other_players v <> [] /\
               a = PlayComboAction cards target)).
  { intros c ty r E H. right. left. now exists c, ty, r. }
  destruct (get_cards_of_type v "SeeTheFutureCard") as [|p0 pr] eqn:Ep.
  2: destruct (0 <? draw_pile_count v)%Z;
    [apply (Hcard _ _ _ Ep); now left |].
  all: destruct (1 <? my_turns_remaining v)%Z.
  all: try (destruct (get_cards_of_type v "AttackCard") as [|a0 ar] eqn:Ea;
            [| destruct (other_players v) as [|o os] eqn:Eo;
               [| apply (Hcard _ _ _ Ea); right; split;
                  [exact Ha | discriminate]]]).
  all: try (destruct (get_cards_of_type v "SkipCard") as [|k0 kr] eqn:Ek;
            [| apply (Hcard _ _ _ Ek); now left]).
  all: cbn [Py.truthy andb] in Ha.
  all: rewrite ?andb_false_r in Ha.
  all: try (left; exact Ha).
  all: rewrite ?andb_true_r in Ha.
  all: destruct (combos_of_hand (my_hand v)) as [|[ty cs] l] eqn:El.
  all: cbn [Py.truthy] in Ha.
  all: try (destruct (other_players v) as [|o os] eqn:Eo;
            cbn [Py.truthy andb] in Ha;
            rewrite ?andb_false_r in Ha;
            rewrite ?andb_true_r in Ha).
  all: try (left; exact Ha).
  all: try (destruct (Z.of_nat (length (my_hand v)) <? 3)%Z; [| now left];
            destruct (get_cards_of_type v "FavorCard") as [|f0 fr] eqn:Ef;
            [now left |];
            apply (Hcard _ _ _ Ef); right; split; [exact Ha | discriminate]).
  all: match type of Ha with
       | context [find ?f ?combos] =>
           destruct (find f combos) as [[ty' cs']|] eqn:Efind
       end.
  all: try (apply find_some in Efind as [Hin Hty];
            right; right; exists ty', cs';
            repeat split; [exact Hin | now destruct ty' | discriminate
                          | exact Ha]).
  all: destruct ty; cbn [ComboType_eqb orb] in Ha.
  all: try (right; right; eexists _, cs;
            repeat split; [now left | discriminate | discriminate
                          | exact Ha]).
  all: try (destruct (Z.of_nat (length (my_hand v)) <? 3)%Z; [| now left];
            destruct (get_cards_of_type v "FavorCard") as [|f0 fr] eqn:Ef;
            [now left |];
            apply (Hcard _ _ _ Ef); right; split; [exact Ha | discriminate]).
Qed.

(** Every action of my_bot's take_turn uses only what the view offers: a
    card played is in the hand, a target named is one of the other
    players, and a combo played is a pair or a triple the detector finds
    in the hand; my_bot never plays five different cards, although its
    detector reports them. *)
Theorem mybot_turn_is_legal :
  forall v : BotView,
    legal_action v (MyBot.take_turn v) /\
    pair_or_triple (my_hand v) (MyBot.take_turn v).
Proof.
  intros v.
  assert (Ht : forall t, Py.max_by (card_count v) (other_players v) = Some t ->
                 In t (other_players v))
    by (intros t Ht; now apply max_by_spec in Ht).
  destruct (mybot_turn_cases v)
    as [-> | [(c & ty & r & E & [-> | [-> Ho]])
             | (ty & cs & Hin & Hty & Ho & ->)]];
    cbn [legal_action pair_or_triple]; (split; [| try exact I]);
    try exact I.
  - split; [eapply hd_of_type, E | intros ? [=]].
  - split; [eapply hd_of_type, E | exact Ht].
  - split; [now exists ty | exact Ht].
  - now exists ty.
Qed.

(** Whenever my_bot's take_turn names a target, it is another player, and
    no other player holds more cards according to the view. *)
Theorem mybot_targets_largest_hand :
  forall (v : BotView) (t : string),
    target_of (MyBot.take_turn v) = Some t ->
    In t (other_players v) /\
    forall p, In p (other_players v) ->
      (card_count v p <= card_count v t)%Z.
Proof.
  intros v t.
  destruct (mybot_turn_cases v)
    as [-> | [(c & ty & r & E & [-> | [-> Ho]])
             | (ty & cs & Hin & _ & Ho & ->)]];
    cbn [target_of]; try discriminate; apply max_by_spec.
Qed.

Lemma mybot_targets_largest_hand_witness :
  In "bob" (other_players (view_of hand_three_two 10)) /\
  forall p, In p (other_players (view_of hand_three_two 10)) ->
    (card_count (view_of hand_three_two 10) p
     <= card_count (view_of hand_three_two 10) "bob")%Z.
Proof.
  apply mybot_targets_largest_hand. reflexivity.
Defined.

Lemma hd_type (v : BotView) (t : string) (c : Card) (r : list Card) :
  get_cards_of_type v t = c :: r -> card_type c = t.
Proof.
  intros E. unfold get_cards_of_type in E.
  destruct (filter_head_in _ _ _ _ E) as [_ H].
  now apply String.eqb_eq in H.
Qed.

Lemma max_by_filtered {A : Type} (key : A -> Z) (f : Z -> bool)
  (l : list A) (t : A) :
  (forall a b, f a = true -> (a <= b)%Z -> f b = true) ->
  Py.max_by key (List.filter (fun x => f (key x)) l) = Some t ->
  In t l /\ f (key t) = true /\ forall p, In p l -> (key p <= key t)%Z.
Proof.
  intros Hmono H. apply max_by_spec in H as [Hin Hmax].
  apply filter_In in Hin as [Hin Hf]. repeat split; try assumption.
  intros p Hp. destruct (f (key p)) eqn:Efp.
  - apply Hmax, filter_In. now split.
  - destruct (Z.le_gt_cases (key p) (key t)) as [Hle | Hgt]; [exact Hle |].
    rewrite (Hmono (key t) (key p) Hf) in Efp; [discriminate | lia].
Qed.

(** Working through a cascade of attempts, each of which either settles
    the result or leaves it to the next. *)
Lemma cascade {T : Type} (P : T -> Prop) (attempt : option T) (rest : T) :
  (forall r, attempt = Some r -> P r) -> P rest ->
  P (match attempt with Some r => r | None => rest end).
Proof. intros H1 H2. destruct attempt; [now apply H1 | exact H2]. Qed.

Lemma cascade_with {A S : Type} (P : A * S -> Prop) (attempt : option A)
  (s : S) (rest : A * S) :
  (forall a, attempt = Some a -> P (a, s)) -> P rest ->
  P (match attempt with Some a => (a, s) | None => rest end).
Proof. intros H1 H2. destruct attempt; [now apply H1 | exact H2]. Qed.

Lemma cascade_default {A S : Type} (P : A * S -> Prop) (attempt : option A)
  (s : S) (a0 : A) :
  (forall a, attempt = Some a -> P (a, s)) -> P (a0, s) ->
  P (default a0 attempt, s).
Proof. intros H1 H2. destruct attempt; [now apply H1 | exact H2]. Qed.

End LegalActions.

Ltac break_hyp H :=
  repeat match type of H with
         | context [match ?x with _ => _ end] =>
             destruct x eqn:?; try discriminate H
         end.

(** ** tft_bot's turns *)

Section TFTTurns.

Local Open Scope list_scope.
Import Notions Samples.

Variable can_play : Card -> BotView -> bool.

Lemma valid_target_top (v : BotView) (t : string) :
  Py.max_by (card_count v) (TFT.valid_targets v) = Some t -> top_target v t.
Proof.
  intros H. unfold TFT.valid_targets in H.
  apply (max_by_filtered (card_count v) (Z.ltb 0)) in H
    as (Hin & Hpos & Hmax); [| intros a b Ha Hab; lia].
  repeat split; [exact Hin | lia | exact Hmax].
Qed.

Lemma good_target_top (v : BotView) (n : Z) (t : string) :
  (0 < n)%Z ->
  Py.max_by (card_count v) (TFT.good_targets v n) = Some t -> top_target v t.
Proof.
  intros Hn H. unfold TFT.good_targets in H.
  apply (max_by_filtered (card_count v) (Z.leb n)) in H
    as (Hin & Hpos & Hmax); [| intros a b Ha Hab; lia].
  repeat split; [exact Hin | lia | exact Hmax].
Qed.

Lemma tft_flags_self (s : TFT.State) :
  s = TFT.set_turn_flags s (TFT._just_shuffled s) (TFT._ek_on_top s).
Proof. now destruct s. Qed.

Lemma tft_draw (v : BotView) (s st : TFT.State) :
  (exists j e, st = TFT.set_turn_flags s j e) ->
  tft_sound v s (DrawCardAction, st).
Proof.
  intros Hst. repeat split; cbn [fst snd target_of]; try discriminate.
  exact Hst.
Qed.

Lemma tft_card_none (v : BotView) (s st : TFT.State) (c : Card) :
  In c (my_hand v) ->
  (exists j e, st = TFT.set_turn_flags s j e) ->
  tft_sound v s (PlayCardAction c None, st).
Proof.
  intros Hc Hst. repeat split; cbn [fst snd target_of]; try discriminate.
  - exact Hc.
  - exact Hst.
Qed.

Lemma tft_card_target (v : BotView) (s st : TFT.State) (c : Card)
  (target : option string) :
  In c (my_hand v) ->
  (forall t, target = Some t -> top_target v t) ->
  (exists j e, st = TFT.set_turn_flags s j e) ->
  tft_sound v s (PlayCardAction c target, st).
Proof.
  intros Hc Ht Hst. repeat split; cbn [fst snd target_of]; try discriminate.
  - exact Hc.
  - intros t E. now apply Ht.
  - now apply Ht.
  - now apply Ht.
  - now apply Ht.
  - exact Hst.
Qed.

Lemma tft_combo (v : BotView) (s st : TFT.State) (ty : ComboType)
  (cards : list Card) (target : option string) :
  In (ty, cards) (combos_of_hand (my_hand v)) -> ty <> five_different ->
  (forall t, target = Some t -> top_target v t) ->
  (exists j e, st = TFT.set_turn_flags s j e) ->
  tft_sound v s (PlayComboAction cards target, st).
Proof.
  intros Hc Hty Ht Hst.
  repeat split; cbn [fst snd target_of]; try discriminate.
  - now exists ty.
  - intros t E. now apply Ht.
  - now apply Ht.
  - now apply Ht.
  - now apply Ht.
  - intros cs t [= <- _]. now exists ty.
  - exact Hst.
Qed.

Lemma tft_favor_play (v : BotView) (s st : TFT.State)
  (should_steal : string -> bool) (a : Action) :
  TFT.favor_play can_play v should_steal = Some a ->
  (exists j e, st = TFT.set_turn_flags s j e) ->
  tft_sound v s (a, st).
Proof.
  unfold TFT.favor_play. intros H Hst.
  destruct (get_cards_of_type v "FavorCard") as [|f0 fr] eqn:Ef;
    [discriminate |].
  destruct (List.filter _ (f0 :: fr)) as [|p0 pr] eqn:Ep; [discriminate |].
  destruct (Py.truthy (other_players v)); [| discriminate].
  destruct (Py.max_by _ (TFT.valid_targets v)) as [t|] eqn:Et;
    [| discriminate].
  destruct (should_steal t); [| discriminate].
  injection H as <-. apply tft_card_target; [| | exact Hst].
  - apply filter_head_in in Ep as [Hin _]. rewrite <- Ef in Hin.
    unfold get_cards_of_type in Hin. now apply filter_In in Hin.
  - intros ? [= <-]. now apply valid_target_top.
Qed.

Lemma tft_turn_sound (s : TFT.State) (v : BotView) :
  tft_sound v s (TFT.take_turn can_play s v).
Proof.
  unfold TFT.take_turn. cbv zeta.
  remember (if (my_turns_remaining v =? 1)%Z
            then TFT.set_turn_flags s false (TFT._ek_on_top s) else s)
    as s1 eqn:Es1.
  assert (Hs1 : exists j e, s1 = TFT.set_turn_flags s j e).
  { subst s1. destruct (my_turns_remaining v =? 1)%Z.
    - now eexists _, _.
    - eexists _, _. apply tft_flags_self. }
  clear Es1.
  assert (Hs2 : forall j e, exists j' e',
            TFT.set_turn_flags s1 j e = TFT.set_turn_flags s j' e').
  { intros j e. destruct Hs1 as (j1 & e1 & ->). now exists j, e. }
  destruct (negb (TFT._first_ek_drawn s1)); [now apply tft_draw |].
  apply cascade.
  { intros r Hr. break_hyp Hr. injection Hr as <-.
    apply tft_card_none; [eapply hd_of_type; eassumption | apply Hs2]. }
  apply cascade.
  { intros r Hr. break_hyp Hr; injection Hr as <-;
      (apply tft_card_none; [eapply hd_of_type; eassumption | apply Hs2]). }
  apply cascade_with.
  { intros a Ha. break_hyp Ha; injection Ha as <-;
      (apply tft_card_none; [eapply hd_of_type; eassumption | exact Hs1]). }
  apply cascade_with.
  { intros a Ha. rewrite tft_combos_spec in Ha.
    destruct (Py.truthy (combos_of_hand (my_hand v))
              && Py.truthy (other_players v)); [| discriminate].
    match type of Ha with
    | context [find ?f ?l] => destruct (find f l) as [[ty cs]|] eqn:Ef
    end.
    - apply find_some in Ef as [Hin Hty].
      destruct (Py.truthy (TFT.valid_targets v)).
      + injection Ha as <-. apply (tft_combo v s s1 ty);
          [exact Hin | now destruct ty | apply valid_target_top | exact Hs1].
      + break_hyp Ha.
    - destruct (combos_of_hand (my_hand v)) as [|[ty0 cs0] l] eqn:El;
        [discriminate |].
      destruct (ComboType_eqb ty0 two_of_a_kind
                || ComboType_eqb ty0 three_of_a_kind) eqn:Ety;
        [| discriminate].
      destruct (Py.truthy (TFT.valid_targets v)); [| discriminate].
      injection Ha as <-. apply (tft_combo v s s1 ty0);
        [rewrite El; now left | now destruct ty0 | apply valid_target_top
        | exact Hs1]. }
  apply cascade_with.
  { intros a Ha. now apply (tft_favor_play v s s1) in Ha. }
  apply cascade_with.
  { intros a Ha. break_hyp Ha; injection Ha as <-;
      (apply tft_card_none; [eapply hd_of_type; eassumption | exact Hs1]). }
  apply cascade_with.
  { intros a Ha.
    match type of Ha with
    | context [Py.fge ?x ?y] => destruct (Py.fge x y); [| discriminate]
    end.
    match type of Ha with
    | context [TFT.favor_play can_play v ?f] =>
        destruct (TFT.favor_play can_play v f) as [fa|] eqn:Ef
    end.
    - injection Ha as <-. now apply (tft_favor_play v s s1) in Ef.
    - break_hyp Ha. injection Ha as <-.
      apply tft_card_none; [eapply hd_of_type; eassumption | exact Hs1]. }
  apply cascade_with.
  { intros a Ha.
    destruct (get_cards_of_type v "AttackCard") as [|a0 ar] eqn:Ea;
      [discriminate |].
    match type of Ha with
    | context [if ?b then _ else _] => destruct b; [| discriminate]
    end.
    destruct (TFT.good_targets v 6) as [|g gs] eqn:Eg; [discriminate |].
    injection Ha as <-. apply tft_card_target;
      [eapply hd_of_type; eassumption | | exact Hs1].
    intros t Ht. apply (good_target_top v 6); [lia |].
    rewrite Eg. exact Ht. }
  apply cascade_default; [| now apply tft_draw].
  intros a Ha.
  destruct (get_cards_of_type v "AttackCard") as [|a0 ar] eqn:Ea;
    [discriminate |].
  break_hyp Ha.
  injection Ha as <-. apply tft_card_target;
    [eapply hd_of_type; eassumption
    | intros t; now apply good_target_top | exact Hs1].
Qed.

End TFTTurns.

Section TFTPolicy.

Local Open Scope list_scope.
Import Notions Samples.

(** Every action tft_bot's take_turn returns uses only what the view
    offers, whatever the engine's answer to can_play: a card played is in
    the hand, a target named is one of the other players, and a combo
    played is a pair or a triple the detector finds in the hand; tft_bot
    never plays five different cards. *)
Theorem tft_turn_is_legal :
  forall (can_play : Card -> BotView -> bool) (s : TFT.State) (v : BotView),
    legal_action v (fst (TFT.take_turn can_play s v)) /\
    pair_or_triple (my_hand v) (fst (TFT.take_turn can_play s v)).
Proof.
  intros can_play s v.
  destruct (tft_turn_sound can_play s v) as (Hlegal & _ & Hcombo & _).
  split; [exact Hlegal |].
  destruct (fst (TFT.take_turn can_play s v)) as [| c t | cards t];
    cbn [pair_or_triple]; try exact I.
  now apply (Hcombo cards t).
Qed.

(** Whenever tft_bot's take_turn names a target, it is another player who
    holds at least one card, and no other player holds more. *)
Theorem tft_targets_largest_hand :
  forall (can_play : Card -> BotView -> bool) (s : TFT.State) (v : BotView)
         (t : string),
    target_of (fst (TFT.take_turn can_play s v)) = Some t ->
    In t (other_players v) /\ (0 < card_count v t)%Z /\
    forall p, In p (other_players v) ->
      (card_count v p <= card_count v t)%Z.
Proof.
  intros can_play s v t H.
  now apply (tft_turn_sound can_play s v).
Qed.

Lemma tft_targets_largest_hand_witness :
  In "bob" (other_players (view_of hand_three_two 10)) /\
  (0 < card_count (view_of hand_three_two 10) "bob")%Z /\
  forall p, In p (other_players (view_of hand_three_two 10)) ->
    (card_count (view_of hand_three_two 10) p
     <= card_count (view_of hand_three_two 10) "bob")%Z.
Proof.
  apply (tft_targets_largest_hand (fun _ _ => true)
           (TFT.set_deck TFT.__init__ true false false)).
  reflexivity.
Defined.

(** The estimate of tft_bot does not depend on its state: whether or not
    the number of players was recorded at the start of the game, the
    estimate is the number of other players (at least one) over the size
    of the draw pile, and 0 for an empty pile. *)
Theorem tft_estimate_from_view_alone :
  forall (s : TFT.State) (v : BotView),
    TFT._calculate_ek_probability s v =
    if (draw_pile_count v =? 0)%Z then 0%Q
    else (Py.float (Z.max 1 (Z.of_nat (length (other_players v))))
          / Py.float (draw_pile_count v))%Q.
Proof.
  intros s v. unfold TFT._calculate_ek_probability.
  destruct (draw_pile_count v =? 0)%Z; [reflexivity |]. cbv zeta.
  destruct (0 <? TFT._num_players s)%Z; do 3 f_equal; lia.
Qed.

Lemma tft_turn_keeps_first (can_play : Card -> BotView -> bool)
  (s : TFT.State) (v : BotView) :
  TFT._first_ek_drawn (snd (TFT.take_turn can_play s v))
  = TFT._first_ek_drawn s.
Proof.
  destruct (tft_turn_sound can_play s v) as (_ & _ & _ & j & e & ->).
  reflexivity.
Qed.

Lemma tft_event_keeps_first (s : TFT.State) (e : GameEvent) (v : BotView) :
  event_type e <> EXPLODING_KITTEN_DRAWN ->
  TFT._first_ek_drawn (TFT.on_event s e v) = TFT._first_ek_drawn s.
Proof.
  intros Hty. by_event e; try (now contradiction Hty);
    break_conditions; try reflexivity;
    destruct (default [] (d_card_types d)); break_conditions; reflexivity.
Qed.

(** From its creation until it is told of a drawn Exploding Kitten,
    tft_bot draws on every turn, whatever it holds and whatever else it
    has been told. *)
Theorem tft_draws_until_first_kitten :
  forall (can_play : Card -> BotView -> bool) (log : list Step) (v : BotView),
    heard EXPLODING_KITTEN_DRAWN log = false ->
    fst (TFT.take_turn can_play
           (play (TFT.take_turn can_play) TFT.on_event TFT.__init__ log) v)
    = DrawCardAction.
Proof.
  intros can_play log v Hlog.
  assert (Hs : TFT._first_ek_drawn
                 (play (TFT.take_turn can_play) TFT.on_event TFT.__init__ log)
               = false).
  { assert (Hgen : forall s, TFT._first_ek_drawn s = false ->
              TFT._first_ek_drawn
                (play (TFT.take_turn can_play) TFT.on_event s log) = false).
    { induction log as [|step log IH]; intros s Hs; [exact Hs |].
      cbn [heard existsb] in Hlog. apply orb_false_elim in Hlog as [H1 H2].
      unfold play. cbn [fold_left]. apply (IH H2).
      destruct step as [v0 | e v0].
      - now rewrite tft_turn_keeps_first.
      - rewrite tft_event_keeps_first; [exact Hs |].
        intros E. rewrite E in H1. discriminate. }
    now apply Hgen. }
  revert Hs.
  generalize (play (TFT.take_turn can_play) TFT.on_event TFT.__init__ log).
  intros s Hs. unfold TFT.take_turn. cbv zeta.
  remember (if (my_turns_remaining v =? 1)%Z
            then TFT.set_turn_flags s false (TFT._ek_on_top s) else s)
    as s1 eqn:Es1.
  assert (H1 : TFT._first_ek_drawn s1 = false)
    by (subst s1; now destruct (my_turns_remaining v =? 1)%Z).
  now rewrite H1.
Qed.

Lemma tft_draws_until_first_kitten_witness :
  fst (TFT.take_turn (fun _ _ => true)
         (play (TFT.take_turn (fun _ _ => true)) TFT.on_event TFT.__init__
            [Heard (plain GAME_START "bob") (view_of hand_three_two 10);
             Turn (view_of hand_three_two 10);
             Heard (plain DECK_SHUFFLED "bob") (view_of hand_three_two 9)])
         (view_of hand_three_two 9))
  = DrawCardAction.
Proof.
  apply tft_draws_until_first_kitten. reflexivity.
Defined.

(** Once a drawn Exploding Kitten has been reported and tft_bot believes
    one is on top, it does not draw as long as it holds a Skip card, or a
    Shuffle card with a non-empty draw pile: it plays one of the two. *)
Theorem tft_avoids_kitten_on_top :
  forall (can_play : Card -> BotView -> bool) (s : TFT.State) (v : BotView),
    TFT._first_ek_drawn s = true ->
    TFT._ek_on_top s = true ->
    get_cards_of_type v "SkipCard" <> [] \/
    (get_cards_of_type v "ShuffleCard" <> [] /\ (0 < draw_pile_count v)%Z) ->
    exists c, fst (TFT.take_turn can_play s v) = PlayCardAction c None /\
      In c (my_hand v) /\
      (card_type c = "SkipCard" \/ card_type c = "ShuffleCard").
Proof.
  intros can_play s v Hfirst Htop Hheld.
  remember (TFT.take_turn can_play s v) as r eqn:Hr.
  unfold TFT.take_turn in Hr. cbv zeta in Hr.
  remember (if (my_turns_remaining v =? 1)%Z
            then TFT.set_turn_flags s false (TFT._ek_on_top s) else s)
    as s1 eqn:Es1.
  assert (H1 : TFT._first_ek_drawn s1 = true)
    by (subst s1; now destruct (my_turns_remaining v =? 1)%Z).
  assert (H2 : TFT._ek_on_top s1 = true)
    by (subst s1; now destruct (my_turns_remaining v =? 1)%Z).
  clear Es1. rewrite H1, H2 in Hr. cbn [negb] in Hr.
  destruct (get_cards_of_type v "ShuffleCard") as [|h0 hr] eqn:Eh.
  - destruct (get_cards_of_type v "SkipCard") as [|k0 kr] eqn:Ek.
    + destruct Hheld as [[] | [[] _]]; reflexivity.
    + subst r. exists k0. repeat split.
      * eapply hd_of_type, Ek.
      * left. eapply hd_type, Ek.
  - destruct ((0 <? draw_pile_count v)%Z && negb (TFT._just_shuffled s1))
      eqn:Ec.
    + subst r. exists h0. repeat split.
      * eapply hd_of_type, Eh.
      * right. eapply hd_type, Eh.
    + destruct (get_cards_of_type v "SkipCard") as [|k0 kr] eqn:Ek.
      * destruct Hheld as [[] | [_ Hpile]]; [reflexivity |].
        apply Z.ltb_lt in Hpile. rewrite Hpile in Hr.
        subst r. exists h0. repeat split.
        -- eapply hd_of_type, Eh.
        -- right. eapply hd_type, Eh.
      * subst r. exists k0. repeat split.
        -- eapply hd_of_type, Ek.
        -- left. eapply hd_type, Ek.
Qed.

Lemma tft_avoids_kitten_on_top_witness :
  exists c,
    fst (TFT.take_turn (fun _ _ => true)
           (TFT.set_deck TFT.__init__ true false true)
           (view_of hand_three_two 10)) = PlayCardAction c None /\
    In c (my_hand (view_of hand_three_two 10)) /\
    (card_type c = "SkipCard" \/ card_type c = "ShuffleCard").
Proof.
  apply tft_avoids_kitten_on_top; [reflexivity | reflexivity |].
  left. discriminate.
Defined.

End TFTPolicy.

(** ** Mastermind's turns *)

Section MastermindTurns.

Local Open Scope list_scope.
Import Notions Samples.

Lemma min_pair_from_in {A : Type} (key : A -> Z * Q) (l : list A) :
  forall best, In (Py.min_pair_from key best l) (best :: l).
Proof.
  induction l as [|x l IH]; intros best; [now left |].
  cbn [Py.min_pair_from]. destruct (Py.pair_lt (key x) (key best)).
  - right. apply IH.
  - destruct (IH best) as [H | H]; [now left | right; now right].
Qed.

Lemma truthy_id_some (x : option string) (t : string) :
  Mastermind.truthy_id x = Some t -> x = Some t.
Proof.
  destruct x as [p|]; [| discriminate]. cbn [Mastermind.truthy_id].
  destruct (String.eqb p ""); [discriminate | congruence].
Qed.

Lemma mm_valid_in (v : BotView) (t : string) :
  In t (Mastermind.valid_targets v) -> In t (other_players v).
Proof. intros H. now apply filter_In in H. Qed.

Lemma mm_best_target_in (s : Mastermind.State) (v : BotView) (b : bool)
  (t : string) :
  Mastermind._choose_best_target s v b = Some t -> In t (other_players v).
Proof.
  unfold Mastermind._choose_best_target.
  destruct (other_players v) as [|o os] eqn:Eo; [discriminate |].
  rewrite <- Eo.
  destruct (Mastermind.valid_targets v) as [|x xs] eqn:Ev; [discriminate |].
  destruct b; intros [= <-]; apply mm_valid_in; rewrite Ev.
  - apply min_pair_from_in.
  - apply max_from_in.
Qed.

Lemma mm_weakest_target_in (s : Mastermind.State) (v : BotView) (t : string) :
  Mastermind._choose_weakest_target s v = Some t -> In t (other_players v).
Proof.
  unfold Mastermind._choose_weakest_target.
  destruct (other_players v) as [|o os] eqn:Eo; [discriminate |].
  rewrite <- Eo.
  destruct (Mastermind.valid_targets v) as [|x xs] eqn:Ev; [discriminate |].
  rewrite <- Ev. cbv zeta.
  destruct (List.filter _ (Mastermind.valid_targets v)) as [|w ws] eqn:Ew.
  - intros H. apply min_by_spec in H as [H _]. now apply mm_valid_in.
  - rewrite <- Ew. intros H. apply min_by_spec in H as [H _].
    apply filter_In in H as [H _]. now apply mm_valid_in.
Qed.

Lemma plain_draw (v : BotView) : plain_action v DrawCardAction.
Proof. now split. Qed.

Lemma plain_card (v : BotView) (c : Card) (ty : string) (r : list Card)
  (target : option string) :
  get_cards_of_type v ty = c :: r -> ty <> SHUFFLE ->
  (forall t, target = Some t -> In t (other_players v)) ->
  plain_action v (PlayCardAction c target).
Proof.
  intros E Hty Ht. split; [split |].
  - eapply hd_of_type, E.
  - exact Ht.
  - cbn [plays_card]. rewrite (hd_type _ _ _ _ E). now apply String.eqb_neq.
Qed.

Lemma plain_combo (v : BotView) (ty : ComboType) (cards : list Card)
  (target : option string) :
  In (ty, cards) (combos_of_hand (my_hand v)) ->
  (forall t, target = Some t -> In t (other_players v)) ->
  plain_action v (PlayComboAction cards target).
Proof.
  intros Hin Ht. split; [split |]; [now exists ty | exact Ht | reflexivity].
Qed.

Lemma first_combo_in (ty : ComboType) (combos : list Combo) (e : Combo) :
  Mastermind.first_combo ty combos = Some e -> In e combos /\ fst e = ty.
Proof.
  intros H. apply find_some in H as [Hin Hty]. split; [exact Hin |].
  destruct e as [ty' cs]. cbn [fst]. now destruct ty', ty.
Qed.

Lemma mm_combo_against (v : BotView) (targets : list string) (a : Action) :
  (forall t, In t targets -> In t (other_players v)) ->
  Mastermind._try_combo_against_targets v targets = Some a ->
  plain_action v a.
Proof.
  intros Hsub. unfold Mastermind._try_combo_against_targets.
  destruct targets as [|t0 ts] eqn:Et; [discriminate |]. rewrite <- Et in *.
  rewrite mastermind_combos_spec. cbv zeta.
  destruct (combos_of_hand (my_hand v)) as [|c0 cs] eqn:Ec; [discriminate |].
  rewrite <- Ec.
  assert (Htarget : forall t, Py.min_by (card_count v) targets = Some t ->
            In t (other_players v)).
  { intros t H. apply min_by_spec in H as [H _]. now apply Hsub. }
  destruct (Mastermind.first_combo three_of_a_kind _) as [[ty cards]|] eqn:E3.
  - intros [= <-]. apply first_combo_in in E3 as [Hin _].
    now apply (plain_combo v ty).
  - destruct (Mastermind.first_combo two_of_a_kind _) as [[ty cards]|] eqn:E2;
      [| discriminate].
    intros [= <-]. apply first_combo_in in E2 as [Hin _].
    now apply (plain_combo v ty).
Qed.

Lemma mm_best_combo (s : Mastermind.State) (v : BotView) (a : Action) :
  Mastermind._try_best_combo s v = Some a -> plain_action v a.
Proof.
  unfold Mastermind._try_best_combo.
  destruct (other_players v) as [|o os] eqn:Eo; [discriminate |].
  rewrite mastermind_combos_spec. cbv zeta.
  destruct (combos_of_hand (my_hand v)) as [|c0 cs] eqn:Ec; [discriminate |].
  rewrite <- Ec.
  destruct (Mastermind.valid_targets v) as [|x xs] eqn:Ev; [discriminate |].
  assert (Htarget : forall t,
            Some (match Mastermind.truthy_id
                          (Mastermind._choose_best_target s v false) with
                  | Some target => target
                  | None => x
                  end) = Some t -> In t (other_players v)).
  { intros t [= <-].
    destruct (Mastermind.truthy_id _) as [t|] eqn:Et.
    - apply truthy_id_some in Et. now apply mm_best_target_in in Et.
    - apply mm_valid_in. rewrite Ev. now left. }
  destruct (Mastermind.first_combo three_of_a_kind _) as [[ty cards]|] eqn:E3.
  { intros [= <-]. apply first_combo_in in E3 as [Hin _].
    now apply (plain_combo v ty). }
  destruct (Mastermind.first_combo two_of_a_kind _) as [[ty cards]|] eqn:E2.
  { intros [= <-]. apply first_combo_in in E2 as [Hin _].
    now apply (plain_combo v ty). }
  destruct (Mastermind.first_combo five_different _) as [[ty cards]|] eqn:E5;
    [| discriminate].
  destruct (last (discard_pile v)) as [top|]; [| discriminate].
  destruct (Py.mem _ _); [| discriminate].
  intros [= <-]. apply first_combo_in in E5 as [Hin _].
  apply (plain_combo v ty); [exact Hin | discriminate].
Qed.

Lemma mm_steal (s : Mastermind.State) (v : BotView) (q : Q) (a : Action) :
  Mastermind._try_steal s v q = Some a -> plain_action v a.
Proof.
  unfold Mastermind._try_steal.
  destruct (other_players v) as [|o os] eqn:Eo; [discriminate |].
  destruct (Mastermind._try_best_combo s v) as [c|] eqn:Ec.
  { intros [= <-]. now apply mm_best_combo in Ec. }
  destruct (get_cards_of_type v FAVOR) as [|f0 fr] eqn:Ef; [discriminate |].
  destruct (Mastermind.valid_targets v) as [|x xs] eqn:Ev; [discriminate |].
  rewrite <- Ev. cbv zeta.
  assert (Htarget : forall t,
            match List.filter (fun pid => (card_count v pid <=? 3)%Z)
                    (Mastermind.valid_targets v) with
            | [] => Py.max_by (card_count v) (Mastermind.valid_targets v)
            | _ :: _ =>
                Py.min_by (card_count v)
                  (List.filter (fun pid => (card_count v pid <=? 3)%Z)
                     (Mastermind.valid_targets v))
            end = Some t -> In t (other_players v)).
  { intros t. destruct (List.filter _ (Mastermind.valid_targets v))
      as [|w ws] eqn:Ew.
    - intros H. apply max_by_spec in H as [H _]. now apply mm_valid_in.
    - rewrite <- Ew. intros H. apply min_by_spec in H as [H _].
      apply filter_In in H as [H _]. now apply mm_valid_in. }
  destruct (match List.filter _ (Mastermind.valid_targets v) with
            | [] => _ | _ :: _ => _ end) as [t|]; [| discriminate].
  destruct (_ || _ || _ || _); [| discriminate].
  intros [= <-]. apply (plain_card v f0 FAVOR fr); [exact Ef | discriminate |].
  intros ? [= <-]. now apply Htarget.
Qed.

Lemma mm_defensive (s : Mastermind.State) (v : BotView) (a : Action) :
  Mastermind._play_defensive s v = Some a -> plain_action v a.
Proof.
  unfold Mastermind._play_defensive.
  destruct (get_cards_of_type v SKIP) as [|k0 kr] eqn:Ek.
  2: { intros [= <-]. now apply (plain_card v k0 SKIP kr). }
  destruct (get_cards_of_type v ATTACK) as [|a0 ar] eqn:Ea; [discriminate |].
  destruct (Py.truthy _); [| discriminate].
  destruct (Mastermind.truthy_id _) as [t|] eqn:Et; [| discriminate].
  destruct (_ || _); [| discriminate].
  intros [= <-]. apply (plain_card v a0 ATTACK ar); [exact Ea | discriminate |].
  intros ? [= <-]. apply truthy_id_some in Et.
  now apply mm_weakest_target_in in Et.
Qed.

Lemma mm_aggressive (s : Mastermind.State) (v : BotView) (q : Q) (a : Action) :
  Mastermind._play_aggressive s v q = Some a -> plain_action v a.
Proof.
  unfold Mastermind._play_aggressive.
  destruct (Mastermind._try_steal s v q) as [st|] eqn:Es.
  { intros [= <-]. now apply mm_steal in Es. }
  destruct (get_cards_of_type v ATTACK) as [|a0 ar] eqn:Ea; [discriminate |].
  destruct (Py.truthy _); [| discriminate].
  destruct (Mastermind.truthy_id _) as [t|] eqn:Et; [| discriminate].
  intros [= <-]. apply (plain_card v a0 ATTACK ar); [exact Ea | discriminate |].
  intros ? [= <-]. apply truthy_id_some in Et.
  now apply mm_best_target_in in Et.
Qed.

Lemma sound_plain (v : BotView) (s : Mastermind.State) (a : Action) :
  plain_action v a -> mastermind_sound v s (a, s).
Proof. intros [H1 H2]. split; [exact H1 | left; now split]. Qed.

Lemma sound_shuffle (v : BotView) (s : Mastermind.State) (c : Card)
  (r : list Card) :
  get_cards_of_type v SHUFFLE = c :: r ->
  mastermind_sound v s
    (PlayCardAction c None,
     Mastermind.set_last_shuffle s (Mastermind._turn_count s)).
Proof.
  intros E. split; [split |].
  - eapply hd_of_type, E.
  - discriminate.
  - right. left. split; [| reflexivity].
    cbn [fst plays_card]. now rewrite (hd_type _ _ _ _ E).
Qed.

Lemma sound_peek (v : BotView) (s : Mastermind.State) (c : Card)
  (r : list Card) :
  get_cards_of_type v STF = c :: r ->
  mastermind_sound v s
    (PlayCardAction c None,
     Mastermind.set_peek s (Mastermind._known_top_cards s) true).
Proof.
  intros E. split; [split |].
  - eapply hd_of_type, E.
  - discriminate.
  - right. right. split; [| reflexivity].
    cbn [fst plays_card]. now rewrite (hd_type _ _ _ _ E).
Qed.

Lemma mm_avoid (s : Mastermind.State) (v : BotView) :
  mastermind_sound v s (Mastermind._avoid_ek_on_top s v).
Proof.
  unfold Mastermind._avoid_ek_on_top.
  destruct (get_cards_of_type v SKIP) as [|k0 kr] eqn:Ek.
  2: { now apply sound_plain, (plain_card v k0 SKIP kr). }
  destruct (get_cards_of_type v SHUFFLE) as [|h0 hr] eqn:Eh.
  2: { now apply (sound_shuffle v s h0 hr). }
  cbv zeta. apply cascade_default; [| apply sound_plain, plain_draw].
  intros a Ha.
  destruct (get_cards_of_type v ATTACK) as [|a0 ar] eqn:Ea; [discriminate |].
  destruct (Py.truthy _); [| discriminate].
  destruct (Mastermind.truthy_id _) as [t|] eqn:Et; [| discriminate].
  injection Ha as <-.
  apply sound_plain, (plain_card v a0 ATTACK ar); [exact Ea | discriminate |].
  intros ? [= <-]. apply truthy_id_some in Et.
  now apply mm_best_target_in in Et.
Qed.

Lemma mm_weak_combo (v : BotView) (n : Z) (a : Action) :
  (if Py.truthy (other_players v)
   then
     match List.filter (fun pid => (card_count v pid <=? n)%Z)
             (other_players v) with
     | [] => None
     | _ :: _ =>
         Mastermind._try_combo_against_targets v
           (List.filter (fun pid => (card_count v pid <=? n)%Z)
              (other_players v))
     end
   else None) = Some a ->
  plain_action v a.
Proof.
  destruct (Py.truthy _); [| discriminate].
  destruct (List.filter _ (other_players v)) as [|w ws] eqn:Ew;
    [discriminate |].
  rewrite <- Ew. apply mm_combo_against.
  intros t Ht. now apply filter_In in Ht.
Qed.

Lemma mm_midgame (s : Mastermind.State) (v : BotView) (q : Q) :
  mastermind_sound v s (Mastermind._midgame_strategy s v q).
Proof.
  unfold Mastermind._midgame_strategy. cbv zeta.
  destruct (Mastermind.ek_on_top s); [apply mm_avoid |].
  apply cascade_with.
  { intros a Ha. apply sound_plain.
    destruct (Py.truthy _); [| discriminate].
    destruct (List.filter _ (other_players v)) as [|w ws] eqn:Ew;
      [discriminate |].
    rewrite <- Ew in Ha.
    assert (Hsub : forall t, In t (List.filter
                (fun pid => (card_count v pid <=? 3)%Z
                   && negb (default false
                              (Mastermind._opponent_defuses_used s !! pid)))
                (other_players v)) -> In t (other_players v))
      by (intros t Ht; now apply filter_In in Ht).
    destruct (Mastermind._try_combo_against_targets v _) as [c|] eqn:Ec.
    - injection Ha as <-. now apply mm_combo_against in Ec.
    - destruct (get_cards_of_type v FAVOR) as [|f0 fr] eqn:Ef;
        [discriminate |].
      injection Ha as <-.
      apply (plain_card v f0 FAVOR fr); [exact Ef | discriminate |].
      intros t Ht. apply min_by_spec in Ht as [Ht _]. now apply Hsub. }
  apply cascade.
  { intros r Hr. break_hyp Hr. injection Hr as <-.
    eapply sound_peek; eassumption. }
  apply cascade.
  { intros r Hr. break_hyp Hr. injection Hr as <-.
    eapply sound_shuffle; eassumption. }
  apply cascade_with.
  { intros a Ha. apply sound_plain.
    match type of Ha with
    | context [if ?b then _ else _] => destruct b; [| discriminate]
    end.
    now apply mm_steal in Ha. }
  apply cascade_with.
  { intros a Ha. apply sound_plain.
    match type of Ha with
    | context [if ?b then _ else _] => destruct b; [| discriminate]
    end.
    now apply mm_defensive in Ha. }
  destruct (Py.flt q (40 # 100)); [apply sound_plain, plain_draw |].
  apply cascade_default; [| apply sound_plain, plain_draw].
  intros a Ha. now apply sound_plain, (mm_defensive s).
Qed.

Lemma mm_early (s : Mastermind.State) (v : BotView) (q : Q) :
  mastermind_sound v s (Mastermind._early_game_strategy s v q).
Proof.
  unfold Mastermind._early_game_strategy. cbv zeta.
  destruct (Mastermind._turn_count s =? 1)%Z;
    [apply sound_plain, plain_draw |].
  destruct (Mastermind.ek_on_top s); [apply mm_avoid |].
  apply cascade.
  { intros r Hr. break_hyp Hr. injection Hr as <-.
    eapply sound_peek; eassumption. }
  apply cascade_with.
  { intros a Ha. now apply sound_plain, (mm_weak_combo v 2). }
  destruct (_ && _); [apply sound_plain, plain_draw | apply mm_midgame].
Qed.

Lemma mm_late (s : Mastermind.State) (v : BotView) (q : Q) :
  mastermind_sound v s (Mastermind._late_game_strategy s v q).
Proof.
  unfold Mastermind._late_game_strategy. cbv zeta.
  destruct (Mastermind.ek_on_top s); [apply mm_avoid |].
  apply cascade_with.
  { intros a Ha. apply sound_plain.
    match type of Ha with
    | context [if ?b then _ else _] => destruct b; [| discriminate]
    end.
    now apply mm_defensive in Ha. }
  apply cascade_with.
  { intros a Ha. apply sound_plain.
    match type of Ha with
    | context [if ?b then _ else _] => destruct b; [| discriminate]
    end.
    destruct (get_cards_of_type v ATTACK) as [|a0 ar] eqn:Ea; [discriminate |].
    destruct (Mastermind.truthy_id _) as [t|] eqn:Et; [| discriminate].
    injection Ha as <-.
    apply (plain_card v a0 ATTACK ar); [exact Ea | discriminate |].
    intros ? [= <-]. apply truthy_id_some in Et.
    now apply mm_weakest_target_in in Et. }
  apply cascade.
  { intros r Hr. break_hyp Hr. injection Hr as <-.
    eapply sound_shuffle; eassumption. }
  apply cascade_with.
  { intros a Ha. now apply sound_plain, (mm_weak_combo v 2). }
  apply cascade_with.
  { intros a Ha. apply sound_plain.
    match type of Ha with
    | context [if ?b then _ else _] => destruct b; [| discriminate]
    end.
    now apply mm_defensive in Ha. }
  apply cascade_default; [| apply sound_plain, plain_draw].
  intros a Ha. apply sound_plain. break_hyp Ha. injection Ha as <-.
  eapply (plain_card v _ STF); [eassumption | discriminate | discriminate].
Qed.

Lemma mm_turn (s : Mastermind.State) (v : BotView) :
  mastermind_sound v (Mastermind.begin_turn s v) (Mastermind.take_turn s v).
Proof.
  unfold Mastermind.take_turn. cbv zeta.
  destruct (Mastermind._update_game_phase _ v);
    [apply mm_early | apply mm_midgame | apply mm_late].
Qed.

(** Every action Mastermind's take_turn returns uses only what the view
    offers: a card played is in the hand, a combo played is one the
    detector finds in the hand, and a target named is one of the other
    players. *)
Theorem mastermind_turn_is_legal :
  forall (s : Mastermind.State) (v : BotView),
    legal_action v (fst (Mastermind.take_turn s v)).
Proof.
  intros s v. apply (mm_turn s v).
Qed.

(** Mastermind stamps its Shuffle plays: after a turn, the recorded turn
    of the last shuffle is the number of this turn if the action plays a
    Shuffle card, and is unchanged otherwise. *)
Theorem mastermind_shuffle_stamps_turn :
  forall (s : Mastermind.State) (v : BotView),
    Mastermind._last_shuffle_turn (snd (Mastermind.take_turn s v)) =
    if plays_card SHUFFLE (fst (Mastermind.take_turn s v))
    then (Mastermind._turn_count s + 1)%Z
    else Mastermind._last_shuffle_turn s.
Proof.
  intros s v.
  destruct (mm_turn s v) as [_ [[-> ->] | [[-> ->] | [-> ->]]]]; reflexivity.
Qed.

(** With an Exploding Kitten known to be on top, Mastermind does not draw
    as long as it holds a Skip or a Shuffle card: in every phase it plays
    one of the two (the very first turn of a game apart). *)
Theorem mastermind_avoids_known_kitten :
  forall (s : Mastermind.State) (v : BotView),
    Mastermind.ek_on_top s = true ->
    Mastermind._turn_count s <> 0%Z ->
    get_cards_of_type v SKIP <> [] \/ get_cards_of_type v SHUFFLE <> [] ->
    exists c, fst (Mastermind.take_turn s v) = PlayCardAction c None /\
      In c (my_hand v) /\ (card_type c = SKIP \/ card_type c = SHUFFLE).
Proof.
  intros s v Htop Hturn Hheld.
  assert (Havoid : forall s1,
            exists c, fst (Mastermind._avoid_ek_on_top s1 v)
                      = PlayCardAction c None /\
              In c (my_hand v) /\ (card_type c = SKIP \/ card_type c = SHUFFLE)).
  { intros s1. unfold Mastermind._avoid_ek_on_top.
    destruct (get_cards_of_type v SKIP) as [|k0 kr] eqn:Ek.
    - destruct (get_cards_of_type v SHUFFLE) as [|h0 hr] eqn:Eh.
      + destruct Hheld as [[] | []]; reflexivity.
      + exists h0. repeat split;
          [eapply hd_of_type, Eh | right; eapply hd_type, Eh].
    - exists k0. repeat split;
        [eapply hd_of_type, Ek | left; eapply hd_type, Ek]. }
  unfold Mastermind.take_turn. cbv zeta.
  assert (Htop1 : Mastermind.ek_on_top (Mastermind.begin_turn s v) = true)
    by exact Htop.
  assert (Hturn1 : (Mastermind._turn_count (Mastermind.begin_turn s v) =? 1)%Z
                   = false)
    by (apply Z.eqb_neq; cbn [Mastermind.begin_turn Mastermind._turn_count];
        lia).
  destruct (Mastermind._update_game_phase _ v).
  - unfold Mastermind._early_game_strategy. now rewrite Hturn1, Htop1.
  - unfold Mastermind._midgame_strategy. now rewrite Htop1.
  - unfold Mastermind._late_game_strategy. now rewrite Htop1.
Qed.

Lemma mastermind_avoids_known_kitten_witness :
  exists c,
    fst (Mastermind.take_turn
           (mastermind_knowing (Some [EXPLODING; "SkipCard"]))
           (view_of hand_three_two 10)) = PlayCardAction c None /\
    In c (my_hand (view_of hand_three_two 10)) /\
    (card_type c = SKIP \/ card_type c = SHUFFLE).
Proof.
  apply mastermind_avoids_known_kitten;
    [reflexivity | discriminate | left; discriminate].
Defined.

End MastermindTurns.

(** ** Turn counters and opening moves *)

Section Openings.

Local Open Scope list_scope.
Import Notions Samples.

Lemma aaron_turn_state (s : Aaron.State) (v : BotView) :
  snd (Aaron.take_turn s v) = Aaron.begin_turn s v.
Proof.
  unfold Aaron.take_turn. cbv zeta.
  destruct (Aaron._is_first_turn _); [reflexivity |].
  now destruct (Aaron._play_after_first_ek _ v).
Qed.

Lemma aaron_event_keeps_counters (s : Aaron.State) (e : GameEvent)
  (v : BotView) :
  Aaron._turn_count (Aaron.on_event s e v) = Aaron._turn_count s /\
  Aaron._initial_player_count (Aaron.on_event s e v)
  = Aaron._initial_player_count s.
Proof.
  by_event e; break_conditions; now split.
Qed.

Lemma mastermind_update_keeps_counters (s : Mastermind.State) (p : string) :
  Mastermind._turn_count (Mastermind._update_opponent_model s p)
  = Mastermind._turn_count s /\
  Mastermind._initial_player_count (Mastermind._update_opponent_model s p)
  = Mastermind._initial_player_count s.
Proof.
  unfold Mastermind._update_opponent_model, Mastermind.touch_counts.
  cbv zeta. destruct (Mastermind._opponent_card_counts s !! p);
    now destruct (Nat.eqb _ 0).
Qed.

Lemma mastermind_event_keeps_counters (s : Mastermind.State) (e : GameEvent)
  (v : BotView) :
  Mastermind._turn_count (Mastermind.on_event s e v)
  = Mastermind._turn_count s /\
  Mastermind._initial_player_count (Mastermind.on_event s e v)
  = Mastermind._initial_player_count s.
Proof.
  pose proof mastermind_update_keeps_counters as Hu.
  by_event e; break_conditions; cbn;
    try (destruct (Hu (Mastermind.record_play s s0
                         (default "" (d_card_type d))) s0) as [-> ->]);
    now split.
Qed.

Lemma mastermind_turn_counts (s : Mastermind.State) (v : BotView) :
  Mastermind._turn_count (snd (Mastermind.take_turn s v))
  = (Mastermind._turn_count s + 1)%Z.
Proof.
  destruct (mm_turn s v) as [_ [[_ ->] | [[_ ->] | [_ ->]]]]; reflexivity.
Qed.

Lemma turns_cons (step : Step) (log : list Step) :
  turns (step :: log)
  = ((match step with Turn _ => 1 | Heard _ _ => 0 end) + turns log)%Z.
Proof.
  unfold turns. cbn [List.filter]. destruct step; cbn [length]; lia.
Qed.

Lemma aaron_play_counts (log : list Step) :
  forall s,
    Aaron._turn_count (play Aaron.take_turn Aaron.on_event s log)
    = (Aaron._turn_count s + turns log)%Z.
Proof.
  induction log as [|step log IH]; intros s.
  - unfold turns. cbn. lia.
  - unfold play in *. cbn [fold_left]. rewrite IH, turns_cons.
    destruct step as [v | e v].
    + rewrite aaron_turn_state. cbn. lia.
    + destruct (aaron_event_keeps_counters s e v) as [-> _]. lia.
Qed.

Lemma mastermind_play_counts (log : list Step) :
  forall s,
    Mastermind._turn_count
      (play Mastermind.take_turn Mastermind.on_event s log)
    = (Mastermind._turn_count s + turns log)%Z.
Proof.
  induction log as [|step log IH]; intros s.
  - unfold turns. cbn. lia.
  - unfold play in *. cbn [fold_left]. rewrite IH, turns_cons.
    destruct step as [v | e v].
    + rewrite mastermind_turn_counts. lia.
    + destruct (mastermind_event_keeps_counters s e v) as [-> _]. lia.
Qed.

(** The turn counters of aaron and Mastermind count the bot's own turns:
    after any sequence of turns and events from its creation, the counter
    equals the number of turns taken. *)
Theorem turn_counters_count_turns :
  forall log : list Step,
    Aaron._turn_count (play Aaron.take_turn Aaron.on_event Aaron.__init__ log)
    = turns log /\
    Mastermind._turn_count
      (play Mastermind.take_turn Mastermind.on_event Mastermind.__init__ log)
    = turns log.
Proof.
  intros log. split;
    [rewrite aaron_play_counts | rewrite mastermind_play_counts];
    reflexivity.
Qed.

Lemma play_cons {S : Type} (take_turn : S -> BotView -> Action * S)
  (on_event : S -> GameEvent -> BotView -> S) (s : S) (step : Step)
  (log : list Step) :
  play take_turn on_event s (step :: log)
  = play take_turn on_event
      (match step with
       | Turn v => snd (take_turn s v)
       | Heard e v => on_event s e v
       end) log.
Proof. reflexivity. Qed.

Lemma turns_nonneg (log : list Step) : (0 <= turns log)%Z.
Proof. unfold turns. lia. Qed.

Lemma aaron_quiet_log (log : list Step) :
  turns log = 0%Z ->
  forall s,
    Aaron._turn_count (play Aaron.take_turn Aaron.on_event s log)
    = Aaron._turn_count s.
Proof.
  intros H s. rewrite aaron_play_counts. lia.
Qed.

Lemma mastermind_quiet_log (log : list Step) :
  turns log = 0%Z ->
  forall s,
    Mastermind._turn_count
      (play Mastermind.take_turn Mastermind.on_event s log)
    = Mastermind._turn_count s /\
    Mastermind._initial_player_count
      (play Mastermind.take_turn Mastermind.on_event s log)
    = Mastermind._initial_player_count s.
Proof.
  induction log as [|step log IH]; intros H s; [now split |].
  rewrite turns_cons in H. pose proof (turns_nonneg log) as Hlog.
  destruct step as [v | e v]; [lia |].
  rewrite play_cons.
  destruct (IH H (Mastermind.on_event s e v)) as [E1 E2].
  destruct (mastermind_event_keeps_counters s e v) as [E3 E4].
  split; [exact (eq_trans E1 E3) | exact (eq_trans E2 E4)].
Qed.

(** The first turn of a game is a draw: whatever events came before its
    first turn and whatever it holds, aaron draws, and so does Mastermind
    as long as the turn order still lists every player of the view. *)
Theorem first_turn_draws :
  forall (log : list Step) (v : BotView),
    turns log = 0%Z ->
    fst (Aaron.take_turn
           (play Aaron.take_turn Aaron.on_event Aaron.__init__ log) v)
    = DrawCardAction /\
    (length (turn_order v) = S (length (other_players v)) ->
     fst (Mastermind.take_turn
            (play Mastermind.take_turn Mastermind.on_event
               Mastermind.__init__ log) v)
     = DrawCardAction).
Proof.
  intros log v Hlog. split.
  - pose proof (aaron_quiet_log log Hlog Aaron.__init__) as Hcount.
    revert Hcount.
    generalize (play Aaron.take_turn Aaron.on_event Aaron.__init__ log).
    intros s Hcount. unfold Aaron.take_turn. cbv zeta.
    unfold Aaron._is_first_turn.
    cbn [Aaron.begin_turn Aaron._turn_count]. now rewrite Hcount.
  - intros Hview.
    destruct (mastermind_quiet_log log Hlog Mastermind.__init__)
      as [Hcount Hinit].
    revert Hcount Hinit.
    generalize (play Mastermind.take_turn Mastermind.on_event
                  Mastermind.__init__ log).
    intros s Hcount Hinit. cbn in Hcount, Hinit.
    unfold Mastermind.take_turn. cbv zeta.
    assert (Hphase : Mastermind._update_game_phase
                       (Mastermind.begin_turn s v) v = Mastermind.early).
    { unfold Mastermind._update_game_phase. cbv zeta.
      cbn [Mastermind.begin_turn Mastermind._initial_player_count].
      rewrite Hinit, Hview. cbn [Py.int_or].
      destruct (Z.eqb_spec (Z.of_nat (S (length (other_players v)))) 0);
        [lia |].
      now replace (Z.of_nat (length (other_players v)) + 1)%Z
        with (Z.of_nat (S (length (other_players v)))) by lia;
        rewrite Z.eqb_refl. }
    rewrite Hphase. unfold Mastermind._early_game_strategy.
    cbn [Mastermind.begin_turn Mastermind._turn_count]. now rewrite Hcount.
Qed.

Lemma first_turn_draws_witness :
  fst (Aaron.take_turn
         (play Aaron.take_turn Aaron.on_event Aaron.__init__
            [Heard (plain GAME_START "bob") (view_of hand_three_two 10);
             Heard (play_by "bob" SKIP) (view_of hand_three_two 10)])
         (view_of hand_three_two 10))
  = DrawCardAction /\
  fst (Mastermind.take_turn
         (play Mastermind.take_turn Mastermind.on_event Mastermind.__init__
            [Heard (plain GAME_START "bob") (view_of hand_three_two 10);
             Heard (play_by "bob" SKIP) (view_of hand_three_two 10)])
         (view_of hand_three_two 10))
  = DrawCardAction.
Proof.
  destruct (first_turn_draws
              [Heard (plain GAME_START "bob") (view_of hand_three_two 10);
               Heard (play_by "bob" SKIP) (view_of hand_three_two 10)]
              (view_of hand_three_two 10) eq_refl) as [Ha Hm].
  split; [exact Ha | apply Hm; reflexivity].
Defined.

End Openings.

(** ** aaron's choice of a target *)

Section AaronTargets.

Local Open Scope list_scope.
Import Notions Samples.

(** The target aaron chooses is one of the other players.  If the id of
    one of them starts with the strategic prefix, the first such player is
    chosen; otherwise the one holding the fewest cards when a weak defense
    is preferred, and the one holding the most cards when not.  Without
    other players there is no target. *)
Theorem aaron_target_choice :
  forall (v : BotView) (prefer_weak_defense : bool) (t : string),
    Aaron._choose_attack_target v prefer_weak_defense = Some t ->
    In t (other_players v) /\
    (String.prefix Aaron.STRATEGIC_BOT_PREFIX t = true \/
     (forall p, In p (other_players v) ->
        String.prefix Aaron.STRATEGIC_BOT_PREFIX p = false) /\
     (forall p, In p (other_players v) ->
        if prefer_weak_defense
        then (card_count v t <= card_count v p)%Z
        else (card_count v p <= card_count v t)%Z)).
Proof.
  intros v b t H. split; [now apply aaron_target_legal in H |].
  unfold Aaron._choose_attack_target in H.
  destruct (other_players v) as [|o os] eqn:Eo; [discriminate |].
  rewrite <- Eo in *.
  destruct (Aaron._find_strategic_bot_id v) as [sb|] eqn:Es.
  - injection H as <-. left. unfold Aaron._find_strategic_bot_id in Es.
    now apply find_some in Es.
  - right. unfold Aaron._find_strategic_bot_id in Es. split.
    + intros p Hp. exact (find_none _ _ Es p Hp).
    + intros p Hp. destruct b.
      * apply min_by_spec in H as [_ H]. now apply H.
      * apply max_by_spec in H as [_ H]. now apply H.
Qed.

Lemma aaron_target_choice_witness :
  In "bob" (other_players (view_of hand_three_two 10)) /\
  (String.prefix Aaron.STRATEGIC_BOT_PREFIX "bob" = true \/
   (forall p, In p (other_players (view_of hand_three_two 10)) ->
      String.prefix Aaron.STRATEGIC_BOT_PREFIX p = false) /\
   (forall p, In p (other_players (view_of hand_three_two 10)) ->
      (card_count (view_of hand_three_two 10) p
       <= card_count (view_of hand_three_two 10) "bob")%Z)).
Proof.
  apply (aaron_target_choice (view_of hand_three_two 10) false "bob").
  reflexivity.
Defined.

End AaronTargets.
